(** * MediRota rota solver core: a shallow embedding of
      [solver/app/solver_core.py] and [solver/app/models.py].

    Conventions of the embedding.
    - Python exceptions are values of [result]: a function that can raise
      returns [Raise e].
    - A Python [dict] is an insertion-ordered association list ([dict_set]
      keeps the position of an existing key, as CPython does), because the
      code iterates over its dictionaries and the iteration order reaches the
      output.
    - [float] fields (contractHoursPerWeek) are rationals of [Q]; [int(...)]
      is truncation towards zero.  Rounding of binary floating point is not
      modelled.
    - The CP-SAT engine is external: its answer (a status and a list of
      values, one per variable) is an input of [solve]; [cp_sat_contract]
      states what the engine promises about that answer. *)

From Stdlib Require Import ZArith List String Ascii Bool Lia QArith Qround.
From Stdlib Require Import Reals Lra.
From Stdlib Require Import Permutation Sorted.
Import ListNotations.

Set Warnings "-abstract-large-number".

Local Open Scope string_scope.
Local Open Scope Z_scope.

(* ------------------------------------------------------------------ *)
(** ** Exceptions *)

Inductive exn : Type :=
| ValueError | KeyError | IndexError | OverflowError | StopIteration.

Inductive result (A : Type) : Type :=
| Ok (a : A)
| Raise (e : exn).
Arguments Ok {A} a.
Arguments Raise {A} e.

Definition rbind {A B} (m : result A) (k : A -> result B) : result B :=
  match m with
  | Ok a => k a
  | Raise e => Raise e
  end.

Declare Scope result_scope.
Delimit Scope result_scope with result.
Notation "x <- m ;; k" := (rbind m (fun x => k))
  (at level 61, m at next level, right associativity) : result_scope.
Notation "' p <- m ;; k" := (rbind m (fun x => match x with p => k end))
  (at level 61, p pattern, m at next level, right associativity) : result_scope.

(** [for x in xs: body], where the body can raise. *)
Fixpoint rmap {A B} (f : A -> result B) (xs : list A) : result (list B) :=
  match xs with
  | [] => Ok []
  | x :: xs' =>
      match f x with
      | Raise e => Raise e
      | Ok b =>
          match rmap f xs' with
          | Raise e => Raise e
          | Ok bs => Ok (b :: bs)
          end
      end
  end.

(* ------------------------------------------------------------------ *)
(** ** Strings *)

Module Str.

Definition underscore : ascii := "_"%char.

(** [s.split(sep)] for a one-character separator: never empty. *)
Fixpoint split_aux (sep : ascii) (s : string) (cur : string) : list string :=
  match s with
  | EmptyString => [cur]
  | String c s' =>
      if Ascii.eqb c sep then cur :: split_aux sep s' ""
      else split_aux sep s' (cur ++ String c "")
  end.

Definition split (sep : ascii) (s : string) : list string :=
  split_aux sep s "".

Fixpoint contains (c : ascii) (s : string) : bool :=
  match s with
  | EmptyString => false
  | String a s' => Ascii.eqb a c || contains c s'
  end.

Definition is_digit (c : ascii) : bool :=
  let n := nat_of_ascii c in (48 <=? n)%nat && (n <=? 57)%nat.

Definition digit_val (c : ascii) : Z := Z.of_nat (nat_of_ascii c) - 48.

Definition digit_char (d : Z) : ascii := ascii_of_nat (Z.to_nat (d + 48)).

(** The value of a string of decimal digits; [None] when a character is
    not a digit or the string is empty. *)
Fixpoint digits_val (acc : Z) (s : string) : option Z :=
  match s with
  | EmptyString => Some acc
  | String c s' =>
      if is_digit c then digits_val (10 * acc + digit_val c) s' else None
  end.

Definition parse_digits (s : string) : option Z :=
  match s with
  | EmptyString => None
  | _ => digits_val 0 s
  end.

(** [str(n)] for [0 <= n], most significant digit first. *)
Fixpoint of_nat_aux (fuel : nat) (n : Z) (acc : string) : string :=
  match fuel with
  | O => acc
  | S f =>
      let acc' := String (digit_char (n mod 10)) acc in
      if n / 10 =? 0 then acc' else of_nat_aux f (n / 10) acc'
  end.

Definition of_Z (n : Z) : string :=
  if n <? 0 then "-" ++ of_nat_aux (S (Z.to_nat (Z.log2 (- n)))) (- n) ""
  else of_nat_aux (S (Z.to_nat (Z.log2 n))) n "".

(** [f"{n:0{w}d}"] for [0 <= n]. *)
Fixpoint zeros (k : nat) : string :=
  match k with O => "" | S k' => String "0"%char (zeros k') end.

Definition pad (w : nat) (n : Z) : string :=
  let s := of_Z n in zeros (w - String.length s) ++ s.

Definition substr (start len : nat) (s : string) : string :=
  String.substring start len s.

End Str.

(* ------------------------------------------------------------------ *)
(** ** Calendar dates ([datetime.date])

    A date is its proleptic Gregorian ordinal (1 = 0001-01-01), as
    [date.toordinal()]. *)

Module Date.

Definition MINYEAR : Z := 1.
Definition MAXYEAR : Z := 9999.

Definition is_leap (y : Z) : bool :=
  (y mod 4 =? 0) && (negb (y mod 100 =? 0) || (y mod 400 =? 0)).

Definition days_before_year (y : Z) : Z :=
  let y1 := y - 1 in y1 * 365 + y1 / 4 - y1 / 100 + y1 / 400.

Definition days_in_month (y m : Z) : Z :=
  if m =? 2 then (if is_leap y then 29 else 28)
  else if (m =? 4) || (m =? 6) || (m =? 9) || (m =? 11) then 30 else 31.

(** [_DAYS_BEFORE_MONTH], for a non-leap year. *)
Definition DAYS_BEFORE_MONTH (m : Z) : Z :=
  nth (Z.to_nat m) [0; 0; 31; 59; 90; 120; 151; 181; 212; 243; 273; 304; 334] 0.

Definition days_before_month (y m : Z) : Z :=
  DAYS_BEFORE_MONTH m + (if (2 <? m) && is_leap y then 1 else 0).

Definition ymd2ord (y m d : Z) : Z :=
  days_before_year y + days_before_month y m + d.

Definition MAXORDINAL : Z := ymd2ord 9999 12 31.

Definition DI400Y : Z := 146097.
Definition DI100Y : Z := 36524.
Definition DI4Y : Z := 1461.

(** [_ord2ymd] of CPython's datetime. *)
Definition ord2ymd (n0 : Z) : Z * Z * Z :=
  let n := n0 - 1 in
  let n400 := n / DI400Y in let n := n mod DI400Y in
  let year := n400 * 400 + 1 in
  let n100 := n / DI100Y in let n := n mod DI100Y in
  let n4 := n / DI4Y in let n := n mod DI4Y in
  let n1 := n / 365 in let n := n mod 365 in
  let year := year + n100 * 100 + n4 * 4 + n1 in
  if (n1 =? 4) || (n100 =? 4) then (year - 1, 12, 31)
  else
    let leapyear := (n1 =? 3) && (negb (n4 =? 24) || (n100 =? 3)) in
    let month := Z.shiftr (n + 50) 5 in
    let preceding :=
      DAYS_BEFORE_MONTH month + (if (2 <? month) && leapyear then 1 else 0) in
    if n <? preceding then
      let month' := month - 1 in
      let preceding' :=
        preceding - (nth (Z.to_nat month')
                       [0; 31; 28; 31; 30; 31; 30; 31; 31; 30; 31; 30; 31] 0
                     + (if (month' =? 2) && leapyear then 1 else 0)) in
      (year, month', n - preceding' + 1)
    else (year, month, n - preceding + 1).

(** [date.fromisoformat] on the extended form YYYY-MM-DD. *)
Definition fromisoformat (s : string) : result Z :=
  if negb (Nat.eqb (String.length s) 10) then Raise ValueError
  else
    match Str.parse_digits (Str.substr 0 4 s),
          Str.parse_digits (Str.substr 5 2 s),
          Str.parse_digits (Str.substr 8 2 s) with
    | Some y, Some m, Some d =>
        if String.eqb (Str.substr 4 1 s) "-"
           && String.eqb (Str.substr 7 1 s) "-"
           && (MINYEAR <=? y) && (y <=? MAXYEAR)
           && (1 <=? m) && (m <=? 12)
           && (1 <=? d) && (d <=? days_in_month y m)
        then Ok (ymd2ord y m d)
        else Raise ValueError
    | _, _, _ => Raise ValueError
    end.

(** [date.isoformat]. *)
Definition isoformat (o : Z) : string :=
  let '(y, m, d) := ord2ymd o in
  Str.pad 4 y ++ "-" ++ Str.pad 2 m ++ "-" ++ Str.pad 2 d.

(** [d + timedelta(days=k)]: OverflowError outside 0001-01-01..9999-12-31. *)
Definition add_days (o k : Z) : result Z :=
  let o' := o + k in
  if (1 <=? o') && (o' <=? MAXORDINAL) then Ok o' else Raise OverflowError.

(** [date.weekday()]: Monday is 0. *)
Definition weekday (o : Z) : Z := (o + 6) mod 7.

Definition isoweek1monday (year : Z) : Z :=
  let firstday := ymd2ord year 1 1 in
  let firstweekday := (firstday + 6) mod 7 in
  let week1monday := firstday - firstweekday in
  if 3 <? firstweekday then week1monday + 7 else week1monday.

(** [date.isocalendar()]: (ISO year, ISO week, ISO weekday). *)
Definition isocalendar (o : Z) : Z * Z * Z :=
  let '(year, _, _) := ord2ymd o in
  let week1monday := isoweek1monday year in
  let week := (o - week1monday) / 7 in
  let day := (o - week1monday) mod 7 in
  if week <? 0 then
    let year' := year - 1 in
    let w1 := isoweek1monday year' in
    (year', (o - w1) / 7 + 1, (o - w1) mod 7 + 1)
  else if (52 <=? week) && (isoweek1monday (year + 1) <=? o) then
    (year + 1, 1, day + 1)
  else (year, week + 1, day + 1).

End Date.

(* ------------------------------------------------------------------ *)
(** ** Clock times ([datetime.strptime(s, "%H:%M")])

    The result is the number of minutes since 1900-01-01 00:00, the date
    [strptime] gives when the format has none. *)

Module Clock.

(** The directive %H matches [2[0-3]|[0-1]\d|\d] and %M matches
    [[0-5]\d|\d]; what is left unmatched raises ValueError. *)
Definition parse_H (s : string) : option Z :=
  match s with
  | String a EmptyString => if Str.is_digit a then Some (Str.digit_val a) else None
  | String a (String b EmptyString) =>
      if Str.is_digit a && Str.is_digit b
         && (10 * Str.digit_val a + Str.digit_val b <=? 23)
      then Some (10 * Str.digit_val a + Str.digit_val b) else None
  | _ => None
  end.

Definition parse_M (s : string) : option Z :=
  match s with
  | String a EmptyString => if Str.is_digit a then Some (Str.digit_val a) else None
  | String a (String b EmptyString) =>
      if Str.is_digit a && Str.is_digit b && (Str.digit_val a <=? 5)
      then Some (10 * Str.digit_val a + Str.digit_val b) else None
  | _ => None
  end.

Definition strptime_HM (s : string) : result Z :=
  match Str.split ":"%char s with
  | [h; m] =>
      match parse_H h, parse_M m with
      | Some hh, Some mm => Ok (60 * hh + mm)
      | _, _ => Raise ValueError
      end
  | _ => Raise ValueError
  end.

(** [t + timedelta(days=1)], in minutes. *)
Definition DAY : Z := 1440.

End Clock.

(* ------------------------------------------------------------------ *)
(** ** Python dictionaries: insertion-ordered association lists *)

Section Dict.
Context {K V : Type} (keq : K -> K -> bool).

Definition dict : Type := list (K * V).

Fixpoint dict_get (k : K) (d : dict) : option V :=
  match d with
  | [] => None
  | (k', v) :: d' => if keq k k' then Some v else dict_get k d'
  end.

(** [k in d] *)
Definition dict_mem (k : K) (d : dict) : bool :=
  match dict_get k d with Some _ => true | None => false end.

(** [d[k]], which raises KeyError on a missing key. *)
Definition dict_getitem (k : K) (d : dict) : result V :=
  match dict_get k d with Some v => Ok v | None => Raise KeyError end.

(** [d[k] = v]: a new key goes last, an existing key keeps its place. *)
Fixpoint dict_set (k : K) (v : V) (d : dict) : dict :=
  match d with
  | [] => [(k, v)]
  | (k', v') :: d' =>
      if keq k k' then (k', v) :: d' else (k', v') :: dict_set k v d'
  end.

Definition dict_keys (d : dict) : list K := map fst d.
Definition dict_values (d : dict) : list V := map snd d.

End Dict.
Arguments dict K V : clear implicits.

Definition key3 : Type := string * string * string.
Definition key4 : Type := string * string * string * string.

Definition key3_eqb (a b : key3) : bool :=
  let '(a1, a2, a3) := a in
  let '(b1, b2, b3) := b in
  String.eqb a1 b1 && String.eqb a2 b2 && String.eqb a3 b3.

Definition key4_eqb (a b : key4) : bool :=
  let '(a1, a2, a3, a4) := a in
  let '(b1, b2, b3, b4) := b in
  String.eqb a1 b1 && String.eqb a2 b2 && String.eqb a3 b3 && String.eqb a4 b4.

(** [s in l] for a list of strings. *)
Definition str_in (s : string) (l : list string) : bool :=
  existsb (String.eqb s) l.

(* ------------------------------------------------------------------ *)
(** ** The request and response models ([models.py]) *)

Module Horizon.
Record t : Type := mk { start : string; end_ : string }.
End Horizon.

Module Ward.
Record t : Type := mk { id : string; name : string }.
End Ward.

Module ShiftType.
Record t : Type := mk {
  id : string;
  code : string;
  start : string;
  end_ : string;
  isNight : bool;
  durationMinutes : Z }.
End ShiftType.

Module Staff.
Record t : Type := mk {
  id : string;
  fullName : string;
  job : string;
  contractHoursPerWeek : Q;
  skills : list string;
  eligibleWards : list string }.
End Staff.

Module Demand.
Record t : Type := mk {
  wardId : string;
  date : string;
  slot : string;
  requirements : dict string Z }.
End Demand.

Module Rules.
Record t : Type := mk {
  minRestHours : Z;
  maxConsecutiveNights : Z;
  oneShiftPerDay : bool }.
End Rules.

Module Lock.
Record t : Type := mk {
  staffId : string; wardId : string; date : string; slot : string }.
End Lock.

Module Preference.
Record t : Type := mk {
  staffId : string; date : string; preferOff : bool; preferOn : bool }.
End Preference.

Module Hint.
Record t : Type := mk {
  staffId : string; wardId : string; date : string; slot : string }.
End Hint.

Inductive ObjectiveModel : Type := MIN_SOFT_PENALTIES | MIN_TOTAL_ASSIGNMENTS.

Module Request.
Record t : Type := mk {
  horizon : Horizon.t;
  wards : list Ward.t;
  shiftTypes : list ShiftType.t;
  staff : list Staff.t;
  demand : list Demand.t;
  rules : Rules.t;
  locks : list Lock.t;
  preferences : list Preference.t;
  objective : ObjectiveModel;
  timeBudgetMs : Z;
  hints : list Hint.t }.
End Request.

Module Assignment.
Record t : Type := mk {
  staffId : string;
  wardId : string;
  date : string;
  slot : string;
  shiftTypeId : string }.
End Assignment.

(* ------------------------------------------------------------------ *)
(** ** The CP-SAT model ([ortools.sat.python.cp_model])

    A variable is its index in the model, as in the engine's protocol
    buffer; two variables created under one name are different variables. *)

Definition var : Type := nat.

Record IntVarDecl : Type := mkVar { lb : Z; ub : Z; vname : string }.

Inductive LinearExpr : Type :=
| Const (c : Z)
| V (v : var)
| Add (a b : LinearExpr)
| Sub (a b : LinearExpr)
| Neg (a : LinearExpr)
| Scale (c : Z) (a : LinearExpr).

Inductive Constraint : Type :=
| Le (a b : LinearExpr)
| Eq (a b : LinearExpr)
| MaxEquality (target : var) (vs : list var)
| MinEquality (target : var) (vs : list var).

Record CpModel : Type := mkModel {
  variables : list IntVarDecl;
  constraints : list Constraint;
  objective : option LinearExpr }.

Definition empty_model : CpModel := mkModel [] [] None.

(** The model a builder leaves, started from the empty model. *)
Definition model_of {T} (c : CpModel -> result (T * CpModel)) : CpModel :=
  match c empty_model with
  | Ok (_, m) => m
  | Raise _ => empty_model
  end.

(** The builtin [sum] over expressions: [0 + e1 + e2 + ...]. *)
Definition py_sum (es : list LinearExpr) : LinearExpr :=
  fold_left Add es (Const 0).

(** *** The model builder: state (the model under construction) and
    exceptions. *)

Definition M (A : Type) : Type := CpModel -> result (A * CpModel).

Definition ret {A} (a : A) : M A := fun m => Ok (a, m).

Definition bind {A B} (c : M A) (k : A -> M B) : M B :=
  fun m => match c m with
           | Ok (a, m') => k a m'
           | Raise e => Raise e
           end.

Definition lift {A} (r : result A) : M A :=
  fun m => match r with Ok a => Ok (a, m) | Raise e => Raise e end.

Declare Scope build_scope.
Delimit Scope build_scope with build.
Notation "x <- c ;; k" := (bind c (fun x => k))
  (at level 61, c at next level, right associativity) : build_scope.
Notation "' p <- c ;; k" := (bind c (fun x => match x with p => k end))
  (at level 61, p pattern, c at next level, right associativity) : build_scope.
Notation "c ;;; k" := (bind c (fun _ => k))
  (at level 61, right associativity) : build_scope.

(** [for a in xs: s = body(s, a)] *)
Fixpoint foldM {A S} (f : S -> A -> M S) (xs : list A) (s : S) : M S :=
  match xs with
  | [] => ret s
  | a :: xs' => bind (f s a) (fun s' => foldM f xs' s')
  end.

(** [for a in xs: body(a)] *)
Definition for_ {A} (xs : list A) (f : A -> M unit) : M unit :=
  foldM (fun _ a => f a) xs tt.

Definition NewIntVar (lo hi : Z) (name : string) : M var :=
  fun m => Ok (List.length (variables m),
               mkModel (variables m ++ [mkVar lo hi name])%list
                       (constraints m) (objective m)).

Definition NewBoolVar (name : string) : M var := NewIntVar 0 1 name.

Definition NewConstant (c : Z) : M var := NewIntVar c c "".

Definition AddC (c : Constraint) : M unit :=
  fun m => Ok (tt, mkModel (variables m) (constraints m ++ [c])%list (objective m)).

Definition Minimize (e : LinearExpr) : M unit :=
  fun m => Ok (tt, mkModel (variables m) (constraints m) (Some e)).

(** *** What the engine answers *)

Inductive CpSolverStatus : Type :=
| UNKNOWN | MODEL_INVALID | FEASIBLE | INFEASIBLE | OPTIMAL.

Record CpSolverResponse : Type := mkResponse {
  status : CpSolverStatus;
  solution : list Z }.

(** [solver.Value(v)]: the engine's value of a variable; without a
    solution there is nothing to index. *)
Definition Value (r : CpSolverResponse) (v : var) : result Z :=
  match nth_error (solution r) v with
  | Some z => Ok z
  | None => Raise IndexError
  end.

Fixpoint eval (sol : list Z) (e : LinearExpr) : Z :=
  match e with
  | Const c => c
  | V v => nth v sol 0
  | Add a b => eval sol a + eval sol b
  | Sub a b => eval sol a - eval sol b
  | Neg a => - eval sol a
  | Scale c a => c * eval sol a
  end.

Definition list_max (l : list Z) : option Z :=
  match l with [] => None | x :: l' => Some (fold_left Z.max l' x) end.

Definition list_min (l : list Z) : option Z :=
  match l with [] => None | x :: l' => Some (fold_left Z.min l' x) end.

Definition holdsb (sol : list Z) (c : Constraint) : bool :=
  match c with
  | Le a b => eval sol a <=? eval sol b
  | Eq a b => eval sol a =? eval sol b
  | MaxEquality t vs =>
      match list_max (map (fun v => nth v sol 0) vs) with
      | Some mx => nth t sol 0 =? mx
      | None => false
      end
  | MinEquality t vs =>
      match list_min (map (fun v => nth v sol 0) vs) with
      | Some mn => nth t sol 0 =? mn
      | None => false
      end
  end.

Definition in_domain (d : IntVarDecl) (z : Z) : bool :=
  (lb d <=? z) && (z <=? ub d).

Fixpoint domains_ok (ds : list IntVarDecl) (sol : list Z) : bool :=
  match ds, sol with
  | [], [] => true
  | d :: ds', z :: sol' => in_domain d z && domains_ok ds' sol'
  | _, _ => false
  end.

(** A solution gives every variable a value of its domain and satisfies
    every constraint. *)
Definition feasibleb (m : CpModel) (sol : list Z) : bool :=
  domains_ok (variables m) sol && forallb (holdsb sol) (constraints m).

Definition feasible (m : CpModel) (sol : list Z) : Prop :=
  feasibleb m sol = true.

Definition objective_value (m : CpModel) (sol : list Z) : Z :=
  match objective m with Some e => eval sol e | None => 0 end.

(** The engine's contract: OPTIMAL and FEASIBLE come with a solution
    (a minimal one for OPTIMAL), INFEASIBLE means there is none, and every
    other status comes without values. *)
Definition cp_sat_contract (m : CpModel) (r : CpSolverResponse) : Prop :=
  match status r with
  | OPTIMAL =>
      feasible m (solution r) /\
      forall sol', feasible m sol' ->
                   objective_value m (solution r) <= objective_value m sol'
  | FEASIBLE => feasible m (solution r)
  | INFEASIBLE => solution r = [] /\ forall sol', ~ feasible m sol'
  | UNKNOWN | MODEL_INVALID => solution r = []
  end.

(* ------------------------------------------------------------------ *)
(** ** [RotaSolverCore]: the index builder *)

(** Objective weights of [RotaSolverCore.__init__]. *)
Module Weights.
Definition A : Z := 100000.
Definition B : Z := 100.
Definition C : Z := 1.
Definition D : Z := 1000000.
End Weights.

Definition nonempty {T} (l : list T) : bool :=
  match l with [] => false | _ => true end.

Fixpoint rfold {T S} (f : S -> T -> result S) (xs : list T) (s : S) : result S :=
  match xs with
  | [] => Ok s
  | a :: xs' =>
      match f s a with
      | Ok s' => rfold f xs' s'
      | Raise e => Raise e
      end
  end.

(** The loop of [_get_dates]: [n] rounds of append-then-advance. *)
Fixpoint dates_from (n : nat) (current : Z) : result (list string) :=
  match n with
  | O => Ok []
  | S n' =>
      (next <- Date.add_days current 1 ;;
       rest <- dates_from n' next ;;
       Ok (Date.isoformat current :: rest))%result
  end.

Definition _get_dates (h : Horizon.t) : result (list string) :=
  (start_date <- Date.fromisoformat (Horizon.start h) ;;
   end_date <- Date.fromisoformat (Horizon.end_ h) ;;
   dates_from (Z.to_nat (end_date - start_date + 1)) start_date)%result.

(** [_collect_skills]: the distinct requirement keys.  Python iterates a
    set in an order of its own; the model lists them by first occurrence. *)
Definition set_add (s : string) (l : list string) : list string :=
  if str_in s l then l else (l ++ [s])%list.

Definition _collect_skills (r : Request.t) : list string :=
  fold_left
    (fun skills d => fold_left (fun acc k => set_add k acc)
                       (dict_keys (Demand.requirements d)) skills)
    (Request.demand r) [].

Definition _build_demand_lookup (r : Request.t)
  : dict key4 Z * dict key3 bool :=
  fold_left
    (fun '(demand_req, has_demand_cell) d =>
       let cell_key := (Demand.date d, Demand.wardId d, Demand.slot d) in
       let has_demand_cell := dict_set key3_eqb cell_key true has_demand_cell in
       let demand_req :=
         fold_left
           (fun dr '(skill, count) =>
              dict_set key4_eqb
                (Demand.date d, Demand.wardId d, Demand.slot d, skill) count dr)
           (Demand.requirements d) demand_req in
       (demand_req, has_demand_cell))
    (Request.demand r) ([], []).

Definition _total_required (requirements : dict string Z) : Z :=
  fold_left Z.add (dict_values requirements) 0.

(** The two clock computations share their first lines: both parse the
    four times and roll the end of a night shift to the next day. *)
Definition shift_times (s1 s2 : ShiftType.t) : result (Z * Z * Z * Z) :=
  (start1 <- Clock.strptime_HM (ShiftType.start s1) ;;
   end1 <- Clock.strptime_HM (ShiftType.end_ s1) ;;
   start2 <- Clock.strptime_HM (ShiftType.start s2) ;;
   end2 <- Clock.strptime_HM (ShiftType.end_ s2) ;;
   let end1 := if ShiftType.isNight s1 then end1 + Clock.DAY else end1 in
   let end2 := if ShiftType.isNight s2 then end2 + Clock.DAY else end2 in
   Ok (start1, end1, start2, end2))%result.

Definition _shifts_overlap_same_day (s1 s2 : ShiftType.t) : result bool :=
  ('(start1, end1, start2, end2) <- shift_times s1 s2 ;;
   Ok (negb ((end1 <=? start2) || (end2 <=? start1))))%result.

(** [rest_hours = (start2 - end1).total_seconds() / 3600; rest_hours < 11],
    with the times in minutes. *)
Definition _insufficient_rest (s1 s2 : ShiftType.t) : result bool :=
  ('(start1, end1, start2, end2) <- shift_times s1 s2 ;;
   let rest_minutes := start2 - end1 in
   Ok (rest_minutes <? 11 * 60))%result.

Record ModelIndices : Type := mkIndices {
  staff_idx : dict string nat;
  ward_idx : dict string nat;
  date_idx : dict string nat;
  slot_idx : dict string nat;
  skill_idx : dict string nat;
  shift_type_idx : dict string nat;
  week_bins : dict string (list string);
  week_idx : dict string string;
  shift_durations : dict string Z;
  forbidden_adjacency : dict string (dict string bool) }.

(** [{k: i for i, k in enumerate(keys)}] *)
Definition enumerate_dict (keys : list string) : dict string nat :=
  fold_left (fun d '(i, k) => dict_set String.eqb k i d)
            (combine (seq 0 (List.length keys)) keys) [].

Definition week_key_of (date_obj : Z) : string :=
  let '(iso_year, iso_week, _) := Date.isocalendar date_obj in
  Str.of_Z iso_year ++ "-" ++ Str.pad 2 iso_week.

Definition build_week_bins (dates : list string)
  : result (dict string (list string) * dict string string) :=
  rfold
    (fun '(week_bins, week_idx) date_str =>
       (date_obj <- Date.fromisoformat date_str ;;
        let week_key := week_key_of date_obj in
        let week_bins :=
          if dict_mem String.eqb week_key week_bins then week_bins
          else dict_set String.eqb week_key [] week_bins in
        members <- dict_getitem String.eqb week_key week_bins ;;
        Ok (dict_set String.eqb week_key (members ++ [date_str])%list week_bins,
            dict_set String.eqb date_str week_key week_idx))%result)
    dates ([], []).

Definition build_forbidden_adjacency (sts : list ShiftType.t)
  : result (dict string (dict string bool)) :=
  rfold
    (fun fa st1 =>
       (row <- rfold (fun row st2 =>
                        (b <- _insufficient_rest st1 st2 ;;
                         Ok (dict_set String.eqb (ShiftType.id st2) b row))%result)
                     sts [] ;;
        Ok (dict_set String.eqb (ShiftType.id st1) row fa))%result)
    sts [].

Definition _create_indices (r : Request.t) : result ModelIndices :=
  (let staff_idx := enumerate_dict (map Staff.id (Request.staff r)) in
   let ward_idx := enumerate_dict (map Ward.id (Request.wards r)) in
   dates0 <- _get_dates (Request.horizon r) ;;
   let date_idx := enumerate_dict dates0 in
   let slot_idx := enumerate_dict (map ShiftType.code (Request.shiftTypes r)) in
   let skill_idx := enumerate_dict (_collect_skills r) in
   let shift_type_idx := enumerate_dict (map ShiftType.id (Request.shiftTypes r)) in
   dates <- _get_dates (Request.horizon r) ;;
   '(week_bins, week_idx) <- build_week_bins dates ;;
   let shift_durations :=
     fold_left (fun d st => dict_set String.eqb (ShiftType.id st)
                              (ShiftType.durationMinutes st) d)
               (Request.shiftTypes r) [] in
   forbidden_adjacency <- build_forbidden_adjacency (Request.shiftTypes r) ;;
   Ok (mkIndices staff_idx ward_idx date_idx slot_idx skill_idx shift_type_idx
                 week_bins week_idx shift_durations forbidden_adjacency))%result.

(* ------------------------------------------------------------------ *)
(** ** [RotaSolverCore]: variables and constraints *)

Definition x_name (e d s w : string) : string :=
  "x_" ++ e ++ "_" ++ d ++ "_" ++ s ++ "_" ++ w.

Definition y_name (e d s w k : string) : string :=
  "y_" ++ e ++ "_" ++ d ++ "_" ++ s ++ "_" ++ w ++ "_" ++ k.

Definition u_name (d s w k : string) : string :=
  "u_" ++ d ++ "_" ++ s ++ "_" ++ w ++ "_" ++ k.

(** Nested [for] loops with nothing between their headers run over the
    product of their ranges, first range outermost. *)
Definition prod2 {T1 T2} (l1 : list T1) (l2 : list T2) : list (T1 * T2) :=
  flat_map (fun a => map (fun b => (a, b)) l2) l1.

Definition prod3 {T1 T2 T3} (l1 : list T1) (l2 : list T2) (l3 : list T3)
  : list (T1 * T2 * T3) :=
  flat_map (fun a => map (fun bc => (a, fst bc, snd bc)) (prod2 l2 l3)) l1.

Definition prod4 {T1 T2 T3 T4} (l1 : list T1) (l2 : list T2) (l3 : list T3)
  (l4 : list T4) : list (T1 * T2 * T3 * T4) :=
  flat_map (fun a => map (fun '(b, c, d) => (a, b, c, d)) (prod3 l2 l3 l4)) l1.

Definition prod5 {T1 T2 T3 T4 T5} (l1 : list T1) (l2 : list T2) (l3 : list T3)
  (l4 : list T4) (l5 : list T5) : list (T1 * T2 * T3 * T4 * T5) :=
  flat_map (fun a => map (fun '(b, c, d, e) => (a, b, c, d, e))
                       (prod4 l2 l3 l4 l5)) l1.

Definition xdict : Type := dict string var.

Local Open Scope build_scope.

(** Step 3 of [_build_model]: x[e,d,w,s], one Boolean per staff member and
    cell; [has_demand_cell[(d, w, s)]] raises KeyError on a cell that no
    demand entry names. *)
Definition create_x_vars (E D WARDS SLOTS : list string)
  (has_demand_cell : dict key3 bool) : M xdict :=
  foldM
    (fun x '(e, d, w, s) =>
       hd <- lift (dict_getitem key3_eqb (d, w, s) has_demand_cell) ;;
       if hd : bool then
         let var_name := x_name e d s w in
         v <- NewBoolVar var_name ;;
         ret (dict_set String.eqb var_name v x)
       else ret x)
    (prod4 E D WARDS SLOTS) [].

(** [next(st for st in request.staff if st.id == e)] *)
Definition staff_by_id (r : Request.t) (e : string) : result Staff.t :=
  match find (fun st => String.eqb (Staff.id st) e) (Request.staff r) with
  | Some st => Ok st
  | None => Raise StopIteration
  end.

Definition create_y_vars (r : Request.t) (E D WARDS SLOTS SKILLS : list string)
  (has_demand_cell : dict key3 bool) : M xdict :=
  foldM
    (fun y '(e, d, w, s, k) =>
       hd <- lift (dict_getitem key3_eqb (d, w, s) has_demand_cell) ;;
       if hd : bool then
         staff <- lift (staff_by_id r e) ;;
         if str_in k (Staff.skills staff) then
           let var_name := y_name e d s w k in
           v <- NewBoolVar var_name ;;
           ret (dict_set String.eqb var_name v y)
         else ret y
       else ret y)
    (prod5 E D WARDS SLOTS SKILLS) [].

Definition create_u_vars (D WARDS SLOTS SKILLS : list string)
  (demand_req : dict key4 Z) : M xdict :=
  foldM
    (fun u '(d, w, s, k) =>
       match dict_get key4_eqb (d, w, s, k) demand_req with
       | Some required =>
           let var_name := u_name d s w k in
           v <- NewIntVar 0 required var_name ;;
           ret (dict_set String.eqb var_name v u)
       | None => ret u
       end)
    (prod4 D WARDS SLOTS SKILLS) [].

(** [if name in x: model.Add(x[name] == 0)] *)
Definition forbid (x : xdict) (x_var_name : string) : M unit :=
  match dict_get String.eqb x_var_name x with
  | Some xv => AddC (Eq (V xv) (Const 0))
  | None => ret tt
  end.

Definition _add_feasibility_links (x y : xdict) (r : Request.t)
  (has_demand_cell : dict key3 bool) : M unit :=
  for_ (Request.staff r) (fun staff =>
    dates <- lift (_get_dates (Request.horizon r)) ;;
    for_ (prod3 dates (map ShiftType.code (Request.shiftTypes r)) (Request.wards r))
      (fun '(date_str, slot, ward) =>
         let cell_key := (date_str, Ward.id ward, slot) in
         let x_var_name := x_name (Staff.id staff) date_str slot (Ward.id ward) in
         if negb (dict_mem key3_eqb cell_key has_demand_cell) then
           forbid x x_var_name
         else if negb (str_in (Ward.id ward) (Staff.eligibleWards staff)) then
           forbid x x_var_name
         else
           skill_vars <-
             foldM (fun acc skill =>
                      let y_var_name :=
                        y_name (Staff.id staff) date_str slot (Ward.id ward) skill in
                      match dict_get String.eqb y_var_name y with
                      | Some yv =>
                          xv <- lift (dict_getitem String.eqb x_var_name x) ;;
                          AddC (Le (V yv) (V xv)) ;;;
                          ret (acc ++ [V yv])%list
                      | None => ret acc
                      end)
                   (Staff.skills staff) [] ;;
           if nonempty skill_vars then
             xv <- lift (dict_getitem String.eqb x_var_name x) ;;
             AddC (Le (py_sum skill_vars) (V xv))
           else ret tt)).

Definition _add_coverage_constraints_with_slack (y u : xdict) (r : Request.t)
  (demand_req : dict key4 Z) : M unit :=
  for_ demand_req (fun '((d, w, s, skill), required) =>
    let eligible_vars :=
      flat_map
        (fun staff =>
           if str_in skill (Staff.skills staff)
              && str_in w (Staff.eligibleWards staff) then
             match dict_get String.eqb (y_name (Staff.id staff) d s w skill) y with
             | Some yv => [V yv]
             | None => []
             end
           else [])
        (Request.staff r) in
    match dict_get String.eqb (u_name d s w skill) u with
    | Some uv =>
        if nonempty eligible_vars then
          AddC (Eq (Add (py_sum eligible_vars) (V uv)) (Const required))
        else AddC (Eq (V uv) (Const required))
    | None => ret tt
    end).

(** [[x[name] for ... if name in x]] *)
Definition x_lookup (x : xdict) (name : string) : list LinearExpr :=
  match dict_get String.eqb name x with
  | Some xv => [V xv]
  | None => []
  end.

Definition _add_one_shift_per_day_constraints (x : xdict) (indices : ModelIndices)
  (r : Request.t) : M unit :=
  for_ (Request.staff r) (fun staff =>
    dates <- lift (_get_dates (Request.horizon r)) ;;
    for_ dates (fun date_str =>
      let day_vars :=
        flat_map (fun '(slot, ward) =>
                    x_lookup x (x_name (Staff.id staff) date_str slot (Ward.id ward)))
                 (prod2 (map ShiftType.code (Request.shiftTypes r)) (Request.wards r)) in
      if nonempty day_vars then AddC (Le (py_sum day_vars) (Const 1))
      else ret tt)).

(** The innermost loops of both halves of [_add_rest_constraints]. *)
Definition not_both (x : xdict) (r : Request.t) (e date1 code1 date2 code2 : string)
  : M unit :=
  for_ (prod2 (Request.wards r) (Request.wards r)) (fun '(ward1, ward2) =>
    let var1_name := x_name e date1 code1 (Ward.id ward1) in
    let var2_name := x_name e date2 code2 (Ward.id ward2) in
    match dict_get String.eqb var1_name x, dict_get String.eqb var2_name x with
    | Some x1, Some x2 => AddC (Le (Add (V x1) (V x2)) (Const 1))
    | _, _ => ret tt
    end).

Definition enumerate {T} (l : list T) : list (nat * T) :=
  combine (seq 0 (List.length l)) l.

Definition _add_rest_constraints (x : xdict) (indices : ModelIndices)
  (r : Request.t) : M unit :=
  dates <- lift (_get_dates (Request.horizon r)) ;;
  for_ (Request.staff r) (fun staff =>
    for_ (prod3 dates (enumerate (Request.shiftTypes r))
                (enumerate (Request.shiftTypes r)))
      (fun '(date_str, (i, shift1), (j, shift2)) =>
         if negb (Nat.eqb i j) then
           overlap <- lift (_shifts_overlap_same_day shift1 shift2) ;;
           if overlap : bool then
             not_both x r (Staff.id staff) date_str (ShiftType.code shift1)
                      date_str (ShiftType.code shift2)
           else ret tt
         else ret tt) ;;;
    for_ (prod3 (combine dates (tl dates)) (Request.shiftTypes r)
                (Request.shiftTypes r))
      (fun '((date1, date2), shift1, shift2) =>
         row <- lift (dict_getitem String.eqb (ShiftType.id shift1)
                        (forbidden_adjacency indices)) ;;
         forbidden <- lift (dict_getitem String.eqb (ShiftType.id shift2) row) ;;
         if forbidden : bool then
           not_both x r (Staff.id staff) date1 (ShiftType.code shift1)
                    date2 (ShiftType.code shift2)
         else ret tt)).

(** [int(q)]: truncation towards zero. *)
Definition Qtrunc (q : Q) : Z :=
  if Qle_bool 0 q then Qfloor q else Qceiling q.

Definition contract_minutes (staff : Staff.t) : Z :=
  Qtrunc (Staff.contractHoursPerWeek staff * 60).

(** [int(contract_minutes * (days_in_week / 7.0))] *)
Definition prorated_cap (contract_minutes : Z) (days_in_week : Z) : Z :=
  Qtrunc (inject_Z contract_minutes * (inject_Z days_in_week / 7)).

(** The minutes variables of one staff member over a list of dates: for
    every x variable a fresh integer tied to [durationMinutes * x]. *)
Definition minutes_vars_of (x : xdict) (r : Request.t) (e : string)
  (dates : list string) : M (list LinearExpr) :=
  foldM
    (fun acc '(date_str, shift_type, ward) =>
       let var_name := x_name e date_str (ShiftType.code shift_type) (Ward.id ward) in
       match dict_get String.eqb var_name x with
       | Some xv =>
           minutes_var <- NewIntVar 0 (ShiftType.durationMinutes shift_type)
                            ("minutes_" ++ var_name) ;;
           AddC (Eq (V minutes_var)
                    (Scale (ShiftType.durationMinutes shift_type) (V xv))) ;;;
           ret (acc ++ [V minutes_var])%list
       | None => ret acc
       end)
    (prod3 dates (Request.shiftTypes r) (Request.wards r)) [].

Definition _add_weekly_contract_hours_constraints (x : xdict)
  (indices : ModelIndices) (r : Request.t) : M unit :=
  for_ (Request.staff r) (fun staff =>
    let contract_minutes := contract_minutes staff in
    for_ (week_bins indices) (fun '(week_key, week_dates) =>
      let days_in_week := Z.of_nat (List.length week_dates) in
      let prorated_cap := prorated_cap contract_minutes days_in_week in
      week_minutes_vars <- minutes_vars_of x r (Staff.id staff) week_dates ;;
      if nonempty week_minutes_vars then
        AddC (Le (py_sum week_minutes_vars) (Const prorated_cap))
      else ret tt)).

(** The first half of both penalty builders: per staff member the total of
    the minutes variables, for those who have any. *)
Definition staff_minutes_totals (x : xdict) (r : Request.t) : M xdict :=
  foldM
    (fun staff_minutes staff =>
       dates <- lift (_get_dates (Request.horizon r)) ;;
       minutes_vars <- minutes_vars_of x r (Staff.id staff) dates ;;
       if nonempty minutes_vars then
         total_minutes <- NewIntVar 0 10000 ("total_minutes_" ++ Staff.id staff) ;;
         AddC (Eq (V total_minutes) (py_sum minutes_vars)) ;;;
         ret (dict_set String.eqb (Staff.id staff) total_minutes staff_minutes)
       else ret staff_minutes)
    (Request.staff r) [].

Definition _create_fairness_penalty (x : xdict) (indices : ModelIndices)
  (r : Request.t) : M var :=
  staff_minutes <- staff_minutes_totals x r ;;
  if (List.length staff_minutes <? 2)%nat then NewConstant 0
  else
    max_minutes <- NewIntVar 0 10000 "max_minutes" ;;
    min_minutes <- NewIntVar 0 10000 "min_minutes" ;;
    let minutes_list := dict_values staff_minutes in
    AddC (MaxEquality max_minutes minutes_list) ;;;
    AddC (MinEquality min_minutes minutes_list) ;;;
    variance <- NewIntVar 0 10000 "variance" ;;
    AddC (Eq (V variance) (Sub (V max_minutes) (V min_minutes))) ;;;
    ret variance.

Definition _create_utilization_penalty (x : xdict) (indices : ModelIndices)
  (r : Request.t) : M var :=
  staff_minutes <- staff_minutes_totals x r ;;
  if negb (nonempty staff_minutes) then NewConstant 0
  else
    total_minutes <- NewIntVar 0 100000 "total_all_staff_minutes" ;;
    AddC (Eq (V total_minutes) (py_sum (map V (dict_values staff_minutes)))) ;;;
    utilization_penalty <- NewIntVar (-100000) 0 "utilization_penalty" ;;
    AddC (Eq (V utilization_penalty) (Neg (V total_minutes))) ;;;
    ret utilization_penalty.

Definition _set_objective (x u : xdict) (indices : ModelIndices) (r : Request.t)
  : M unit :=
  let objective_terms :=
    if nonempty u then [Scale Weights.A (py_sum (map V (dict_values u)))] else [] in
  objective_terms <-
    (if nonempty x then
       utilization_penalty <- _create_utilization_penalty x indices r ;;
       ret (objective_terms ++ [Scale Weights.D (V utilization_penalty)])%list
     else ret objective_terms) ;;
  objective_terms <-
    (if nonempty x then
       fairness_penalty <- _create_fairness_penalty x indices r ;;
       ret (objective_terms ++ [Scale Weights.B (V fairness_penalty)])%list
     else ret objective_terms) ;;
  if nonempty objective_terms then Minimize (py_sum objective_terms)
  else ret tt.

(** [any(has_demand_cell.values())] *)
Definition any_true (l : list bool) : bool := existsb (fun b => b) l.

Definition _build_model (r : Request.t)
  : M (ModelIndices * xdict * xdict * xdict) :=
  indices <- lift (_create_indices r) ;;
  D <- lift (_get_dates (Request.horizon r)) ;;
  let WARDS := map Ward.id (Request.wards r) in
  let SLOTS := map ShiftType.code (Request.shiftTypes r) in
  let SKILLS := _collect_skills r in
  let E := map Staff.id (Request.staff r) in
  let '(demand_req, has_demand_cell) := _build_demand_lookup r in
  if negb (any_true (dict_values has_demand_cell)) then
    ret (indices, [], [], [])
  else
    x <- create_x_vars E D WARDS SLOTS has_demand_cell ;;
    y <- create_y_vars r E D WARDS SLOTS SKILLS has_demand_cell ;;
    u <- create_u_vars D WARDS SLOTS SKILLS demand_req ;;
    _add_feasibility_links x y r has_demand_cell ;;;
    _add_coverage_constraints_with_slack y u r demand_req ;;;
    _add_one_shift_per_day_constraints x indices r ;;;
    _add_rest_constraints x indices r ;;;
    _add_weekly_contract_hours_constraints x indices r ;;;
    _set_objective x u indices r ;;;
    ret (indices, x, y, u).

(** [_add_hints]: the body is [pass]. *)
Definition _add_hints (indices : ModelIndices) (r : Request.t) : M unit := ret tt.

Local Close Scope build_scope.

(* ------------------------------------------------------------------ *)
(** ** [RotaSolverCore]: extraction, metrics and diagnostics *)

Local Open Scope result_scope.

Definition shift_type_by_code (r : Request.t) (slot : string)
  : option ShiftType.t :=
  find (fun st => String.eqb (ShiftType.code st) slot) (Request.shiftTypes r).

Definition _extract_assignments (resp : CpSolverResponse) (x : xdict)
  (indices : ModelIndices) (r : Request.t) : result (list Assignment.t) :=
  rfold
    (fun assignments '(var_name, v) =>
       val <- Value resp v ;;
       if val =? 1 then
         match Str.split Str.underscore var_name with
         | _ :: staff_id :: date_str :: slot :: ward_id :: _ =>
             match shift_type_by_code r slot with
             | Some shift_type =>
                 Ok (assignments ++
                     [Assignment.mk staff_id ward_id date_str slot
                        (ShiftType.id shift_type)])%list
             | None => Ok assignments
             end
         | _ => Ok assignments
         end
       else Ok assignments)
    x [].

Record MetricsModel : Type := mkMetrics {
  hardViolations : Z;
  solveMs : Z;
  fairnessNightStd : R;
  preferenceSatisfaction : Q }.

(** [np.std]: the population standard deviation, over the reals. *)
Definition Rsum (l : list R) : R := fold_right Rplus 0%R l.

Definition Rmean (l : list R) : R := (Rsum l / INR (List.length l))%R.

Definition np_std (counts : list Z) : R :=
  let xs := map IZR counts in
  let mu := Rmean xs in
  sqrt (Rmean (map (fun v => ((v - mu) * (v - mu))%R) xs)).

(** [d[k] = d.get(k, 0) + n] *)
Definition dict_incr (k : string) (n : Z) (d : dict string Z) : dict string Z :=
  dict_set String.eqb k
    (match dict_get String.eqb k d with Some c => c | None => 0 end + n) d.

Definition night_shifts_per_staff (assignments : list Assignment.t)
  (r : Request.t) : dict string Z :=
  let night_shift_codes :=
    map ShiftType.code (filter ShiftType.isNight (Request.shiftTypes r)) in
  fold_left
    (fun d a =>
       if str_in (Assignment.slot a) night_shift_codes
       then dict_incr (Assignment.staffId a) 1 d else d)
    assignments [].

Definition pref_matches (pref : Preference.t) (a : Assignment.t) : bool :=
  String.eqb (Assignment.staffId a) (Preference.staffId pref)
  && String.eqb (Assignment.date a) (Preference.date pref).

Definition satisfied_preferences (assignments : list Assignment.t)
  (prefs : list Preference.t) : Z :=
  fold_left
    (fun satisfied pref =>
       match find (pref_matches pref) assignments with
       | Some _ =>
           if Preference.preferOn pref then satisfied + 1
           else if Preference.preferOff pref then satisfied - 1
           else satisfied
       | None => satisfied
       end)
    prefs 0.

(** [max(0, q)] *)
Definition Qmax0 (q : Q) : Q := if Qlt_le_dec 0 q then q else 0%Q.

Definition _calculate_metrics (assignments : list Assignment.t) (r : Request.t)
  (solve_time_ms : Z) : MetricsModel :=
  let per_staff := night_shifts_per_staff assignments r in
  let fairness_std :=
    if nonempty per_staff then
      let night_counts := dict_values per_staff in
      if (1 <? List.length night_counts)%nat then np_std night_counts else 0%R
    else 0%R in
  let satisfied := satisfied_preferences assignments (Request.preferences r) in
  let total_preferences := Z.of_nat (List.length (Request.preferences r)) in
  let preference_satisfaction :=
    Qmax0 (inject_Z satisfied / inject_Z (Z.max 1 total_preferences)) in
  mkMetrics 0 solve_time_ms fairness_std preference_satisfaction.

Module CellFill.
Record t : Type := mk { required : Z; assigned : Z; unmet : Z }.
End CellFill.

Module WeekCap.
Record t : Type := mk { cap : Z; assigned : Z }.
End WeekCap.

Module PerDate.
Record t : Type := mk { date : string; required : Z; assigned : Z }.
End PerDate.

Module FairnessStats.
Record t : Type := mk {
  min_minutes : Z;
  max_minutes : Z;
  mean_minutes : Q;
  variance : Z;
  staff_minutes : dict string Z }.
End FairnessStats.

Module Unfilled.
Record t : Type := mk { cell : string; unmet : Z; required : Z; assigned : Z }.
End Unfilled.

Module Summary.
Record t : Type := mk {
  dates_histogram : dict string Z;
  cell_fill : dict string CellFill.t;
  total_required : Z;
  total_assigned : Z;
  total_unmet : Z;
  staff_minutes : dict string Z;
  staff_shifts : dict string Z;
  week_caps : dict string (dict string WeekCap.t);
  per_date : list PerDate.t;
  fairness_stats : option FairnessStats.t;
  unfilled : list Unfilled.t }.
End Summary.

Definition summary_demand_req (r : Request.t) : dict key4 Z :=
  fold_left
    (fun dr d =>
       fold_left
         (fun dr '(skill, count) =>
            dict_set key4_eqb
              (Demand.date d, Demand.wardId d, Demand.slot d, skill) count dr)
         (Demand.requirements d) dr)
    (Request.demand r) [].

Definition assigned_by_skill (r : Request.t) (resp : CpSolverResponse)
  (y : xdict) (demand_req : dict key4 Z) : result (dict key4 Z) :=
  rfold
    (fun abs '((d, w, s, k), _) =>
       total <-
         rfold (fun acc staff =>
                  if str_in k (Staff.skills staff) then
                    match dict_get String.eqb (y_name (Staff.id staff) d s w k) y with
                    | Some yv => val <- Value resp yv ;; Ok (acc + val)
                    | None => Ok acc
                    end
                  else Ok acc)
               (Request.staff r) 0 ;;
       Ok (dict_set key4_eqb (d, w, s, k) total abs))
    demand_req [].

Definition cell_statistics (r : Request.t) (abs : dict key4 Z)
  : dict string CellFill.t * Z :=
  fold_left
    (fun '(cell_fill, total_unmet) d =>
       let cell_key := Demand.date d ++ "_" ++ Demand.slot d ++ "_" ++ Demand.wardId d in
       let '(required_cell, assigned_cell, unmet_cell, total_unmet) :=
         fold_left
           (fun '(rc, ac, uc, tu) '(skill, required) =>
              let assigned :=
                match dict_get key4_eqb
                        (Demand.date d, Demand.wardId d, Demand.slot d, skill) abs with
                | Some a => a
                | None => 0
                end in
              let unmet := Z.max 0 (required - assigned) in
              (rc + required, ac + assigned, uc + unmet, tu + unmet))
           (Demand.requirements d) (0, 0, 0, total_unmet) in
       (dict_set String.eqb cell_key
          (CellFill.mk required_cell assigned_cell unmet_cell) cell_fill,
        total_unmet))
    (Request.demand r) ([], 0).

(** [next(st for st in request.shiftTypes if st.code == slot)] *)
Definition next_shift_type (r : Request.t) (slot : string) : result ShiftType.t :=
  match shift_type_by_code r slot with
  | Some st => Ok st
  | None => Raise StopIteration
  end.

Definition staff_minutes_and_shifts (assignments : list Assignment.t)
  (r : Request.t) : result (dict string Z * dict string Z) :=
  rfold
    (fun '(staff_minutes, staff_shifts) staff =>
       '(total_minutes, shift_count) <-
         rfold (fun '(tm, sc) a =>
                  if String.eqb (Assignment.staffId a) (Staff.id staff) then
                    shift_type <- next_shift_type r (Assignment.slot a) ;;
                    Ok (tm + ShiftType.durationMinutes shift_type, sc + 1)
                  else Ok (tm, sc))
               assignments (0, 0) ;;
       Ok (dict_set String.eqb (Staff.id staff) total_minutes staff_minutes,
           dict_set String.eqb (Staff.id staff) shift_count staff_shifts))
    (Request.staff r) ([], []).

(** [while current <= last: days += 1; current += timedelta(days=1)] *)
Fixpoint count_days (n : nat) (current : Z) : result Z :=
  match n with
  | O => Ok 0
  | S n' =>
      next <- Date.add_days current 1 ;;
      rest <- count_days n' next ;;
      Ok (1 + rest)
  end.

Definition week_cap_of (r : Request.t) (staff : Staff.t)
  (caps : dict string WeekCap.t) (a : Assignment.t)
  : result (dict string WeekCap.t) :=
  date_obj <- Date.fromisoformat (Assignment.date a) ;;
  let week_key := week_key_of date_obj in
  let caps :=
    if dict_mem String.eqb week_key caps then caps
    else dict_set String.eqb week_key (WeekCap.mk 0 0) caps in
  week_start <- Date.add_days date_obj (- Date.weekday date_obj) ;;
  week_end <- Date.add_days week_start 6 ;;
  horizon_start <- Date.fromisoformat (Horizon.start (Request.horizon r)) ;;
  horizon_end <- Date.fromisoformat (Horizon.end_ (Request.horizon r)) ;;
  let current := Z.max week_start horizon_start in
  let last := Z.min week_end horizon_end in
  days_in_week <- count_days (Z.to_nat (last - current + 1)) current ;;
  let cap := prorated_cap (contract_minutes staff) days_in_week in
  entry <- dict_getitem String.eqb week_key caps ;;
  let caps := dict_set String.eqb week_key (WeekCap.mk cap (WeekCap.assigned entry)) caps in
  shift_type <- next_shift_type r (Assignment.slot a) ;;
  entry <- dict_getitem String.eqb week_key caps ;;
  Ok (dict_set String.eqb week_key
        (WeekCap.mk (WeekCap.cap entry)
           (WeekCap.assigned entry + ShiftType.durationMinutes shift_type)) caps).

Definition week_caps_of (assignments : list Assignment.t) (r : Request.t)
  : result (dict string (dict string WeekCap.t)) :=
  rfold
    (fun week_caps staff =>
       let staff_assignments :=
         filter (fun a => String.eqb (Assignment.staffId a) (Staff.id staff))
                assignments in
       caps <- rfold (week_cap_of r staff) staff_assignments [] ;;
       Ok (dict_set String.eqb (Staff.id staff) caps week_caps))
    (Request.staff r) [].

Definition per_date_of (assignments : list Assignment.t) (r : Request.t)
  : list PerDate.t :=
  map (fun d =>
         let assigned :=
           List.length
             (filter (fun a => String.eqb (Assignment.date a) (Demand.date d)
                               && String.eqb (Assignment.slot a) (Demand.slot d)
                               && String.eqb (Assignment.wardId a) (Demand.wardId d))
                     assignments) in
         PerDate.mk (Demand.date d) (_total_required (Demand.requirements d))
                    (Z.of_nat assigned))
      (Request.demand r).

Definition fairness_stats_of (staff_minutes : dict string Z)
  : option FairnessStats.t :=
  let minutes_values := dict_values staff_minutes in
  match list_min minutes_values, list_max minutes_values with
  | Some mn, Some mx =>
      Some (FairnessStats.mk mn mx
              (inject_Z (fold_left Z.add minutes_values 0)
               / inject_Z (Z.of_nat (List.length minutes_values)))
              (mx - mn) staff_minutes)
  | _, _ => None
  end.

(** [list.sort(key=unmet, reverse=True)]: stable, largest first. *)
Fixpoint insert_desc (e : Unfilled.t) (l : list Unfilled.t) : list Unfilled.t :=
  match l with
  | [] => [e]
  | h :: t =>
      if Unfilled.unmet h <=? Unfilled.unmet e then e :: h :: t
      else h :: insert_desc e t
  end.

Definition sort_desc (l : list Unfilled.t) : list Unfilled.t :=
  fold_right insert_desc [] l.

Definition unfilled_of (cell_fill : dict string CellFill.t) : list Unfilled.t :=
  let unfilled_cells :=
    flat_map (fun '(cell_key, cell_data) =>
                if 0 <? CellFill.unmet cell_data then
                  [Unfilled.mk cell_key (CellFill.unmet cell_data)
                     (CellFill.required cell_data) (CellFill.assigned cell_data)]
                else [])
             cell_fill in
  firstn 50 (sort_desc unfilled_cells).

Definition _create_assignments_summary (assignments : list Assignment.t)
  (r : Request.t) (resp : CpSolverResponse) (y u : xdict) : result Summary.t :=
  let dates_histogram :=
    fold_left (fun h a => dict_incr (Assignment.date a) 1 h) assignments [] in
  let demand_req := summary_demand_req r in
  abs <- assigned_by_skill r resp y demand_req ;;
  let '(cell_fill, total_unmet) := cell_statistics r abs in
  '(staff_minutes, staff_shifts) <- staff_minutes_and_shifts assignments r ;;
  week_caps <- week_caps_of assignments r ;;
  let per_date := per_date_of assignments r in
  let fairness_stats := fairness_stats_of staff_minutes in
  let unfilled_cells := unfilled_of cell_fill in
  Ok (Summary.mk dates_histogram cell_fill
        (fold_left Z.add
           (map (fun d => _total_required (Demand.requirements d)) (Request.demand r)) 0)
        (Z.of_nat (List.length assignments))
        total_unmet staff_minutes staff_shifts week_caps per_date fairness_stats
        unfilled_cells).

Module Diagnostics.
Record t : Type := mk {
  infeasible : bool;
  notes : list string;
  summary : option Summary.t }.
End Diagnostics.

(** The engine: from the time limit in seconds and the model to its answer. *)
Definition Engine : Type := Q -> CpModel -> CpSolverResponse.

(** The last steps of [solve], from the engine's answer on: extraction,
    metrics and diagnostics. *)
Definition respond (resp : CpSolverResponse) (indices : ModelIndices)
  (x y u : xdict) (request : Request.t) (solve_time_ms : Z)
  : result (list Assignment.t * MetricsModel * Diagnostics.t) :=
  assignments <- _extract_assignments resp x indices request ;;
  let metrics := _calculate_metrics assignments request solve_time_ms in
  summary <- _create_assignments_summary assignments request resp y u ;;
  Ok (assignments, metrics,
      Diagnostics.mk false ["Validation temporarily disabled"] (Some summary)).

(** [solver.parameters.max_time_in_seconds = request.timeBudgetMs / 1000] *)
Definition time_limit (request : Request.t) : Q :=
  (inject_Z (Request.timeBudgetMs request) / 1000)%Q.

(** [RotaSolverCore.solve].  [solve_time_ms] is the wall-clock time the
    method measures. *)
Definition solve (engine : Engine) (solve_time_ms : Z) (request : Request.t)
  : result (list Assignment.t * MetricsModel * Diagnostics.t) :=
  _ <- _get_dates (Request.horizon request) ;;
  '((indices, x, y, u), model) <- _build_model request empty_model ;;
  '(_, model) <- (if nonempty (Request.hints request)
                  then _add_hints indices request else ret tt) model ;;
  let resp := engine (time_limit request) model in
  respond resp indices x y u request solve_time_ms.

Local Close Scope result_scope.

(* ------------------------------------------------------------------ *)
(** ** The statements of the specification, in its own words *)

(** The clock time between the end of [s1] on day t (a night shift ends on
    the next day) and the start of [s2] on day t+1, in minutes. *)
Definition rest_minutes_next_day (s1 s2 : ShiftType.t) : result Z :=
  match shift_times s1 s2 with
  | Ok (start1, end1, start2, end2) => Ok ((start2 + Clock.DAY) - end1)
  | Raise e => Raise e
  end.

(** The specification's forbidden adjacency: strictly less than
    [minRestHours] between the two. *)
Definition spec_forbidden (minRestHours : Z) (s1 s2 : ShiftType.t) : result bool :=
  match rest_minutes_next_day s1 s2 with
  | Ok rest => Ok (rest <? minRestHours * 60)
  | Raise e => Raise e
  end.

(** [indices.forbidden_adjacency[id1][id2]] *)
Definition F_lookup (indices : ModelIndices) (id1 id2 : string) : option bool :=
  match dict_get String.eqb id1 (forbidden_adjacency indices) with
  | Some row => dict_get String.eqb id2 row
  | None => None
  end.

(** *** Checks on the calendar, decided by computation *)

(** On one 400-year cycle of ordinals: [_ord2ymd] gives a month and a day
    in range and a year of the cycle, and [_ymd2ord] takes them back. *)
Definition ord_cycle_ok (o : Z) : bool :=
  let '(y, m, d) := Date.ord2ymd o in
  (1 <=? y) && (y <=? 400) && (1 <=? m) && (m <=? 12) && (1 <=? d) && (d <=? 31)
  && (Date.ymd2ord y m d =? o) && ((145731 <? o) || (y <=? 399)).

(** A number printed on [w] digits has [w] characters, none of them the
    separator, and reads back as itself. *)
Definition pad_ok (w : nat) (n : Z) : bool :=
  Nat.eqb (String.length (Str.pad w n)) w
  && negb (Str.contains Str.underscore (Str.pad w n))
  && match Str.parse_digits (Str.pad w n) with
     | Some n' => n' =? n
     | None => false
     end.

(** [p] holds of [start], [start + 1], ... ([n] of them). *)
Fixpoint all_from (n : nat) (start : Z) (p : Z -> bool) : bool :=
  match n with
  | O => true
  | S n' => p start && all_from n' (start + 1) p
  end.

(** The ordinals [start], [start + 1], ... ([n] of them). *)
Fixpoint ordinals (n : nat) (start : Z) : list Z :=
  match n with
  | O => []
  | S n' => start :: ordinals n' (start + 1)
  end.

(** *** The builder only adds *)

(** [m'] has the variables and constraints of [m], in place, and more. *)
Definition extends (m m' : CpModel) : Prop :=
  exists vs cs,
    variables m' = (variables m ++ vs)%list /\
    constraints m' = (constraints m ++ cs)%list.

Definition grows {T} (c : M T) : Prop :=
  forall m a m', c m = Ok (a, m') -> extends m m'.

(** The entries of the dictionary x for a list of cells whose first
    variable has index [n0]. *)
Definition cell_name (c : string * string * string * string) : string :=
  let '(e, d, w, s) := c in x_name e d s w.

Definition x_entries (n0 : nat) (cells : list (string * string * string * string))
  : xdict :=
  map (fun '(i, c) => (cell_name c, i)) (combine (seq n0 (List.length cells)) cells).

(** What the extractor emits for a cell whose x variable has the value
    [v]: the assignment of the cell, with the identifier of the first shift
    type that has the slot's code, when [v] is 1. *)
Definition emit (r : Request.t) (v : Z) (c : string * string * string * string)
  : list Assignment.t :=
  let '(e, d, w, s) := c in
  if v =? 1 then
    match shift_type_by_code r s with
    | Some st => [Assignment.mk e w d s (ShiftType.id st)]
    | None => []
    end
  else [].

(** The same through the dictionary x and the engine's values. *)
Definition emit_cell (r : Request.t) (x : xdict) (sol : list Z)
  (c : string * string * string * string) : list Assignment.t :=
  match dict_get String.eqb (cell_name c) x with
  | Some v => emit r (nth v sol 0) c
  | None => []
  end.

(** The cells in the order in which [_build_model] creates their
    variables: staff in request order, then the dates of the horizon, then
    wards, then shift types in request order. *)
Definition cells_of (r : Request.t) (dates : list string)
  : list (string * string * string * string) :=
  prod4 (map Staff.id (Request.staff r)) dates
        (map Ward.id (Request.wards r))
        (map ShiftType.code (Request.shiftTypes r)).

(** *** Well-formed names *)


Definition no_underscore (s : string) : Prop :=
  Str.contains Str.underscore s = false.

(** Identifiers are unique and, like slot codes, free of the character that
    separates the parts of a variable name. *)
Record names_ok (r : Request.t) : Prop := mk_names_ok {
  staff_ids_unique : NoDup (map Staff.id (Request.staff r));
  ward_ids_unique : NoDup (map Ward.id (Request.wards r));
  codes_unique : NoDup (map ShiftType.code (Request.shiftTypes r));
  staff_ids_plain : Forall no_underscore (map Staff.id (Request.staff r));
  ward_ids_plain : Forall no_underscore (map Ward.id (Request.wards r));
  codes_plain : Forall no_underscore (map ShiftType.code (Request.shiftTypes r)) }.

(** Two requests that agree on everything but the locks. *)
Definition same_up_to_locks (r1 r2 : Request.t) : Prop :=
  Request.horizon r1 = Request.horizon r2 /\
  Request.wards r1 = Request.wards r2 /\
  Request.shiftTypes r1 = Request.shiftTypes r2 /\
  Request.staff r1 = Request.staff r2 /\
  Request.demand r1 = Request.demand r2 /\
  Request.rules r1 = Request.rules r2 /\
  Request.preferences r1 = Request.preferences r2 /\
  Request.objective r1 = Request.objective r2 /\
  Request.timeBudgetMs r1 = Request.timeBudgetMs r2 /\
  Request.hints r1 = Request.hints r2.

(** A lock is met when the assignment list has its staff member in its
    ward, on its date, in its slot. *)
Definition lock_met (l : Lock.t) (assignments : list Assignment.t) : bool :=
  existsb (fun a => String.eqb (Assignment.staffId a) (Lock.staffId l)
                    && String.eqb (Assignment.wardId a) (Lock.wardId l)
                    && String.eqb (Assignment.date a) (Lock.date l)
                    && String.eqb (Assignment.slot a) (Lock.slot l))
          assignments.

(** *** Preference satisfaction *)

(** The staff member of a preference has an assignment on its date. *)
Definition works_on (assignments : list Assignment.t) (pref : Preference.t) : bool :=
  existsb (pref_matches pref) assignments.

Definition count_prefs (p : Preference.t -> bool) (prefs : list Preference.t) : Z :=
  Z.of_nat (List.length (filter p prefs)).

(** A prefer-on preference is honoured when the staff member works that
    date, a prefer-off preference when they do not. *)
Definition honoured_prefer_on (assignments : list Assignment.t)
  (prefs : list Preference.t) : Z :=
  count_prefs (fun p => Preference.preferOn p && works_on assignments p) prefs.

Definition honoured_prefer_off (assignments : list Assignment.t)
  (prefs : list Preference.t) : Z :=
  count_prefs (fun p => Preference.preferOff p && negb (works_on assignments p)) prefs.

Definition clamp01 (q : Q) : Q :=
  if Qlt_le_dec q 0 then 0%Q else if Qlt_le_dec 1 q then 1%Q else q.

(** The specification's preference satisfaction. *)
Definition spec_preferenceSatisfaction (assignments : list Assignment.t)
  (prefs : list Preference.t) : Q :=
  clamp01 (inject_Z (honoured_prefer_on assignments prefs
                     - honoured_prefer_off assignments prefs)
           / inject_Z (Z.of_nat (List.length prefs))).

(** What the code subtracts: the preferences that ask for the day off (and
    do not also ask for the day on) whose staff member works that date. *)
Definition broken_prefer_off (assignments : list Assignment.t)
  (prefs : list Preference.t) : Z :=
  count_prefs (fun p => negb (Preference.preferOn p) && Preference.preferOff p
                        && works_on assignments p) prefs.

(** *** Night-shift fairness *)







(** One step of filling a dictionary: compute the value of an element and
    store it under the element's key. *)
Definition fill (T V : Type) (f : T -> result V) (key : T -> string)
  (d : dict string V) (t : T) : result (dict string V) :=
  rbind (f t) (fun v => Ok (dict_set String.eqb (key t) v d)).
Arguments fill {T V} f key d t.


(* ------------------------------------------------------------------ *)
(** ** Example requests *)

Module Examples.

Definition DAY : ShiftType.t :=
  ShiftType.mk "st-day" "DAY" "08:00" "16:00" false 480.

Definition default_rules : Rules.t := Rules.mk 11 3 true.

(** One ward, the single date 2025-01-01, one shift type (DAY, 480 min),
    demand {General: 1}, one ward-eligible staff member. *)
Definition one_cell (hours : Q) (skills : list string) (locks : list Lock.t)
  : Request.t :=
  Request.mk (Horizon.mk "2025-01-01" "2025-01-01")
    [Ward.mk "w1" "Ward 1"]
    [DAY]
    [Staff.mk "s1" "Staff One" "nurse" hours skills ["w1"]]
    [Demand.mk "w1" "2025-01-01" "DAY" [("General", 1)]]
    default_rules locks [] MIN_SOFT_PENALTIES 10000 [].

(** Scenario S1 of the specification. *)
Definition S1 (hours : Q) : Request.t := one_cell hours ["General"] [].

(** Scenario S2: as S1, but the staff member has the skills {MRI}. *)
Definition S2 (hours : Q) : Request.t := one_cell hours ["MRI"] [].


(** The prorated cap of the staff member of S1 and S2 for the one day of
    the horizon. *)
Definition one_day_cap (hours : Q) : Z := prorated_cap (Qtrunc (hours * 60)) 1.

(** The model [_build_model] makes of S2, in terms of that cap:
    variable 0 is x, variable 1 is u, variables 2, 3 and 7 are the minutes
    of x (weekly cap, utilisation, fairness), 4 and 8 the totals of the
    staff member, 5 the total of all staff, 6 the utilisation penalty and 9
    the constant fairness penalty. *)
Definition S2_model (cap : Z) : CpModel :=
  mkModel
    [mkVar 0 1 "x_s1_2025-01-01_DAY_w1";
     mkVar 0 1 "u_2025-01-01_DAY_w1_General";
     mkVar 0 480 "minutes_x_s1_2025-01-01_DAY_w1";
     mkVar 0 480 "minutes_x_s1_2025-01-01_DAY_w1";
     mkVar 0 10000 "total_minutes_s1";
     mkVar 0 100000 "total_all_staff_minutes";
     mkVar (-100000) 0 "utilization_penalty";
     mkVar 0 480 "minutes_x_s1_2025-01-01_DAY_w1";
     mkVar 0 10000 "total_minutes_s1";
     mkVar 0 0 ""]
    [Eq (V 1%nat) (Const 1);
     Le (Add (Const 0) (V 0%nat)) (Const 1);
     Eq (V 2%nat) (Scale 480 (V 0%nat));
     Le (Add (Const 0) (V 2%nat)) (Const cap);
     Eq (V 3%nat) (Scale 480 (V 0%nat));
     Eq (V 4%nat) (Add (Const 0) (V 3%nat));
     Eq (V 5%nat) (Add (Const 0) (V 4%nat));
     Eq (V 6%nat) (Neg (V 5%nat));
     Eq (V 7%nat) (Scale 480 (V 0%nat));
     Eq (V 8%nat) (Add (Const 0) (V 7%nat))]
    (Some (Add (Add (Add (Const 0)
                         (Scale 100000 (Add (Const 0) (V 1%nat))))
                    (Scale 1000000 (V 6%nat)))
               (Scale 100 (V 9%nat)))).

Definition S2_x : xdict := [("x_s1_2025-01-01_DAY_w1", 0%nat)].
Definition S2_u : xdict := [("u_2025-01-01_DAY_w1_General", 1%nat)].

(** The assignment of the staff member to the one cell. *)
Definition the_assignment : Assignment.t :=
  Assignment.mk "s1" "w1" "2025-01-01" "DAY" "st-day".

(** Solutions of the S2 model: the staff member idle, and at work. *)
Definition S2_idle : list Z := [0; 1; 0; 0; 0; 0; 0; 0; 0; 0].
Definition S2_working : list Z := [1; 1; 480; 480; 480; 480; -480; 480; 480; 0].

(** S1 at 37.5 hours with a lock of the staff member on the one cell. *)
Definition S1_locked : Request.t :=
  one_cell 37.5 ["General"] [Lock.mk "s1" "w1" "2025-01-01" "DAY"].

(** The solution of the S1 model that leaves the staff member idle:
    x = 0, y = 0, u = 1. *)
Definition S1_idle : list Z := [0; 0; 1; 0; 0; 0; 0; 0; 0; 0; 0].

(** S1 for a staff member whose contracted hours are negative. *)
Definition S1_negative_hours : Request.t := one_cell (-1) ["General"] [].

(** An engine that reports every model infeasible. *)
Definition says_infeasible : Engine := fun _ _ => mkResponse INFEASIBLE [].

(** An engine that always answers with one status and one list of values. *)
Definition answers (st : CpSolverStatus) (sol : list Z) : Engine :=
  fun _ _ => mkResponse st sol.

(** One assignment, and two preferences of its staff member: the day on
    (worked) and another day off (not worked). *)
Definition worked_monday : list Assignment.t :=
  [Assignment.mk "s1" "w1" "2025-01-06" "DAY" "st-day"].

Definition two_preferences : list Preference.t :=
  [Preference.mk "s1" "2025-01-06" false true;
   Preference.mk "s1" "2025-01-07" true false].

Definition with_preferences (prefs : list Preference.t) : Request.t :=
  Request.mk (Horizon.mk "2025-01-06" "2025-01-07") [Ward.mk "w1" "Ward 1"]
    [DAY]
    [Staff.mk "s1" "Staff One" "nurse" 37.5 ["General"] ["w1"]]
    [Demand.mk "w1" "2025-01-06" "DAY" [("General", 1)];
     Demand.mk "w1" "2025-01-07" "DAY" [("General", 1)]]
    default_rules [] prefs MIN_SOFT_PENALTIES 10000 [].


End Examples.

(** What every extracted assignment looks like. *)
Definition extracted_ok (r : Request.t) (a : Assignment.t) : Prop :=
  no_underscore (Assignment.staffId a) /\
  no_underscore (Assignment.date a) /\
  no_underscore (Assignment.slot a) /\
  no_underscore (Assignment.wardId a) /\
  exists st, shift_type_by_code r (Assignment.slot a) = Some st /\
             Assignment.shiftTypeId a = ShiftType.id st.

(** Indices without entries, for statements in which they play no part. *)
Definition no_indices : ModelIndices := mkIndices [] [] [] [] [] [] [] [] [] [].

Module MoreExamples.

(** Two staff members, listed b before a, both skilled and eligible, on
    the one cell of S1 with a demand of two. *)
Definition two_staff : Request.t :=
  Request.mk (Horizon.mk "2025-01-01" "2025-01-01")
    [Ward.mk "w1" "Ward 1"]
    [Examples.DAY]
    [Staff.mk "b" "Staff B" "nurse" 60 ["General"] ["w1"];
     Staff.mk "a" "Staff A" "nurse" 60 ["General"] ["w1"]]
    [Demand.mk "w1" "2025-01-01" "DAY" [("General", 2)]]
    Examples.default_rules [] [] MIN_SOFT_PENALTIES 10000 [].

(** Two days and one staff member, with demand on the first day only. *)
Definition second_day_without_demand : Request.t :=
  Request.mk (Horizon.mk "2025-01-01" "2025-01-02")
    [Ward.mk "w1" "Ward 1"]
    [Examples.DAY]
    [Staff.mk "s1" "Staff One" "nurse" 37.5 ["General"] ["w1"]]
    [Demand.mk "w1" "2025-01-01" "DAY" [("General", 1)]]
    Examples.default_rules [] [] MIN_SOFT_PENALTIES 10000 [].

(** S1 at 60 hours for a staff member who is eligible for no ward. *)
Definition no_ward : Request.t :=
  Request.mk (Horizon.mk "2025-01-01" "2025-01-01")
    [Ward.mk "w1" "Ward 1"]
    [Examples.DAY]
    [Staff.mk "s1" "Staff One" "nurse" 60 ["General"] []]
    [Demand.mk "w1" "2025-01-01" "DAY" [("General", 1)]]
    Examples.default_rules [] [] MIN_SOFT_PENALTIES 10000 [].

(** A night shift from 21:00 to 07:00. *)
Definition NIGHT : ShiftType.t :=
  ShiftType.mk "st-night" "NIGHT" "21:00" "07:00" true 600.

(** Two days with a demand of one for the night shift on each. *)
Definition two_nights : Request.t :=
  Request.mk (Horizon.mk "2025-01-01" "2025-01-02")
    [Ward.mk "w1" "Ward 1"]
    [NIGHT]
    [Staff.mk "s1" "Staff One" "nurse" 60 ["General"] ["w1"]]
    [Demand.mk "w1" "2025-01-01" "NIGHT" [("General", 1)];
     Demand.mk "w1" "2025-01-02" "NIGHT" [("General", 1)]]
    Examples.default_rules [] [] MIN_SOFT_PENALTIES 10000 [].

(** A solution of the model of [two_nights]: the first night worked, the
    second unfilled. *)
Definition first_night_only : list Z :=
  [1; 0; 1; 0; 0; 1; 600; 0; 600; 0; 600; 600; -600; 600; 0; 600; 0].

(** The skill and slack variables of the model of [two_nights]. *)
Definition two_nights_y : xdict :=
  [("y_s1_2025-01-01_NIGHT_w1_General", 2%nat);
   ("y_s1_2025-01-02_NIGHT_w1_General", 3%nat)].

Definition two_nights_u : xdict :=
  [("u_2025-01-01_NIGHT_w1_General", 4%nat);
   ("u_2025-01-02_NIGHT_w1_General", 5%nat)].

(** A solution of the model of [two_staff] with both at work. *)
Definition both_working : list Z :=
  [1; 1; 1; 1; 0; 480; 480; 480; 480; 480; 480; 960; -960; 480; 480; 480; 480;
   480; 480; 0].

End MoreExamples.

(** *** Reading a solution *)

(** The value of the x variable of a name, 0 when there is none. *)
Definition xval (x : xdict) (sol : list Z) (name : string) : Z :=
  match dict_get String.eqb name x with
  | Some v => nth v sol 0
  | None => 0
  end.

Definition sumZ (l : list Z) : Z := fold_right Z.add 0 l.

(** The solution satisfies the constraints of the model. *)
Definition sat (sol : list Z) (m : CpModel) : Prop :=
  forall c, In c (constraints m) -> holdsb sol c = true.

(** The steps of [_build_model] past the short-circuit, with the model
    after each of them. *)
Inductive build_steps (r : Request.t) (idx : ModelIndices) (x y u : xdict)
  (m : CpModel) (dates : list string) : Prop :=
| mk_build_steps (dr : dict key4 Z) (hd : dict key3 bool)
    (m1 m2 m3 m3a m3b m3c m4 m5 : CpModel)
    (bs_lookup : _build_demand_lookup r = (dr, hd))
    (bs_x : create_x_vars (map Staff.id (Request.staff r)) dates
              (map Ward.id (Request.wards r))
              (map ShiftType.code (Request.shiftTypes r)) hd empty_model
            = Ok (x, m1))
    (bs_y : create_y_vars r (map Staff.id (Request.staff r)) dates
              (map Ward.id (Request.wards r))
              (map ShiftType.code (Request.shiftTypes r)) (_collect_skills r)
              hd m1 = Ok (y, m2))
    (bs_u : create_u_vars dates (map Ward.id (Request.wards r))
              (map ShiftType.code (Request.shiftTypes r)) (_collect_skills r)
              dr m2 = Ok (u, m3))
    (bs_links : _add_feasibility_links x y r hd m3 = Ok (tt, m3a))
    (bs_coverage :
       _add_coverage_constraints_with_slack y u r dr m3a = Ok (tt, m3b))
    (bs_one_shift :
       _add_one_shift_per_day_constraints x idx r m3b = Ok (tt, m3c))
    (bs_rest : _add_rest_constraints x idx r m3c = Ok (tt, m4))
    (bs_weekly :
       _add_weekly_contract_hours_constraints x idx r m4 = Ok (tt, m5))
    (bs_objective : _set_objective x u idx r m5 = Ok (tt, m)).

(** The x variables of a staff member on a date, slot by slot and ward by
    ward, as [_add_one_shift_per_day_constraints] collects them. *)
Definition day_names (r : Request.t) (e date_str : string) : list string :=
  map (fun '(slot, ward) => x_name e date_str slot (Ward.id ward))
      (prod2 (map ShiftType.code (Request.shiftTypes r)) (Request.wards r)).

(** The skill variables that count towards the coverage of skill [k] in
    the cell (d, w, s): those of the staff members who have the skill and
    are eligible for the ward. *)
Definition eligible_yvals (r : Request.t) (y : xdict) (sol : list Z)
  (d w s k : string) : list Z :=
  map (fun staff =>
         if str_in k (Staff.skills staff) && str_in w (Staff.eligibleWards staff)
         then xval y sol (y_name (Staff.id staff) d s w k) else 0)
      (Request.staff r).




(** The body of the loop over [staff.skills] in [_add_feasibility_links]. *)
Definition skill_link_body (x y : xdict) (e d s w : string)
  (acc : list LinearExpr) (skill : string) : M (list LinearExpr) :=
  (match dict_get String.eqb (y_name e d s w skill) y with
   | Some yv =>
       xv <- lift (dict_getitem String.eqb (x_name e d s w) x) ;;
       AddC (Le (V yv) (V xv)) ;;;
       ret (acc ++ [V yv])%list
   | None => ret acc
   end)%build.

(** The values of the skill variables of a staff member in a cell, one per
    entry of [staff.skills]. *)
Definition skill_yvals (y : xdict) (sol : list Z) (staff : Staff.t)
  (d s w : string) : list Z :=
  map (fun skill => xval y sol (y_name (Staff.id staff) d s w skill))
      (Staff.skills staff).

(** A cell whose four parts are free of underscores. *)
Definition plain_cell (c : string * string * string * string) : Prop :=
  let '(e, d, w, s) := c in
  no_underscore e /\ no_underscore d /\ no_underscore w /\ no_underscore s.

(** The engine's answer to the model of a request, as [solve] obtains it. *)
Definition answer (engine : Engine) (r : Request.t) : CpSolverResponse :=
  engine (time_limit r) (model_of (_build_model r)).

(** The statuses that come with values. *)
Definition has_solution (resp : CpSolverResponse) : Prop :=
  status resp = OPTIMAL \/ status resp = FEASIBLE.

(** The body of the loop of [_create_indices] that fills the week bins. *)
Definition week_bin_step
  (st : dict string (list string) * dict string string) (date_str : string)
  : result (dict string (list string) * dict string string) :=
  (let '(week_bins, week_idx) := st in
   date_obj <- Date.fromisoformat date_str ;;
   let week_key := week_key_of date_obj in
   let week_bins :=
     if dict_mem String.eqb week_key week_bins then week_bins
     else dict_set String.eqb week_key [] week_bins in
   members <- dict_getitem String.eqb week_key week_bins ;;
   Ok (dict_set String.eqb week_key (members ++ [date_str])%list week_bins,
       dict_set String.eqb date_str week_key week_idx))%result.

(** The bins and the index agree on the dates seen so far. *)
Record bins_ok (seen : list string) (wb : dict string (list string))
  (wi : dict string string) : Prop := mk_bins_ok {
  bins_keys : NoDup (dict_keys wb);
  bins_members :
    forall wk members,
      dict_get String.eqb wk wb = Some members ->
      members <> [] /\ NoDup members /\
      forall d, In d members -> In d seen /\ dict_get String.eqb d wi = Some wk;
  bins_cover :
    forall d, In d seen ->
      exists wk members,
        dict_get String.eqb d wi = Some wk /\
        dict_get String.eqb wk wb = Some members /\ In d members }.



(** Largest unmet first. *)
Definition unmet_desc (a b : Unfilled.t) : Prop :=
  Unfilled.unmet b <= Unfilled.unmet a.

(** The entry of the list of unfilled cells for an entry of [cell_fill]. *)
Definition unfilled_entry (cell_key : string) (cell_data : CellFill.t)
  : Unfilled.t :=
  Unfilled.mk cell_key (CellFill.unmet cell_data) (CellFill.required cell_data)
    (CellFill.assigned cell_data).
(* ------------------------------------------------------------------ *)
(** ** Dictionaries *)

Section DictFacts.
Context {K V : Type} (keq : K -> K -> bool).
Hypothesis keq_spec : forall a b, reflect (a = b) (keq a b).

Lemma dict_get_set_same (k : K) (v : V) (d : dict K V) :
  dict_get keq k (dict_set keq k v d) = Some v.
Proof.
  induction d as [|[k' v'] d IH]; simpl.
  - destruct (keq_spec k k); congruence.
  - destruct (keq_spec k k') as [->|Hne]; simpl.
    + destruct (keq_spec k' k'); congruence.
    + destruct (keq_spec k k'); [contradiction|exact IH].
Qed.

Lemma dict_get_set_other (k k' : K) (v : V) (d : dict K V) :
  k <> k' -> dict_get keq k (dict_set keq k' v d) = dict_get keq k d.
Proof.
  intros Hne. induction d as [|[k0 v0] d IH]; simpl.
  - destruct (keq_spec k k'); [contradiction|reflexivity].
  - destruct (keq_spec k' k0) as [->|Hne0]; simpl.
    + destruct (keq_spec k k0); [contradiction|reflexivity].
    + destruct (keq_spec k k0); [reflexivity|exact IH].
Qed.

Lemma dict_get_In (k : K) (v : V) (d : dict K V) :
  dict_get keq k d = Some v -> In (k, v) d.
Proof.
  induction d as [|[k0 v0] d IH]; simpl; [discriminate|].
  destruct (keq_spec k k0) as [->|Hne]; intros H.
  - injection H as ->. now left.
  - right. now apply IH.
Qed.

End DictFacts.

Lemma string_eqb_spec (a b : string) : reflect (a = b) (String.eqb a b).
Proof. apply String.eqb_spec. Qed.

Lemma fill_other {T V} (f : T -> result V) (key : T -> string) (k : string) :
  forall (l : list T) (d0 d : dict string V),
    rfold (fill f key) l d0 = Ok d ->
    ~ In k (map key l) ->
    dict_get String.eqb k d = dict_get String.eqb k d0.
Proof.
  induction l as [|a l IH]; intros d0 d Hfold Hnotin; simpl in Hfold.
  - now injection Hfold as <-.
  - unfold fill at 1 in Hfold.
    destruct (f a) as [va|e]; simpl in Hfold; [|discriminate].
    rewrite (IH _ _ Hfold) by (intros Hin; apply Hnotin; now right).
    apply (dict_get_set_other _ string_eqb_spec).
    intros ->. apply Hnotin. now left.
Qed.

(** A dictionary filled by one fallible computation per key holds, under
    every key of the list, what the computation gave for its element. *)
Lemma fill_lookup {T V} (f : T -> result V) (key : T -> string) :
  forall (l : list T) (d0 d : dict string V) (t : T),
    rfold (fill f key) l d0 = Ok d ->
    NoDup (map key l) -> In t l ->
    exists v, f t = Ok v /\ dict_get String.eqb (key t) d = Some v.
Proof.
  induction l as [|a l IH]; intros d0 d t Hfold Hnd Hin; [contradiction|].
  simpl in Hfold. unfold fill at 1 in Hfold.
  destruct (f a) as [va|e] eqn:Hfa; simpl in Hfold; [|discriminate].
  inversion Hnd as [|? ? Hnotin Hnd']; subst.
  destruct Hin as [->|Hin].
  - exists va. split; [exact Hfa|].
    rewrite (fill_other _ _ _ _ _ _ Hfold Hnotin).
    apply (dict_get_set_same _ string_eqb_spec).
  - exact (IH _ _ _ Hfold Hnd' Hin).
Qed.

(* ------------------------------------------------------------------ *)
(** ** The forbidden-adjacency matrix *)

Lemma build_forbidden_adjacency_fill (sts : list ShiftType.t) :
  build_forbidden_adjacency sts =
  rfold (fill (fun st1 => rfold (fill (_insufficient_rest st1) ShiftType.id) sts [])
              ShiftType.id) sts [].
Proof. reflexivity. Qed.

Lemma create_indices_forbidden (r : Request.t) (idx : ModelIndices) :
  _create_indices r = Ok idx ->
  build_forbidden_adjacency (Request.shiftTypes r) = Ok (forbidden_adjacency idx).
Proof.
  unfold _create_indices. intros H.
  destruct (_get_dates (Request.horizon r)) as [dates|]; simpl in H; [|discriminate].
  destruct (build_week_bins dates) as [[wb wi]|]; simpl in H; [|discriminate].
  destruct (build_forbidden_adjacency (Request.shiftTypes r)) as [fa|];
    simpl in H; [|discriminate].
  injection H as <-. reflexivity.
Qed.

(** Every entry of the matrix is what [_insufficient_rest] says of the two
    shift types, when shift-type identifiers are unique. *)
Lemma forbidden_adjacency_entry (r : Request.t) (idx : ModelIndices)
  (s1 s2 : ShiftType.t) :
  _create_indices r = Ok idx ->
  NoDup (map ShiftType.id (Request.shiftTypes r)) ->
  In s1 (Request.shiftTypes r) -> In s2 (Request.shiftTypes r) ->
  exists b, _insufficient_rest s1 s2 = Ok b /\
            F_lookup idx (ShiftType.id s1) (ShiftType.id s2) = Some b.
Proof.
  intros Hidx Hnd H1 H2.
  apply create_indices_forbidden in Hidx.
  rewrite build_forbidden_adjacency_fill in Hidx.
  destruct (fill_lookup _ _ _ _ _ s1 Hidx Hnd H1) as [row [Hrow Hget]].
  destruct (fill_lookup _ _ _ _ _ s2 Hrow Hnd H2) as [b [Hb Hgetb]].
  exists b. split; [exact Hb|].
  unfold F_lookup. now rewrite Hget.
Qed.




(** The clock difference is taken with both shifts on one day: a DAY shift
    after a DAY shift, sixteen hours apart, is forbidden as well. *)
Lemma forbidden_adjacency_day_after_day :
  exists idx,
    _create_indices (Examples.S1 37.5) = Ok idx /\
    F_lookup idx "st-day" "st-day" = Some true /\
    rest_minutes_next_day Examples.DAY Examples.DAY = Ok (16 * 60) /\
    spec_forbidden 11 Examples.DAY Examples.DAY = Ok false.
Proof.
  eexists. split; [|split; [|split]]; vm_compute; reflexivity.
Qed.

(* ------------------------------------------------------------------ *)
(** ** Inputs the core does not read *)





(* ------------------------------------------------------------------ *)
(** ** A request without demand *)







(* ------------------------------------------------------------------ *)
(** ** Reading a feasible solution of a concrete model *)

Lemma feasible_inv (m : CpModel) (sol : list Z) :
  feasible m sol ->
  domains_ok (variables m) sol = true /\
  forallb (holdsb sol) (constraints m) = true.
Proof. unfold feasible, feasibleb. intros H. now apply andb_prop in H. Qed.

Lemma domains_ok_length (ds : list IntVarDecl) :
  forall sol, domains_ok ds sol = true -> List.length sol = List.length ds.
Proof.
  induction ds as [|d ds IH]; intros [|z sol] H; simpl in *;
    try discriminate; [reflexivity|].
  apply andb_prop in H. destruct H as [_ H]. now rewrite (IH _ H).
Qed.

(** Splits the hypothesis [H : feasible m sol] of a concrete model into
    integer facts about the values [sol] consists of. *)
Ltac open_solution H sol :=
  let Hd := fresh "Hdom" in
  let Hc := fresh "Hcon" in
  apply feasible_inv in H; destruct H as [Hd Hc];
  let Hl := fresh "Hlen" in
  cbn [variables constraints] in Hd, Hc;
  pose proof (domains_ok_length _ _ Hd) as Hl; cbn in Hl;
  repeat (destruct sol as [|? sol]; [discriminate Hl|]; cbn in Hl);
  destruct sol; [|discriminate Hl]; clear Hl;
  cbn [domains_ok forallb holdsb eval nth list_max list_min map fold_left
       in_domain lb ub] in Hd, Hc;
  repeat match goal with
         | H0 : (_ && _)%bool = true |- _ =>
             apply andb_prop in H0; destruct H0
         | H0 : in_domain _ _ = true |- _ =>
             unfold in_domain in H0; cbn [lb ub] in H0
         | H0 : true = true |- _ => clear H0
         | H0 : (_ <=? _) = true |- _ => apply Z.leb_le in H0
         | H0 : (_ =? _) = true |- _ => apply Z.eqb_eq in H0
         end.

(** Replaces the model in [H : feasible (model_of c) sol] by its value. *)
Ltac compute_model H :=
  match type of H with
  | feasible ?m _ =>
      let v := eval vm_compute in m in
      change m with v in H
  end.

(* ------------------------------------------------------------------ *)
(** ** The engine status and the diagnostics *)

(** Whatever the engine answers, the diagnostics [solve] returns say
    [infeasible = false]. *)
Lemma solve_never_reports_infeasible (engine : Engine) (ms : Z) (r : Request.t)
  (assignments : list Assignment.t) (metrics : MetricsModel) (d : Diagnostics.t) :
  solve engine ms r = Ok (assignments, metrics, d) ->
  Diagnostics.infeasible d = false /\
  Diagnostics.notes d = ["Validation temporarily disabled"].
Proof.
  unfold solve. intros H.
  destruct (_get_dates (Request.horizon r)); simpl in H; [|discriminate].
  destruct (_build_model r empty_model) as [[[[[i x] y] u] m]|];
    simpl in H; [|discriminate].
  destruct ((if nonempty (Request.hints r) then _add_hints i r else ret tt) m)
    as [[? m']|]; simpl in H; [|discriminate].
  unfold respond in H.
  destruct (_extract_assignments _ x i r); simpl in H; [|discriminate].
  destruct (_create_assignments_summary _ r _ y u); simpl in H; [|discriminate].
  injection H as _ _ <-. split; reflexivity.
Qed.

(** The model of a staff member with negative contracted hours has no
    solution: the weekly cap is negative and minutes are not. *)
Lemma negative_hours_model_infeasible (sol : list Z) :
  ~ feasible (model_of (_build_model Examples.S1_negative_hours)) sol.
Proof.
  intros H.
  compute_model H.
  open_solution H sol. lia.
Qed.

(** C4 fails on the code: for the request S1 with contracted hours -1 the
    model has no solution, an engine that says so (status INFEASIBLE, no
    values) keeps its contract, and [solve] does not return an empty
    assignment list with [infeasible = true]: reading the value of x
    raises. *)
Theorem solve_on_infeasible_status :
  cp_sat_contract (model_of (_build_model Examples.S1_negative_hours))
                  (mkResponse INFEASIBLE []) /\
  solve Examples.says_infeasible 0 Examples.S1_negative_hours = Raise IndexError.
Proof.
  split.
  - simpl. split; [reflexivity|]. exact negative_hours_model_infeasible.
  - vm_compute. reflexivity.
Qed.

(* ------------------------------------------------------------------ *)
(** ** Preference satisfaction *)

Lemma find_existsb {T} (p : T -> bool) (l : list T) :
  match find p l with Some _ => true | None => false end = existsb p l.
Proof.
  induction l as [|a l IH]; simpl; [reflexivity|].
  destruct (p a); [reflexivity|exact IH].
Qed.

Lemma count_prefs_cons (p : Preference.t -> bool) (a : Preference.t)
  (l : list Preference.t) :
  count_prefs p (a :: l) = (if p a then 1 else 0) + count_prefs p l.
Proof.
  unfold count_prefs. simpl. destruct (p a); simpl List.length; lia.
Qed.

Lemma satisfied_preferences_count (assignments : list Assignment.t)
  (prefs : list Preference.t) :
  satisfied_preferences assignments prefs =
  honoured_prefer_on assignments prefs - broken_prefer_off assignments prefs.
Proof.
  unfold satisfied_preferences, honoured_prefer_on, broken_prefer_off.
  assert (G : forall acc,
    fold_left
      (fun satisfied pref =>
         match find (pref_matches pref) assignments with
         | Some _ =>
             if Preference.preferOn pref then satisfied + 1
             else if Preference.preferOff pref then satisfied - 1
             else satisfied
         | None => satisfied
         end) prefs acc =
    acc + count_prefs (fun p => Preference.preferOn p && works_on assignments p) prefs
    - count_prefs (fun p => negb (Preference.preferOn p) && Preference.preferOff p
                            && works_on assignments p) prefs).
  { induction prefs as [|p prefs IH]; intros acc.
    - unfold count_prefs; simpl; lia.
    - cbn [fold_left]. rewrite IH, !count_prefs_cons. cbv beta.
      generalize (count_prefs
                    (fun p => Preference.preferOn p && works_on assignments p) prefs).
      generalize (count_prefs
                    (fun p => negb (Preference.preferOn p) && Preference.preferOff p
                              && works_on assignments p) prefs).
      intros c1 c2. unfold works_on. rewrite <- find_existsb.
      destruct (find (pref_matches p) assignments);
        destruct (Preference.preferOn p), (Preference.preferOff p);
        cbn [andb negb]; lia. }
  rewrite G. lia.
Qed.

Lemma count_prefs_bounds (p : Preference.t -> bool) (l : list Preference.t) :
  0 <= count_prefs p l <= Z.of_nat (List.length l).
Proof.
  unfold count_prefs. pose proof (filter_length_le p l). lia.
Qed.

Lemma Qmax0_bounds (n d : Z) :
  n <= d -> 1 <= d -> (0 <= Qmax0 (inject_Z n / inject_Z d) <= 1)%Q.
Proof.
  intros Hn Hd. unfold Qmax0.
  destruct (Qlt_le_dec 0 (inject_Z n / inject_Z d)) as [Hpos|Hneg].
  - split; [now apply Qlt_le_weak|].
    apply Qle_shift_div_r.
    + change 0%Q with (inject_Z 0). rewrite <- Zlt_Qlt. lia.
    + rewrite Qmult_1_l. rewrite <- Zle_Qle. exact Hn.
  - split; [apply Qle_refl|discriminate].
Qed.

(** C7, as amended: preferenceSatisfaction is the number of prefer-on
    preferences whose staff member works that date, minus the number of
    prefer-off preferences whose staff member works that date all the same,
    over the number of preferences (over 1 when there is none), and 0 when
    that is negative; it lies in [0, 1]. *)
Theorem preference_satisfaction_formula (assignments : list Assignment.t)
  (r : Request.t) (solve_time_ms : Z) :
  let prefs := Request.preferences r in
  preferenceSatisfaction (_calculate_metrics assignments r solve_time_ms) =
    Qmax0 (inject_Z (honoured_prefer_on assignments prefs
                     - broken_prefer_off assignments prefs)
           / inject_Z (Z.max 1 (Z.of_nat (List.length prefs)))) /\
  (0 <= preferenceSatisfaction (_calculate_metrics assignments r solve_time_ms) <= 1)%Q.
Proof.
  intros prefs. unfold _calculate_metrics. cbn [preferenceSatisfaction].
  fold prefs. rewrite satisfied_preferences_count.
  split; [reflexivity|].
  apply Qmax0_bounds; [|lia].
  pose proof (count_prefs_bounds
                (fun p => Preference.preferOn p && works_on assignments p) prefs).
  pose proof (count_prefs_bounds
                (fun p => negb (Preference.preferOn p) && Preference.preferOff p
                          && works_on assignments p) prefs).
  unfold honoured_prefer_on, broken_prefer_off. lia.
Qed.

(** C7 as stated does not hold: with one prefer-on preference honoured and
    one prefer-off preference honoured, the stated value is (1 - 1) / 2 = 0
    and the metric is 1/2. *)
Lemma preference_satisfaction_counts_broken_prefer_off :
  let r := Examples.with_preferences Examples.two_preferences in
  honoured_prefer_on Examples.worked_monday (Request.preferences r) = 1 /\
  honoured_prefer_off Examples.worked_monday (Request.preferences r) = 1 /\
  (spec_preferenceSatisfaction Examples.worked_monday (Request.preferences r) == 0)%Q /\
  (preferenceSatisfaction (_calculate_metrics Examples.worked_monday r 0) == 1 # 2)%Q.
Proof.
  cbv zeta. split; [|split; [|split]]; vm_compute; reflexivity.
Qed.

(* ------------------------------------------------------------------ *)
(** ** Night-shift fairness *)

Lemma str_in_In (s : string) (l : list string) : str_in s l = true <-> In s l.
Proof.
  unfold str_in. rewrite existsb_exists. split.
  - intros [x [Hin Heq]]. apply String.eqb_eq in Heq. now subst.
  - intros Hin. exists s. split; [exact Hin|apply String.eqb_refl].
Qed.

Lemma str_in_false (s : string) (l : list string) : str_in s l = false <-> ~ In s l.
Proof.
  rewrite <- str_in_In. destruct (str_in s l); split; congruence.
Qed.












(* ------------------------------------------------------------------ *)
(** ** Scenario S2: the staff member lacks the skill *)

Lemma S2_build (hours : Q) :
  exists idx,
    _build_model (Examples.S2 hours) empty_model =
    Ok (idx, Examples.S2_x, [], Examples.S2_u,
        Examples.S2_model (Examples.one_day_cap hours)).
Proof. eexists. vm_compute. reflexivity. Qed.

Lemma S2_dates (hours : Q) :
  _get_dates (Request.horizon (Examples.S2 hours)) = Ok ["2025-01-01"].
Proof. vm_compute. reflexivity. Qed.

(** [solve] on S2 is [respond] on the engine's answer to the S2 model. *)
Lemma S2_solve (engine : Engine) (ms : Z) (hours : Q) :
  exists idx,
    solve engine ms (Examples.S2 hours) =
    respond (engine (time_limit (Examples.S2 hours))
                    (Examples.S2_model (Examples.one_day_cap hours)))
            idx Examples.S2_x [] Examples.S2_u (Examples.S2 hours) ms.
Proof.
  destruct (S2_build hours) as [idx Hb]. exists idx.
  unfold solve. rewrite S2_dates, Hb. reflexivity.
Qed.

(** Every solution of the S2 model has u = 1 and x in {0, 1}; x = 0 when
    the cap is below the 480 minutes of the shift. *)
Lemma S2_solutions (cap : Z) (sol : list Z) :
  feasible (Examples.S2_model cap) sol ->
  exists x rest,
    sol = x :: 1 :: rest /\ (x = 0 \/ (x = 1 /\ 480 <= cap)) /\
    objective_value (Examples.S2_model cap) sol = 100000 - 480000000 * x.
Proof.
  intros H. unfold Examples.S2_model in H. open_solution H sol.
  eexists. eexists. split; [|split].
  - f_equal. f_equal. lia.
  - lia.
  - unfold objective_value, Examples.S2_model. cbn [objective eval nth]. lia.
Qed.

Lemma S2_working_feasible (cap : Z) :
  480 <= cap -> feasible (Examples.S2_model cap) Examples.S2_working.
Proof.
  intros H. unfold feasible, feasibleb. apply andb_true_intro. split.
  - reflexivity.
  - cbn. apply Z.leb_le in H. rewrite H. reflexivity.
Qed.

Lemma S2_idle_feasible (cap : Z) :
  0 <= cap -> feasible (Examples.S2_model cap) Examples.S2_idle.
Proof.
  intros H. unfold feasible, feasibleb. apply andb_true_intro. split.
  - reflexivity.
  - cbn. apply Z.leb_le in H. rewrite H. reflexivity.
Qed.

Lemma S2_respond_idle (st : CpSolverStatus) (rest : list Z) (idx : ModelIndices)
  (hours : Q) (ms : Z) :
  exists metrics summary,
    respond (mkResponse st (0 :: 1 :: rest)) idx Examples.S2_x [] Examples.S2_u
            (Examples.S2 hours) ms =
      Ok ([], metrics,
          Diagnostics.mk false ["Validation temporarily disabled"] (Some summary)) /\
    Summary.total_unmet summary = 1.
Proof.
  eexists. eexists. split; [vm_compute; reflexivity|reflexivity].
Qed.

Lemma S2_respond_working (st : CpSolverStatus) (rest : list Z) (idx : ModelIndices)
  (hours : Q) (ms : Z) :
  exists metrics summary,
    respond (mkResponse st (1 :: 1 :: rest)) idx Examples.S2_x [] Examples.S2_u
            (Examples.S2 hours) ms =
      Ok ([Examples.the_assignment], metrics,
          Diagnostics.mk false ["Validation temporarily disabled"] (Some summary)) /\
    Summary.total_unmet summary = 1.
Proof.
  eexists. eexists. split; [vm_compute; reflexivity|reflexivity].
Qed.

Lemma S2_model_of (hours : Q) :
  model_of (_build_model (Examples.S2 hours)) =
  Examples.S2_model (Examples.one_day_cap hours).
Proof.
  unfold model_of. destruct (S2_build hours) as [idx Hb]. now rewrite Hb.
Qed.

Lemma S2_working_objective (cap : Z) :
  objective_value (Examples.S2_model cap) Examples.S2_working = 100000 - 480000000.
Proof. reflexivity. Qed.

(** An engine answer that keeps the contract on the S2 model: idle when
    the cap excludes the shift, at work (the optimum) when it admits it. *)
Lemma S2_idle_optimal (cap : Z) :
  0 <= cap < 480 ->
  cp_sat_contract (Examples.S2_model cap) (mkResponse OPTIMAL Examples.S2_idle).
Proof.
  intros Hcap. split; [apply S2_idle_feasible; lia|].
  intros sol' Hf. cbn [solution].
  destruct (S2_solutions cap sol' Hf) as [x [rest [_ [Hx ->]]]].
  change (objective_value (Examples.S2_model cap) Examples.S2_idle) with 100000.
  lia.
Qed.

Lemma S2_working_optimal (cap : Z) :
  480 <= cap ->
  cp_sat_contract (Examples.S2_model cap) (mkResponse OPTIMAL Examples.S2_working).
Proof.
  intros Hcap. split; [apply S2_working_feasible; lia|].
  intros sol' Hf. cbn [solution].
  destruct (S2_solutions cap sol' Hf) as [x [rest [_ [Hx ->]]]].
  rewrite S2_working_objective. lia.
Qed.

(** C2, as amended: on the S2 input, whenever the engine answers Optimal or
    Feasible, the slack u of (2025-01-01, w1, DAY, General) is 1 and the
    summary reports total_unmet = 1; the solve returns no assignment when
    the staff member's cap for the one day of the horizon,
    floor(contract minutes / 7), is below the 480 minutes of the shift, and
    when the cap admits the shift an Optimal answer assigns the staff member
    to the cell although the skill is missing. *)
Theorem S2_skill_mismatch (engine : Engine) (ms : Z) (hours : Q) :
  let model := model_of (_build_model (Examples.S2 hours)) in
  let resp := engine (time_limit (Examples.S2 hours)) model in
  status resp = OPTIMAL \/ status resp = FEASIBLE ->
  cp_sat_contract model resp ->
  exists assignments metrics summary,
    solve engine ms (Examples.S2 hours) =
      Ok (assignments, metrics,
          Diagnostics.mk false ["Validation temporarily disabled"] (Some summary)) /\
    rbind (dict_getitem String.eqb (u_name "2025-01-01" "DAY" "w1" "General")
             Examples.S2_u) (Value resp) = Ok 1 /\
    Summary.total_unmet summary = 1 /\
    (Examples.one_day_cap hours < 480 -> assignments = []) /\
    (480 <= Examples.one_day_cap hours -> status resp = OPTIMAL ->
     assignments = [Examples.the_assignment]).
Proof.
  intros model resp. subst model. rewrite S2_model_of in *.
  destruct (S2_solve engine ms hours) as [idx Hs].
  change (engine _ _) with resp in Hs. clearbody resp. intros Hst Hc.
  assert (Hf : feasible (Examples.S2_model (Examples.one_day_cap hours))
                        (solution resp)).
  { unfold cp_sat_contract in Hc.
    destruct Hst as [Hst|Hst]; rewrite Hst in Hc; [exact (proj1 Hc)|exact Hc]. }
  destruct (S2_solutions _ _ Hf) as [x [rest [Hsol [Hx _]]]].
  destruct resp as [st sol]. cbn [solution status] in *. subst sol.
  destruct Hx as [->|[-> Hcap]].
  - destruct (S2_respond_idle st rest idx hours ms) as [metrics [summary [Hr Hu]]].
    exists [], metrics, summary. rewrite Hs, Hr.
    split; [reflexivity|]. split; [reflexivity|]. split; [exact Hu|].
    split; [reflexivity|].
    intros Hcap Hopt. exfalso.
    unfold cp_sat_contract in Hc. cbn [status] in Hc. rewrite Hopt in Hc.
    destruct Hc as [_ Hmin].
    specialize (Hmin _ (S2_working_feasible _ Hcap)). cbn [solution] in Hmin.
    destruct (S2_solutions _ _ Hf) as [x' [rest' [Hsol' [_ Hobj]]]].
    injection Hsol' as <- _. rewrite Hobj, S2_working_objective in Hmin. lia.
  - destruct (S2_respond_working st rest idx hours ms) as [metrics [summary [Hr Hu]]].
    exists [Examples.the_assignment], metrics, summary. rewrite Hs, Hr.
    split; [reflexivity|]. split; [reflexivity|]. split; [exact Hu|].
    split; [lia|reflexivity].
Qed.

Lemma S2_skill_mismatch_witness :
  exists assignments metrics summary,
    solve (Examples.answers OPTIMAL Examples.S2_idle) 0 (Examples.S2 37.5) =
      Ok (assignments, metrics,
          Diagnostics.mk false ["Validation temporarily disabled"] (Some summary)) /\
    rbind (dict_getitem String.eqb (u_name "2025-01-01" "DAY" "w1" "General")
             Examples.S2_u)
          (Value (mkResponse OPTIMAL Examples.S2_idle)) = Ok 1 /\
    Summary.total_unmet summary = 1 /\
    (Examples.one_day_cap 37.5 < 480 -> assignments = []) /\
    (480 <= Examples.one_day_cap 37.5 -> OPTIMAL = OPTIMAL ->
     assignments = [Examples.the_assignment]).
Proof.
  apply (S2_skill_mismatch (Examples.answers OPTIMAL Examples.S2_idle) 0 37.5).
  - left. reflexivity.
  - rewrite S2_model_of. apply S2_idle_optimal. vm_compute.
    split; [discriminate|reflexivity].
Defined.

(** C2 as stated does not hold: at 60 contracted hours a week the cap for
    the day is 514 minutes, the answer that puts the staff member on the
    shift is the optimum (it keeps the engine's contract), and [solve]
    returns that assignment. *)
Lemma S2_sixty_hours_is_assigned :
  cp_sat_contract (model_of (_build_model (Examples.S2 60)))
                  (mkResponse OPTIMAL Examples.S2_working) /\
  exists metrics summary,
    solve (Examples.answers OPTIMAL Examples.S2_working) 0 (Examples.S2 60) =
      Ok ([Examples.the_assignment], metrics,
          Diagnostics.mk false ["Validation temporarily disabled"] (Some summary)) /\
    Summary.total_unmet summary = 1.
Proof.
  split.
  - rewrite S2_model_of. apply S2_working_optimal. vm_compute. discriminate.
  - destruct (S2_solve (Examples.answers OPTIMAL Examples.S2_working) 0 60)
      as [idx Hs].
    destruct (S2_respond_working OPTIMAL
                [480; 480; 480; 480; -480; 480; 480; 0] idx 60 0)
      as [metrics [summary [Hr Hu]]].
    exists metrics, summary. rewrite Hs. split; [exact Hr|exact Hu].
Qed.

(* ------------------------------------------------------------------ *)
(** ** Locks *)

(** Replaces a model [model_of c] in the goal by its value. *)
Ltac compute_model_goal :=
  repeat match goal with
         | |- context [model_of ?c] =>
             let v := eval vm_compute in (model_of c) in
             change (model_of c) with v
         end.

(** The locks of a request reach neither the model nor the output. *)
Lemma locks_ignored (r1 r2 : Request.t) :
  same_up_to_locks r1 r2 ->
  _build_model r1 empty_model = _build_model r2 empty_model /\
  forall (engine : Engine) (solve_time_ms : Z),
    solve engine solve_time_ms r1 = solve engine solve_time_ms r2.
Proof.
  destruct r1 as [h1 w1 st1 s1 d1 ru1 l1 p1 o1 tb1 hi1].
  destruct r2 as [h2 w2 st2 s2 d2 ru2 l2 p2 o2 tb2 hi2].
  unfold same_up_to_locks; simpl.
  intros (-> & -> & -> & -> & -> & -> & -> & -> & -> & ->).
  split; [reflexivity|]. intros engine ms. reflexivity.
Qed.

Lemma S1_idle_optimal :
  cp_sat_contract (model_of (_build_model Examples.S1_locked))
                  (mkResponse OPTIMAL Examples.S1_idle).
Proof.
  split; [vm_compute; reflexivity|].
  intros sol' Hf. cbn [solution]. compute_model Hf. compute_model_goal.
  open_solution Hf sol'.
  unfold objective_value, Examples.S1_idle. cbn [objective eval nth]. lia.
Qed.

(** C3 fails on the code: S1 at 37.5 contracted hours with a lock of the
    staff member on the demanded cell.  The cap for the day (321 minutes)
    excludes the shift, so the optimum leaves the staff member idle; [solve]
    returns no assignment for the lock, its only note is the fixed
    "Validation temporarily disabled", and the whole output is the output of
    the same request without the lock. *)
Theorem lock_neither_met_nor_reported :
  cp_sat_contract (model_of (_build_model Examples.S1_locked))
                  (mkResponse OPTIMAL Examples.S1_idle) /\
  (exists metrics summary,
     solve (Examples.answers OPTIMAL Examples.S1_idle) 0 Examples.S1_locked =
       Ok ([], metrics,
           Diagnostics.mk false ["Validation temporarily disabled"] (Some summary))) /\
  forallb (fun l => lock_met l []) (Request.locks Examples.S1_locked) = false /\
  forall (engine : Engine) (solve_time_ms : Z),
    solve engine solve_time_ms Examples.S1_locked =
    solve engine solve_time_ms (Examples.S1 37.5).
Proof.
  split; [exact S1_idle_optimal|]. split; [|split].
  - eexists. eexists. vm_compute. reflexivity.
  - reflexivity.
  - intros engine ms. apply (locks_ignored Examples.S1_locked (Examples.S1 37.5)).
    unfold same_up_to_locks. simpl. tauto.
Qed.

(* ------------------------------------------------------------------ *)
(** ** Variable names *)

Lemma append_assoc (a b c : string) : (a ++ b) ++ c = a ++ (b ++ c).
Proof. induction a as [|ch a IH]; simpl; [reflexivity|now rewrite IH]. Qed.

Lemma append_nil_r (a : string) : a ++ "" = a.
Proof. induction a as [|ch a IH]; simpl; [reflexivity|now rewrite IH]. Qed.

Lemma split_aux_plain (sep : ascii) (a cur : string) :
  Str.contains sep a = false ->
  Str.split_aux sep a cur = [cur ++ a].
Proof.
  revert cur. induction a as [|ch a IH]; intros cur H; simpl in *.
  - now rewrite append_nil_r.
  - apply orb_false_iff in H. destruct H as [Hch Ha].
    rewrite Hch, (IH _ Ha), append_assoc. reflexivity.
Qed.

Lemma split_aux_sep (sep : ascii) (a b cur : string) :
  Str.contains sep a = false ->
  Str.split_aux sep (a ++ String sep b) cur = (cur ++ a) :: Str.split_aux sep b "".
Proof.
  revert cur. induction a as [|ch a IH]; intros cur H; simpl in *.
  - now rewrite Ascii.eqb_refl, append_nil_r.
  - apply orb_false_iff in H. destruct H as [Hch Ha].
    rewrite Hch, (IH _ Ha), append_assoc. reflexivity.
Qed.

(** The name of an x variable splits back into its four parts. *)
Lemma split_x_name (e d s w : string) :
  no_underscore e -> no_underscore d -> no_underscore s -> no_underscore w ->
  Str.split Str.underscore (x_name e d s w) = ["x"; e; d; s; w].
Proof.
  unfold no_underscore, x_name, Str.split. intros He Hd Hs Hw.
  change ("x_" ++ e ++ "_" ++ d ++ "_" ++ s ++ "_" ++ w)
    with ("x" ++ String Str.underscore
            (e ++ String Str.underscore
               (d ++ String Str.underscore (s ++ String Str.underscore w)))).
  rewrite split_aux_sep by reflexivity.
  rewrite (split_aux_sep _ e) by exact He.
  rewrite (split_aux_sep _ d) by exact Hd.
  rewrite (split_aux_sep _ s) by exact Hs.
  rewrite split_aux_plain by exact Hw.
  reflexivity.
Qed.

Lemma x_name_inj (e d s w e' d' s' w' : string) :
  no_underscore e -> no_underscore d -> no_underscore s -> no_underscore w ->
  no_underscore e' -> no_underscore d' -> no_underscore s' -> no_underscore w' ->
  x_name e d s w = x_name e' d' s' w' ->
  (e, d, w, s) = (e', d', w', s').
Proof.
  intros He Hd Hs Hw He' Hd' Hs' Hw' Heq.
  pose proof (split_x_name e d s w He Hd Hs Hw) as H1.
  rewrite Heq, (split_x_name e' d' s' w' He' Hd' Hs' Hw') in H1.
  now injection H1 as <- <- <- <-.
Qed.

(* ------------------------------------------------------------------ *)
(** ** The dates of the horizon *)

Lemma all_from_spec (p : Z -> bool) (n : nat) :
  forall start, all_from n start p = true ->
  forall z, start <= z < start + Z.of_nat n -> p z = true.
Proof.
  induction n as [|n IH]; intros start H z Hz; [lia|].
  cbn [all_from] in H. apply andb_prop in H. destruct H as [H0 H1].
  destruct (Z.eq_dec z start) as [->|Hne]; [exact H0|].
  apply (IH (start + 1) H1). lia.
Qed.

Lemma ord_cycle_checked : all_from 146097 1 ord_cycle_ok = true.
Proof. vm_cast_no_check (eq_refl true). Qed.

Lemma pad4_checked : all_from 10000 0 (pad_ok 4) = true.
Proof. vm_cast_no_check (eq_refl true). Qed.

Lemma pad2_checked : all_from 100 0 (pad_ok 2) = true.
Proof. vm_cast_no_check (eq_refl true). Qed.

(** [_ord2ymd] and [_ymd2ord] repeat every 400 years. *)
Lemma ord2ymd_period (o : Z) :
  Date.ord2ymd (o + Date.DI400Y) =
  let '(y, m, d) := Date.ord2ymd o in (y + 400, m, d).
Proof.
  unfold Date.ord2ymd.
  replace (o + Date.DI400Y - 1) with (o - 1 + 1 * Date.DI400Y) by lia.
  rewrite Z_div_plus_full by (unfold Date.DI400Y; lia).
  rewrite Z_mod_plus_full.
  cbv zeta.
  destruct ((((o - 1) mod Date.DI400Y mod Date.DI100Y mod Date.DI4Y / 365 =? 4)
             || ((o - 1) mod Date.DI400Y / Date.DI100Y =? 4))%bool).
  - f_equal. f_equal. lia.
  - match goal with |- context [if ?c then _ else _] => destruct c end;
      f_equal; f_equal; lia.
Qed.

Lemma is_leap_period (y : Z) : Date.is_leap (y + 400) = Date.is_leap y.
Proof.
  unfold Date.is_leap.
  replace ((y + 400) mod 4) with (y mod 4)
    by (replace (y + 400) with (y + 100 * 4) by lia; now rewrite Z_mod_plus_full).
  replace ((y + 400) mod 100) with (y mod 100)
    by (replace (y + 400) with (y + 4 * 100) by lia; now rewrite Z_mod_plus_full).
  replace ((y + 400) mod 400) with (y mod 400)
    by (replace (y + 400) with (y + 1 * 400) by lia; now rewrite Z_mod_plus_full).
  reflexivity.
Qed.

Lemma ymd2ord_period (y m d : Z) :
  Date.ymd2ord (y + 400) m d = Date.ymd2ord y m d + Date.DI400Y.
Proof.
  unfold Date.ymd2ord, Date.days_before_month, Date.days_before_year, Date.DI400Y.
  rewrite is_leap_period. cbv zeta.
  replace (y + 400 - 1) with (y - 1 + 400) by lia.
  replace ((y - 1 + 400) / 4) with ((y - 1) / 4 + 100)
    by (replace (y - 1 + 400) with (y - 1 + 100 * 4) by lia;
        now rewrite Z_div_plus_full by lia).
  replace ((y - 1 + 400) / 100) with ((y - 1) / 100 + 4)
    by (replace (y - 1 + 400) with (y - 1 + 4 * 100) by lia;
        now rewrite Z_div_plus_full by lia).
  replace ((y - 1 + 400) / 400) with ((y - 1) / 400 + 1)
    by (replace (y - 1 + 400) with (y - 1 + 1 * 400) by lia;
        now rewrite Z_div_plus_full by lia).
  lia.
Qed.

(** What [_ord2ymd] gives for the ordinal [o + k * 146097] of cycle [k]. *)
Lemma ord2ymd_cycle (k : nat) (o : Z) :
  1 <= o <= Date.DI400Y ->
  exists y m d,
    Date.ord2ymd (o + Z.of_nat k * Date.DI400Y) = (y + 400 * Z.of_nat k, m, d) /\
    1 <= y <= 400 /\ 1 <= m <= 12 /\ 1 <= d <= 31 /\
    Date.ymd2ord (y + 400 * Z.of_nat k) m d = o + Z.of_nat k * Date.DI400Y /\
    (o <= 145731 -> y <= 399).
Proof.
  intros Ho. induction k as [|k IH].
  - pose proof (all_from_spec _ _ _ ord_cycle_checked o) as Hc.
    unfold ord_cycle_ok in Hc.
    destruct (Date.ord2ymd o) as [[y m] d] eqn:E.
    exists y, m, d.
    assert (Hn : Z.of_nat 146097 = 146097) by (vm_compute; reflexivity).
    assert (Hr : 1 <= o < 1 + Z.of_nat 146097)
      by (rewrite Hn; unfold Date.DI400Y in Ho; lia).
    clear Hn.
    specialize (Hc Hr).
    repeat (apply andb_prop in Hc; destruct Hc as [Hc ?]).
    repeat match goal with
           | H : (_ <=? _) = true |- _ => apply Z.leb_le in H
           | H : (_ =? _) = true |- _ => apply Z.eqb_eq in H
           end.
    replace (o + Z.of_nat 0 * Date.DI400Y) with o by lia.
    replace (y + 400 * Z.of_nat 0) with y by lia.
    match goal with
    | H : (_ || _)%bool = true |- _ =>
        apply orb_prop in H; destruct H as [H|H];
        [apply Z.ltb_lt in H|apply Z.leb_le in H]
    end; rewrite E; repeat split; lia.
  - destruct IH as [y [m [d [E [Hy [Hm [Hd [Hback Hlast]]]]]]]].
    exists y, m, d.
    replace (o + Z.of_nat (S k) * Date.DI400Y)
      with (o + Z.of_nat k * Date.DI400Y + Date.DI400Y) by lia.
    rewrite ord2ymd_period, E.
    replace (y + 400 * Z.of_nat (S k)) with (y + 400 * Z.of_nat k + 400) by lia.
    rewrite ymd2ord_period, Hback.
    repeat split; lia.
Qed.

(** On the ordinals of [datetime.date], [_ord2ymd] gives a date of the
    years 1 to 9999 and [_ymd2ord] takes it back. *)
Lemma ord2ymd_spec (o : Z) :
  1 <= o <= Date.MAXORDINAL ->
  exists y m d,
    Date.ord2ymd o = (y, m, d) /\
    1 <= y <= 9999 /\ 1 <= m <= 12 /\ 1 <= d <= 31 /\ Date.ymd2ord y m d = o.
Proof.
  intros Ho.
  change Date.MAXORDINAL with 3652059 in Ho.
  set (k := (o - 1) / Date.DI400Y).
  set (o0 := (o - 1) mod Date.DI400Y + 1).
  assert (Hk : 0 <= k <= 24).
  { unfold k, Date.DI400Y. split.
    - apply Z.div_pos; lia.
    - enough ((o - 1) / 146097 < 25) by lia.
      apply Z.div_lt_upper_bound; lia. }
  assert (Ho0 : 1 <= o0 <= Date.DI400Y).
  { unfold o0. pose proof (Z.mod_pos_bound (o - 1) Date.DI400Y).
    unfold Date.DI400Y in *. lia. }
  assert (Hsplit : o = o0 + Z.of_nat (Z.to_nat k) * Date.DI400Y).
  { unfold o0, k. rewrite Z2Nat.id by (apply Z.div_pos; unfold Date.DI400Y; lia).
    pose proof (Z.div_mod (o - 1) Date.DI400Y). unfold Date.DI400Y in *. lia. }
  destruct (ord2ymd_cycle (Z.to_nat k) o0 Ho0)
    as [y [m [d [E [Hy [Hm [Hd [Hback Hlast]]]]]]]].
  rewrite <- Hsplit in E, Hback. rewrite Z2Nat.id in E, Hback by lia.
  exists (y + 400 * k), m, d. repeat split; try lia; try assumption.
  destruct (Z.eq_dec k 24) as [Hk24|]; [|lia].
  assert (o0 <= 145731).
  { rewrite Hk24 in Hsplit. unfold Date.DI400Y in Hsplit.
    rewrite Z2Nat.id in Hsplit by lia. subst k. lia. }
  specialize (Hlast H). lia.
Qed.

Lemma pad_ok_spec (w : nat) (n : Z) :
  pad_ok w n = true ->
  String.length (Str.pad w n) = w /\
  no_underscore (Str.pad w n) /\
  Str.parse_digits (Str.pad w n) = Some n.
Proof.
  unfold pad_ok, no_underscore. intros H.
  apply andb_prop in H. destruct H as [H H3].
  apply andb_prop in H. destruct H as [H1 H2].
  apply Nat.eqb_eq in H1. apply negb_true_iff in H2.
  destruct (Str.parse_digits (Str.pad w n)) as [n'|]; [|discriminate].
  apply Z.eqb_eq in H3. subst n'. auto.
Qed.

Lemma pad4_spec (n : Z) :
  0 <= n <= 9999 ->
  String.length (Str.pad 4 n) = 4%nat /\
  no_underscore (Str.pad 4 n) /\
  Str.parse_digits (Str.pad 4 n) = Some n.
Proof.
  intros H. apply pad_ok_spec.
  apply (all_from_spec _ _ _ pad4_checked).
  assert (Hn : Z.of_nat 10000 = 10000) by (vm_compute; reflexivity).
  rewrite Hn. lia.
Qed.

Lemma pad2_spec (n : Z) :
  0 <= n <= 99 ->
  String.length (Str.pad 2 n) = 2%nat /\
  no_underscore (Str.pad 2 n) /\
  Str.parse_digits (Str.pad 2 n) = Some n.
Proof.
  intros H. apply pad_ok_spec.
  apply (all_from_spec _ _ _ pad2_checked).
  change (Z.of_nat 100) with 100. lia.
Qed.

Lemma contains_app (c : ascii) (a b : string) :
  Str.contains c (a ++ b) = (Str.contains c a || Str.contains c b)%bool.
Proof.
  induction a as [|ch a IH]; simpl; [reflexivity|].
  now rewrite IH, orb_assoc.
Qed.

Lemma append_inv_length (a a' b b' : string) :
  String.length a = String.length a' ->
  a ++ b = a' ++ b' -> a = a' /\ b = b'.
Proof.
  revert a'. induction a as [|ch a IH]; intros [|ch' a'] Hl H; simpl in *;
    try discriminate.
  - auto.
  - injection H as -> H. injection Hl as Hl.
    destruct (IH a' Hl H) as [-> ->]. auto.
Qed.

(** The ISO form of a date of [datetime.date] has no underscore. *)
Lemma isoformat_plain (o : Z) :
  1 <= o <= Date.MAXORDINAL -> no_underscore (Date.isoformat o).
Proof.
  intros Ho. destruct (ord2ymd_spec o Ho) as [y [m [d [E [Hy [Hm [Hd _]]]]]]].
  unfold Date.isoformat. rewrite E.
  destruct (pad4_spec y) as [_ [Hpy _]]; [lia|].
  destruct (pad2_spec m) as [_ [Hpm _]]; [lia|].
  destruct (pad2_spec d) as [_ [Hpd _]]; [lia|].
  unfold no_underscore in *.
  rewrite !contains_app, Hpy, Hpm, Hpd. reflexivity.
Qed.

(** Different dates have different ISO forms. *)
Lemma isoformat_inj (o o' : Z) :
  1 <= o <= Date.MAXORDINAL -> 1 <= o' <= Date.MAXORDINAL ->
  Date.isoformat o = Date.isoformat o' -> o = o'.
Proof.
  intros Ho Ho' H.
  destruct (ord2ymd_spec o Ho) as [y [m [d [E [Hy [Hm [Hd Hback]]]]]]].
  destruct (ord2ymd_spec o' Ho') as [y' [m' [d' [E' [Hy' [Hm' [Hd' Hback']]]]]]].
  unfold Date.isoformat in H. rewrite E, E' in H.
  destruct (pad4_spec y) as [Ly [_ Py]]; [lia|].
  destruct (pad4_spec y') as [Ly' [_ Py']]; [lia|].
  destruct (pad2_spec m) as [Lm [_ Pm]]; [lia|].
  destruct (pad2_spec m') as [Lm' [_ Pm']]; [lia|].
  destruct (pad2_spec d) as [Ld [_ Pd]]; [lia|].
  destruct (pad2_spec d') as [Ld' [_ Pd']]; [lia|].
  apply append_inv_length in H; [|congruence]. destruct H as [Hy4 H].
  apply (append_inv_length "-" "-") in H; [|reflexivity]. destruct H as [_ H].
  apply append_inv_length in H; [|congruence]. destruct H as [Hm2 H].
  apply (append_inv_length "-" "-") in H; [|reflexivity]. destruct H as [_ Hd2].
  rewrite Hy4 in Py. rewrite Hm2 in Pm. rewrite Hd2 in Pd.
  congruence.
Qed.

Lemma days_before_year_nonneg (y : Z) : 1 <= y -> 0 <= Date.days_before_year y.
Proof.
  intros H. unfold Date.days_before_year. cbv zeta.
  pose proof (Z.div_pos (y - 1) 4). pose proof (Z.div_pos (y - 1) 400).
  assert ((y - 1) / 100 <= y - 1) by (apply Z.div_le_upper_bound; lia).
  lia.
Qed.

Lemma days_before_month_nonneg (y m : Z) :
  1 <= m <= 12 -> 0 <= Date.days_before_month y m.
Proof.
  intros H. unfold Date.days_before_month.
  assert (0 <= Date.DAYS_BEFORE_MONTH m).
  { assert (Hc : m = 1 \/ m = 2 \/ m = 3 \/ m = 4 \/ m = 5 \/ m = 6 \/ m = 7 \/
                 m = 8 \/ m = 9 \/ m = 10 \/ m = 11 \/ m = 12) by lia.
    repeat (destruct Hc as [->|Hc]; [vm_compute; discriminate|]).
    subst m. vm_compute. discriminate. }
  destruct ((2 <? m) && Date.is_leap y)%bool; lia.
Qed.

Lemma fromisoformat_lower (s : string) (o : Z) :
  Date.fromisoformat s = Ok o -> 1 <= o.
Proof.
  unfold Date.fromisoformat. intros H.
  destruct (negb (Nat.eqb (String.length s) 10)); [discriminate|].
  destruct (Str.parse_digits (Str.substr 0 4 s)) as [y|]; [|discriminate].
  destruct (Str.parse_digits (Str.substr 5 2 s)) as [m|]; [|discriminate].
  destruct (Str.parse_digits (Str.substr 8 2 s)) as [d|]; [|discriminate].
  match type of H with (if ?c then _ else _) = _ => destruct c eqn:Hc end;
    [|discriminate].
  injection H as <-.
  repeat (apply andb_prop in Hc; destruct Hc as [Hc ?]).
  repeat match goal with
         | H : (_ <=? _) = true |- _ => apply Z.leb_le in H
         end.
  unfold Date.MINYEAR in *.
  pose proof (days_before_year_nonneg y). pose proof (days_before_month_nonneg y m).
  unfold Date.ymd2ord. lia.
Qed.

Lemma dates_from_spec (n : nat) :
  forall (current : Z) (l : list string),
    dates_from n current = Ok l ->
    l = map Date.isoformat (ordinals n current) /\
    (n <> O -> current + Z.of_nat n <= Date.MAXORDINAL).
Proof.
  induction n as [|n IH]; intros current l H; simpl in H.
  - injection H as <-. split; [reflexivity|congruence].
  - unfold Date.add_days in H.
    destruct ((1 <=? current + 1) && (current + 1 <=? Date.MAXORDINAL))%bool eqn:Hr;
      simpl in H; [|discriminate].
    destruct (dates_from n (current + 1)) as [rest|] eqn:Hrest; simpl in H;
      [|discriminate].
    injection H as <-. destruct (IH _ _ Hrest) as [-> Hmax].
    split; [reflexivity|]. intros _.
    apply andb_prop in Hr. destruct Hr as [_ Hr]. apply Z.leb_le in Hr.
    destruct n; [lia|]. specialize (Hmax ltac:(discriminate)). lia.
Qed.

Lemma ordinals_In (n : nat) :
  forall start z, In z (ordinals n start) <-> start <= z < start + Z.of_nat n.
Proof.
  induction n as [|n IH]; intros start z; simpl; [lia|].
  rewrite IH. lia.
Qed.

Lemma ordinals_NoDup (n : nat) : forall start, NoDup (ordinals n start).
Proof.
  induction n as [|n IH]; intros start; simpl; constructor.
  - rewrite ordinals_In. lia.
  - apply IH.
Qed.

(** The dates of the horizon are pairwise different and free of the
    separator of variable names. *)
Lemma get_dates_spec (h : Horizon.t) (dates : list string) :
  _get_dates h = Ok dates ->
  NoDup dates /\ Forall no_underscore dates.
Proof.
  unfold _get_dates. intros H.
  destruct (Date.fromisoformat (Horizon.start h)) as [s|] eqn:Hs; simpl in H;
    [|discriminate].
  destruct (Date.fromisoformat (Horizon.end_ h)) as [e|] eqn:He; simpl in H;
    [|discriminate].
  apply fromisoformat_lower in Hs.
  destruct (dates_from_spec _ _ _ H) as [-> Hmax].
  assert (Hrange : forall z, In z (ordinals (Z.to_nat (e - s + 1)) s) ->
                             1 <= z <= Date.MAXORDINAL).
  { intros z Hz. apply ordinals_In in Hz.
    destruct (Z.to_nat (e - s + 1)) eqn:En; [simpl in Hz; lia|].
    specialize (Hmax ltac:(discriminate)). lia. }
  split.
  - apply NoDup_map_NoDup_ForallPairs; [|apply ordinals_NoDup].
    intros a b Ha Hb. apply isoformat_inj; auto.
  - apply Forall_forall. intros d Hd. apply in_map_iff in Hd.
    destruct Hd as [z [<- Hz]]. apply isoformat_plain. auto.
Qed.

(* ------------------------------------------------------------------ *)
(** ** The builder only adds variables and constraints *)

Lemma extends_refl (m : CpModel) : extends m m.
Proof. exists [], []. now rewrite !app_nil_r. Qed.

Lemma extends_trans (m1 m2 m3 : CpModel) :
  extends m1 m2 -> extends m2 m3 -> extends m1 m3.
Proof.
  intros [vs [cs [Hv Hc]]] [vs' [cs' [Hv' Hc']]].
  exists (vs ++ vs')%list, (cs ++ cs')%list.
  rewrite Hv', Hc', Hv, Hc, !app_assoc. auto.
Qed.

Lemma grows_ret {T} (a : T) : grows (ret a).
Proof. intros m a' m' H. injection H as _ <-. apply extends_refl. Qed.

Lemma grows_lift {T} (r : result T) : grows (lift r).
Proof.
  intros m a m' H. unfold lift in H. destruct r; [|discriminate].
  injection H as _ <-. apply extends_refl.
Qed.

Lemma grows_bind {T U} (c : M T) (k : T -> M U) :
  grows c -> (forall a, grows (k a)) -> grows (bind c k).
Proof.
  intros Hc Hk m b m' H. unfold bind in H.
  destruct (c m) as [[a m1]|] eqn:E; [|discriminate].
  eapply extends_trans; [exact (Hc _ _ _ E)|exact (Hk _ _ _ _ H)].
Qed.

Lemma grows_foldM {T S} (f : S -> T -> M S) (xs : list T) :
  (forall s a, grows (f s a)) -> forall s, grows (foldM f xs s).
Proof.
  intros Hf. induction xs as [|a xs IH]; intros s; simpl.
  - apply grows_ret.
  - apply grows_bind; [apply Hf|exact IH].
Qed.

Lemma grows_for {T} (xs : list T) (f : T -> M unit) :
  (forall a, grows (f a)) -> grows (for_ xs f).
Proof. intros Hf. apply grows_foldM. intros _ a. apply Hf. Qed.

Lemma grows_NewIntVar (lo hi : Z) (name : string) : grows (NewIntVar lo hi name).
Proof.
  intros m a m' H. injection H as _ <-.
  exists [mkVar lo hi name], []. simpl. now rewrite app_nil_r.
Qed.

Lemma grows_AddC (c : Constraint) : grows (AddC c).
Proof.
  intros m a m' H. injection H as _ <-.
  exists [], [c]. simpl. now rewrite app_nil_r.
Qed.

Lemma grows_Minimize (e : LinearExpr) : grows (Minimize e).
Proof.
  intros m a m' H. injection H as _ <-.
  exists [], []. simpl. now rewrite !app_nil_r.
Qed.

Create HintDb growsdb.

(** Proves [grows c] for a builder [c] made of the primitives, [bind],
    loops, case distinctions and the builders in the hint database. *)
Ltac grows_step :=
  first
    [ apply grows_ret
    | apply grows_lift
    | apply grows_NewIntVar
    | apply grows_AddC
    | apply grows_Minimize
    | solve [auto with growsdb]
    | apply grows_bind; [|intros ?]
    | apply grows_foldM; intros ? ?
    | apply grows_for; intros ?
    | match goal with
      | |- grows (match ?x with _ => _ end) => destruct x
      | |- grows (if ?b then _ else _) => destruct b
      | |- grows (let _ := _ in _) => cbv zeta
      end ].

Ltac grows_tac := repeat grows_step.

Lemma grows_NewBoolVar (name : string) : grows (NewBoolVar name).
Proof. apply grows_NewIntVar. Qed.

Lemma grows_NewConstant (c : Z) : grows (NewConstant c).
Proof. apply grows_NewIntVar. Qed.

Lemma grows_forbid (x : xdict) (n : string) : grows (forbid x n).
Proof. unfold forbid. grows_tac. Qed.

Lemma grows_not_both x r e d1 c1 d2 c2 : grows (not_both x r e d1 c1 d2 c2).
Proof. unfold not_both. grows_tac. Qed.

Lemma grows_minutes_vars_of x r e dates : grows (minutes_vars_of x r e dates).
Proof. unfold minutes_vars_of. grows_tac. Qed.

#[local] Hint Resolve grows_NewBoolVar grows_NewConstant grows_forbid
  grows_not_both grows_minutes_vars_of : growsdb.

Lemma grows_staff_minutes_totals x r : grows (staff_minutes_totals x r).
Proof. unfold staff_minutes_totals. grows_tac. Qed.

#[local] Hint Resolve grows_staff_minutes_totals : growsdb.

Lemma grows_create_x E D W S hd : grows (create_x_vars E D W S hd).
Proof. unfold create_x_vars. grows_tac. Qed.

Lemma grows_create_y r E D W S K hd : grows (create_y_vars r E D W S K hd).
Proof. unfold create_y_vars. grows_tac. Qed.

Lemma grows_create_u D W S K dr : grows (create_u_vars D W S K dr).
Proof. unfold create_u_vars. grows_tac. Qed.

Lemma grows_add_feasibility_links x y r hd : grows (_add_feasibility_links x y r hd).
Proof. unfold _add_feasibility_links. grows_tac. Qed.

Lemma grows_add_coverage y u r dr :
  grows (_add_coverage_constraints_with_slack y u r dr).
Proof. unfold _add_coverage_constraints_with_slack. grows_tac. Qed.

Lemma grows_add_one_shift x idx r : grows (_add_one_shift_per_day_constraints x idx r).
Proof. unfold _add_one_shift_per_day_constraints. grows_tac. Qed.

Lemma grows_add_rest x idx r : grows (_add_rest_constraints x idx r).
Proof. unfold _add_rest_constraints. grows_tac. Qed.

Lemma grows_add_weekly x idx r : grows (_add_weekly_contract_hours_constraints x idx r).
Proof. unfold _add_weekly_contract_hours_constraints. grows_tac. Qed.

Lemma grows_fairness x idx r : grows (_create_fairness_penalty x idx r).
Proof. unfold _create_fairness_penalty. grows_tac. Qed.

Lemma grows_utilization x idx r : grows (_create_utilization_penalty x idx r).
Proof. unfold _create_utilization_penalty. grows_tac. Qed.

#[local] Hint Resolve grows_fairness grows_utilization : growsdb.

Lemma grows_set_objective x u idx r : grows (_set_objective x u idx r).
Proof. unfold _set_objective. grows_tac. Qed.

(* ------------------------------------------------------------------ *)
(** ** The dictionary of x variables *)

Lemma key3_eqb_spec (a b : key3) : reflect (a = b) (key3_eqb a b).
Proof.
  destruct a as [[a1 a2] a3], b as [[b1 b2] b3]. unfold key3_eqb.
  destruct (String.eqb_spec a1 b1); [|constructor; congruence].
  destruct (String.eqb_spec a2 b2); [|constructor; congruence].
  destruct (String.eqb_spec a3 b3); constructor; congruence.
Qed.

Lemma dict_set_fresh {V} (k : string) (v : V) (d : dict string V) :
  dict_get String.eqb k d = None ->
  dict_set String.eqb k v d = (d ++ [(k, v)])%list.
Proof.
  induction d as [|[k' v'] d IH]; simpl; intros H; [reflexivity|].
  destruct (String.eqb k k'); [discriminate|]. now rewrite IH.
Qed.

Lemma dict_get_app_fresh {V} (k k' : string) (v : V) (d : dict string V) :
  k <> k' -> dict_get String.eqb k d = None ->
  dict_get String.eqb k (d ++ [(k', v)])%list = None.
Proof.
  intros Hne. induction d as [|[k0 v0] d IH]; simpl; intros H.
  - destruct (String.eqb_spec k k'); [contradiction|reflexivity].
  - destruct (String.eqb k k0); [discriminate|]. now apply IH.
Qed.

(** The loop that creates the x variables, over any list of cells with
    pairwise different names: one variable per cell, in order. *)
Lemma create_x_loop (hd : dict key3 bool) :
  forall (cells : list (string * string * string * string)) (x0 x : xdict)
         (m m' : CpModel),
    foldM
      (fun x '(e, d, w, s) =>
         bind (lift (dict_getitem key3_eqb (d, w, s) hd))
              (fun hd : bool =>
                 if hd then
                   bind (NewBoolVar (x_name e d s w))
                        (fun v => ret (dict_set String.eqb (x_name e d s w) v x))
                 else ret x))
      cells x0 m = Ok (x, m') ->
    (forall v, In v (dict_values hd) -> v = true) ->
    NoDup (map cell_name cells) ->
    (forall c, In c cells -> dict_get String.eqb (cell_name c) x0 = None) ->
    x = (x0 ++ x_entries (List.length (variables m)) cells)%list /\
    variables m' = (variables m ++ map (fun c => mkVar 0 1 (cell_name c)) cells)%list /\
    constraints m' = constraints m.
Proof.
  induction cells as [|[[[e d] w] s] cells IH]; intros x0 x m m' H Hhd Hnd Hfresh.
  - cbn [foldM] in H. unfold ret in H. injection H as <- <-.
    unfold x_entries. simpl. now rewrite !app_nil_r.
  - cbn [foldM] in H. unfold bind at 1 2 in H. unfold lift, dict_getitem in H.
    destruct (dict_get key3_eqb (d, w, s) hd) as [b|] eqn:Eb; [|discriminate].
    assert (b = true) as ->.
    { apply Hhd. unfold dict_values. apply in_map_iff.
      exists (d, w, s, b). split; [reflexivity|].
      exact (dict_get_In _ key3_eqb_spec _ _ _ Eb). }
    unfold bind at 1 in H. unfold NewBoolVar, NewIntVar at 1 in H.
    unfold ret at 1 in H.
    inversion Hnd as [|? ? Hnotin Hnd']; subst.
    rewrite dict_set_fresh in H by (apply (Hfresh (e, d, w, s)); now left).
    apply IH in H; [|exact Hhd|exact Hnd'|].
    + destruct H as [-> [-> ->]]. cbn [variables constraints].
      rewrite length_app. cbn [List.length].
      replace (List.length (variables m) + 1)%nat with (S (List.length (variables m)))
        by lia.
      unfold x_entries. cbn [List.length seq combine map cell_name].
      rewrite <- !app_assoc. auto.
    + intros c Hc. apply dict_get_app_fresh; [|apply Hfresh; now right].
      intros Heq. apply Hnotin. rewrite <- Heq. now apply in_map.
Qed.

Lemma create_x_vars_spec (E D W S : list string) (hd : dict key3 bool)
  (x : xdict) (m m' : CpModel) :
  create_x_vars E D W S hd m = Ok (x, m') ->
  (forall v, In v (dict_values hd) -> v = true) ->
  NoDup (map cell_name (prod4 E D W S)) ->
  x = x_entries (List.length (variables m)) (prod4 E D W S) /\
  variables m' =
    (variables m ++ map (fun c => mkVar 0 1 (cell_name c)) (prod4 E D W S))%list /\
  constraints m' = constraints m.
Proof.
  intros H Hhd Hnd.
  apply (create_x_loop hd (prod4 E D W S) [] x m m') in H; auto.
Qed.

(* ------------------------------------------------------------------ *)
(** ** Products of ranges *)

Lemma NoDup_flat_map {T U} (f : T -> list U) (l : list T) :
  NoDup l ->
  (forall a, In a l -> NoDup (f a)) ->
  (forall a a' b, In a l -> In a' l -> In b (f a) -> In b (f a') -> a = a') ->
  NoDup (flat_map f l).
Proof.
  induction l as [|a l IH]; intros Hnd Hf Hdisj; simpl; [constructor|].
  inversion Hnd as [|? ? Hnotin Hnd']; subst.
  apply NoDup_app.
  - apply Hf. now left.
  - apply IH; [exact Hnd'| |].
    + intros a' Ha'. apply Hf. now right.
    + intros a1 a2 b H1 H2. apply Hdisj; now right.
  - intros b Hb Hb'. apply in_flat_map in Hb'. destruct Hb' as [a' [Ha' Hb']].
    assert (a = a') by (apply (Hdisj a a' b); auto; [now left|now right]).
    subst a'. contradiction.
Qed.

Lemma in_prod2 {T1 T2} (l1 : list T1) (l2 : list T2) (a : T1) (b : T2) :
  In (a, b) (prod2 l1 l2) <-> In a l1 /\ In b l2.
Proof.
  unfold prod2. rewrite in_flat_map. split.
  - intros [a' [Ha Hb]]. apply in_map_iff in Hb. destruct Hb as [b' [E Hb]].
    injection E as -> ->. auto.
  - intros [Ha Hb]. exists a. split; [exact Ha|]. apply in_map_iff. now exists b.
Qed.

Lemma NoDup_prod2 {T1 T2} (l1 : list T1) (l2 : list T2) :
  NoDup l1 -> NoDup l2 -> NoDup (prod2 l1 l2).
Proof.
  intros H1 H2. unfold prod2. apply NoDup_flat_map; [exact H1| |].
  - intros a _. apply NoDup_map_NoDup_ForallPairs; [|exact H2].
    intros b b' _ _ E. now injection E.
  - intros a a' [a0 b] _ _ Hb Hb'.
    apply in_map_iff in Hb, Hb'. destruct Hb as [? [E _]], Hb' as [? [E' _]].
    congruence.
Qed.

Lemma in_prod3 {T1 T2 T3} (l1 : list T1) (l2 : list T2) (l3 : list T3) a b c :
  In (a, b, c) (prod3 l1 l2 l3) <-> In a l1 /\ In b l2 /\ In c l3.
Proof.
  unfold prod3. rewrite in_flat_map. split.
  - intros [a' [Ha Hb]]. apply in_map_iff in Hb. destruct Hb as [[b' c'] [E Hb]].
    simpl in E. injection E as -> -> ->. apply in_prod2 in Hb. tauto.
  - intros [Ha [Hb Hc]]. exists a. split; [exact Ha|]. apply in_map_iff.
    exists (b, c). split; [reflexivity|]. now apply in_prod2.
Qed.

Lemma NoDup_prod3 {T1 T2 T3} (l1 : list T1) (l2 : list T2) (l3 : list T3) :
  NoDup l1 -> NoDup l2 -> NoDup l3 -> NoDup (prod3 l1 l2 l3).
Proof.
  intros H1 H2 H3. unfold prod3. apply NoDup_flat_map; [exact H1| |].
  - intros a _. apply NoDup_map_NoDup_ForallPairs; [|now apply NoDup_prod2].
    intros [b c] [b' c'] _ _ E. simpl in E. now injection E as -> ->.
  - intros a a' [[a0 b] c] _ _ Hb Hb'.
    apply in_map_iff in Hb, Hb'. destruct Hb as [? [E _]], Hb' as [? [E' _]].
    congruence.
Qed.

Lemma in_prod4 {T1 T2 T3 T4} (l1 : list T1) (l2 : list T2) (l3 : list T3)
  (l4 : list T4) a b c d :
  In (a, b, c, d) (prod4 l1 l2 l3 l4) <-> In a l1 /\ In b l2 /\ In c l3 /\ In d l4.
Proof.
  unfold prod4. rewrite in_flat_map. split.
  - intros [a' [Ha Hb]]. apply in_map_iff in Hb.
    destruct Hb as [[[b' c'] d'] [E Hb]].
    injection E as -> -> -> ->. apply in_prod3 in Hb. tauto.
  - intros [Ha [Hb [Hc Hd]]]. exists a. split; [exact Ha|]. apply in_map_iff.
    exists (b, c, d). split; [reflexivity|]. now apply in_prod3.
Qed.

Lemma NoDup_prod4 {T1 T2 T3 T4} (l1 : list T1) (l2 : list T2) (l3 : list T3)
  (l4 : list T4) :
  NoDup l1 -> NoDup l2 -> NoDup l3 -> NoDup l4 -> NoDup (prod4 l1 l2 l3 l4).
Proof.
  intros H1 H2 H3 H4. unfold prod4. apply NoDup_flat_map; [exact H1| |].
  - intros a _. apply NoDup_map_NoDup_ForallPairs; [|now apply NoDup_prod3].
    intros [[b c] d] [[b' c'] d'] _ _ E. now injection E as -> -> ->.
  - intros a a' [[[a0 b] c] d] _ _ Hb Hb'.
    apply in_map_iff in Hb, Hb'.
    destruct Hb as [[[? ?] ?] [E _]], Hb' as [[[? ?] ?] [E' _]].
    congruence.
Qed.

(** With unique and plain identifiers the cells have pairwise different
    names. *)
Lemma cell_names_NoDup (E D W S : list string) :
  NoDup E -> NoDup D -> NoDup W -> NoDup S ->
  Forall no_underscore E -> Forall no_underscore D ->
  Forall no_underscore W -> Forall no_underscore S ->
  NoDup (map cell_name (prod4 E D W S)).
Proof.
  intros NE ND NW NS PE PD PW PS.
  apply NoDup_map_NoDup_ForallPairs; [|now apply NoDup_prod4].
  rewrite Forall_forall in PE, PD, PW, PS.
  intros [[[e d] w] s] [[[e' d'] w'] s'] H H' Heq.
  apply in_prod4 in H, H'. simpl in Heq.
  apply x_name_inj in Heq; intuition.
Qed.

(* ------------------------------------------------------------------ *)
(** ** The shape of a built model *)

Lemma dict_set_values_true {K} (keq : K -> K -> bool) (k : K) (d : dict K bool) :
  (forall v, In v (dict_values d) -> v = true) ->
  forall v, In v (dict_values (dict_set keq k true d)) -> v = true.
Proof.
  unfold dict_values. induction d as [|[k' v'] d IH]; simpl; intros H v Hv.
  - destruct Hv as [<-|[]]. reflexivity.
  - destruct (keq k k'); simpl in Hv.
    + destruct Hv as [<-|Hv]; [reflexivity|]. apply H. now right.
    + destruct Hv as [<-|Hv]; [apply H; now left|].
      apply IH; [|exact Hv]. intros v0 Hv0. apply H. now right.
Qed.

Lemma has_demand_cell_true (r : Request.t) :
  forall v, In v (dict_values (snd (_build_demand_lookup r))) -> v = true.
Proof.
  unfold _build_demand_lookup.
  assert (G : forall (l : list Demand.t) (st : dict key4 Z * dict key3 bool),
             (forall v, In v (dict_values (snd st)) -> v = true) ->
             forall v,
               In v (dict_values
                       (snd (fold_left
                               (fun '(demand_req, has_demand_cell) d =>
                                  (fold_left
                                     (fun dr '(skill, count) =>
                                        dict_set key4_eqb
                                          (Demand.date d, Demand.wardId d,
                                           Demand.slot d, skill) count dr)
                                     (Demand.requirements d) demand_req,
                                   dict_set key3_eqb
                                     (Demand.date d, Demand.wardId d, Demand.slot d)
                                     true has_demand_cell))
                               l st))) -> v = true).
  { induction l as [|d l IH]; intros [dr hd] H v Hv; simpl in Hv.
    - now apply H.
    - apply IH in Hv; [exact Hv|]. simpl. now apply dict_set_values_true. }
  apply G. simpl. tauto.
Qed.

Lemma build_model_inv (r : Request.t) (idx : ModelIndices) (x y u : xdict)
  (m : CpModel) :
  _build_model r empty_model = Ok (idx, x, y, u, m) ->
  exists dates,
    _create_indices r = Ok idx /\
    _get_dates (Request.horizon r) = Ok dates /\
    ((x = [] /\ m = empty_model) \/
     exists m1 m4 m5,
       create_x_vars (map Staff.id (Request.staff r)) dates
         (map Ward.id (Request.wards r))
         (map ShiftType.code (Request.shiftTypes r))
         (snd (_build_demand_lookup r)) empty_model = Ok (x, m1) /\
       extends m1 m4 /\
       _add_weekly_contract_hours_constraints x idx r m4 = Ok (tt, m5) /\
       extends m5 m).
Proof.
  unfold _build_model. unfold bind at 1 2. unfold lift at 1 2. intros H.
  destruct (_create_indices r) as [idx0|]; [|discriminate].
  destruct (_get_dates (Request.horizon r)) as [dates|]; [|discriminate].
  exists dates.
  destruct (_build_demand_lookup r) as [dr hd]. cbn [snd].
  destruct (negb (any_true (dict_values hd))).
  - unfold ret in H. injection H as <- <- <- <- <-. auto.
  - unfold bind at 1 in H.
    destruct (create_x_vars _ _ _ _ hd empty_model) as [[x0 m1]|] eqn:Ex;
      [|discriminate].
    unfold bind at 1 in H.
    destruct (create_y_vars r _ _ _ _ _ hd m1) as [[y0 m2]|] eqn:Ey; [|discriminate].
    unfold bind at 1 in H.
    destruct (create_u_vars _ _ _ _ dr m2) as [[u0 m3]|] eqn:Eu; [|discriminate].
    unfold bind at 1 in H.
    destruct (_add_feasibility_links x0 y0 r hd m3) as [[[] m3a]|] eqn:E1;
      [|discriminate].
    unfold bind at 1 in H.
    destruct (_add_coverage_constraints_with_slack y0 u0 r dr m3a) as [[[] m3b]|]
      eqn:E2; [|discriminate].
    unfold bind at 1 in H.
    destruct (_add_one_shift_per_day_constraints x0 idx0 r m3b) as [[[] m3c]|]
      eqn:E3; [|discriminate].
    unfold bind at 1 in H.
    destruct (_add_rest_constraints x0 idx0 r m3c) as [[[] m4]|] eqn:E4;
      [|discriminate].
    unfold bind at 1 in H.
    destruct (_add_weekly_contract_hours_constraints x0 idx0 r m4) as [[[] m5]|]
      eqn:E5; [|discriminate].
    unfold bind at 1 in H.
    destruct (_set_objective x0 u0 idx0 r m5) as [[[] m6]|] eqn:E6; [|discriminate].
    unfold ret in H. injection H as <- <- <- <- <-.
    split; [reflexivity|]. split; [reflexivity|]. right.
    exists m1, m4, m5. split; [reflexivity|]. split; [|split].
    + eapply extends_trans; [exact (grows_create_y _ _ _ _ _ _ _ _ _ _ Ey)|].
      eapply extends_trans; [exact (grows_create_u _ _ _ _ _ _ _ _ Eu)|].
      eapply extends_trans; [exact (grows_add_feasibility_links _ _ _ _ _ _ _ E1)|].
      eapply extends_trans; [exact (grows_add_coverage _ _ _ _ _ _ _ E2)|].
      eapply extends_trans; [exact (grows_add_one_shift _ _ _ _ _ _ E3)|].
      exact (grows_add_rest _ _ _ _ _ _ E4).
    + exact E5.
    + exact (grows_set_objective _ _ _ _ _ _ _ E6).
Qed.

(* ------------------------------------------------------------------ *)
(** ** Extraction *)

Lemma Value_nth (resp : CpSolverResponse) (v : var) :
  (v < List.length (solution resp))%nat ->
  Value resp v = Ok (nth v (solution resp) 0).
Proof.
  intros H. unfold Value.
  destruct (nth_error (solution resp) v) as [z|] eqn:E.
  - now rewrite (nth_error_nth _ _ 0 E).
  - apply nth_error_None in E. lia.
Qed.

(** The extractor on a dictionary of cell variables: the assignments of the
    cells whose variable is 1, in the order of the dictionary. *)
Lemma extract_entries (resp : CpSolverResponse) (idx : ModelIndices) (r : Request.t) :
  forall (cells : list (string * string * string * string)) (n0 : nat)
         (acc : list Assignment.t),
    (n0 + List.length cells <= List.length (solution resp))%nat ->
    Forall plain_cell cells ->
    rfold
      (fun assignments '(var_name, v) =>
         rbind (Value resp v)
           (fun val =>
              if val =? 1 then
                match Str.split Str.underscore var_name with
                | _ :: staff_id :: date_str :: slot :: ward_id :: _ =>
                    match shift_type_by_code r slot with
                    | Some shift_type =>
                        Ok (assignments ++
                            [Assignment.mk staff_id ward_id date_str slot
                               (ShiftType.id shift_type)])%list
                    | None => Ok assignments
                    end
                | _ => Ok assignments
                end
              else Ok assignments))
      (x_entries n0 cells) acc =
    Ok (acc ++ flat_map (fun '(i, c) => emit r (nth i (solution resp) 0) c)
                        (combine (seq n0 (List.length cells)) cells))%list.
Proof.
  induction cells as [|[[[e d] w] s] cells IH]; intros n0 acc Hlen Hplain.
  - simpl. now rewrite app_nil_r.
  - unfold x_entries. cbn [List.length seq combine map rfold flat_map].
    fold (x_entries (S n0) cells).
    cbn [List.length] in Hlen.
    rewrite Value_nth by lia. cbn [rbind].
    inversion Hplain as [|? ? Hc Hplain']; subst.
    destruct Hc as [He [Hd [Hw Hs]]].
    cbn [cell_name emit].
    destruct (nth n0 (solution resp) 0 =? 1).
    + rewrite split_x_name by assumption.
      destruct (shift_type_by_code r s) as [st|].
      * rewrite IH by (try lia; assumption). now rewrite <- app_assoc.
      * rewrite IH by (try lia; assumption). reflexivity.
    + rewrite IH by (try lia; assumption). reflexivity.
Qed.

Lemma x_entries_get (cells : list (string * string * string * string)) :
  forall (n0 : nat) (pre : xdict),
    NoDup (map cell_name cells) ->
    (forall c, In c cells -> dict_get String.eqb (cell_name c) pre = None) ->
    forall (g : var -> string * string * string * string -> list Assignment.t),
      flat_map (fun '(i, c) => g i c) (combine (seq n0 (List.length cells)) cells) =
      flat_map (fun c =>
                  match dict_get String.eqb (cell_name c)
                          (pre ++ x_entries n0 cells)%list with
                  | Some v => g v c
                  | None => []
                  end) cells.
Proof.
  induction cells as [|c cells IH]; intros n0 pre Hnd Hpre g; [reflexivity|].
  inversion Hnd as [|? ? Hnotin Hnd']; subst.
  cbn [List.length seq combine flat_map].
  assert (Hget : dict_get String.eqb (cell_name c)
                   (pre ++ x_entries n0 (c :: cells))%list = Some n0).
  { unfold x_entries. cbn [List.length seq combine map].
    specialize (Hpre c (or_introl eq_refl)).
    clear - Hpre. induction pre as [|[k v] pre IHp]; simpl in *.
    - now rewrite String.eqb_refl.
    - destruct (String.eqb (cell_name c) k); [discriminate|]. now apply IHp. }
  rewrite Hget. f_equal.
  rewrite (IH (S n0) (pre ++ [(cell_name c, n0)])%list Hnd').
  - apply flat_map_ext. intros c'. unfold x_entries at 2.
    cbn [List.length seq combine map]. fold (x_entries (S n0) cells).
    now rewrite <- app_assoc.
  - intros c' Hc'. apply dict_get_app_fresh; [|apply Hpre; now right].
    intros Heq. apply Hnotin. rewrite <- Heq. now apply in_map.
Qed.

Lemma names_ok_cells (r : Request.t) (dates : list string) :
  names_ok r -> _get_dates (Request.horizon r) = Ok dates ->
  NoDup (map cell_name (cells_of r dates)) /\ Forall plain_cell (cells_of r dates).
Proof.
  intros [N1 N2 N3 P1 P2 P3] Hd.
  destruct (get_dates_spec _ _ Hd) as [ND PD].
  split.
  - now apply cell_names_NoDup.
  - apply Forall_forall. intros [[[e d] w] s] Hc.
    apply in_prod4 in Hc. rewrite Forall_forall in P1, P2, P3, PD.
    simpl. intuition.
Qed.

(** The assignments [_extract_assignments] returns on a built model whose
    every variable has a value. *)
Lemma extract_built (r : Request.t) (idx : ModelIndices) (x y u : xdict)
  (m : CpModel) (resp : CpSolverResponse) (dates : list string) :
  _build_model r empty_model = Ok (idx, x, y, u, m) ->
  _get_dates (Request.horizon r) = Ok dates ->
  names_ok r ->
  (List.length (variables m) <= List.length (solution resp))%nat ->
  _extract_assignments resp x idx r =
    Ok (flat_map (emit_cell r x (solution resp)) (cells_of r dates)).
Proof.
  intros Hb Hd Hok Hlen.
  destruct (build_model_inv _ _ _ _ _ _ Hb) as [dates' [_ [Hd' Hcase]]].
  rewrite Hd in Hd'. injection Hd' as <-.
  destruct (names_ok_cells r dates Hok Hd) as [Hnd Hplain].
  destruct Hcase as [[-> _]|[m1 [m4 [m5 [Hx [E14 [Hw E5]]]]]]].
  - unfold _extract_assignments. cbn [rfold]. f_equal.
    unfold emit_cell. simpl. clear Hnd Hplain.
    induction (cells_of r dates); [reflexivity|exact IHl].
  - destruct (create_x_vars_spec _ _ _ _ _ _ _ _ Hx (has_demand_cell_true r) Hnd)
      as [-> [Hv1 _]].
    fold (cells_of r dates) in *. cbn [variables empty_model List.length] in *.
    unfold _extract_assignments.
    rewrite (extract_entries resp idx r); [| |exact Hplain].
    + cbn [app]. f_equal.
      exact (x_entries_get (cells_of r dates) 0 [] Hnd (fun _ _ => eq_refl)
               (fun i c => emit r (nth i (solution resp) 0) c)).
    + destruct E14 as [vs [cs [Hv4 _]]]. destruct E5 as [vs' [cs' [Hv _]]].
      pose proof (grows_add_weekly _ _ _ _ _ _ Hw) as Hweek.
      destruct Hweek as [vs5 [cs5 [Hv5 _]]].
      rewrite Hv, Hv5, Hv4, Hv1 in Hlen. rewrite !length_app, length_map in Hlen.
      simpl in Hlen. lia.
Qed.

(* ------------------------------------------------------------------ *)
(** ** Further properties of the extractor *)

Lemma split_aux_parts_plain (sep : ascii) (s : string) :
  forall cur, Str.contains sep cur = false ->
              Forall (fun p => Str.contains sep p = false) (Str.split_aux sep s cur).
Proof.
  induction s as [|c s IH]; intros cur Hcur; simpl.
  - constructor; [exact Hcur|constructor].
  - destruct (Ascii.eqb c sep) eqn:Ec.
    + constructor; [exact Hcur|]. now apply IH.
    + apply IH. rewrite contains_app, Hcur. simpl. now rewrite Ec.
Qed.

Lemma split_parts_plain (s : string) :
  Forall no_underscore (Str.split Str.underscore s).
Proof. apply split_aux_parts_plain. reflexivity. Qed.

Lemma shift_type_by_code_spec (r : Request.t) (slot : string) (st : ShiftType.t) :
  shift_type_by_code r slot = Some st ->
  In st (Request.shiftTypes r) /\ ShiftType.code st = slot.
Proof.
  unfold shift_type_by_code. intros H. apply find_some in H.
  destruct H as [Hin Heq]. apply String.eqb_eq in Heq. auto.
Qed.


Lemma extract_invariant (P : Assignment.t -> Prop) (resp : CpSolverResponse)
  (idx : ModelIndices) (r : Request.t) :
  (forall e w d s st,
      Forall no_underscore [e; d; s; w] ->
      shift_type_by_code r s = Some st ->
      P (Assignment.mk e w d s (ShiftType.id st))) ->
  forall (x : xdict) (acc l : list Assignment.t),
    Forall P acc ->
    rfold
      (fun assignments '(var_name, v) =>
         rbind (Value resp v)
           (fun val =>
              if val =? 1 then
                match Str.split Str.underscore var_name with
                | _ :: staff_id :: date_str :: slot :: ward_id :: _ =>
                    match shift_type_by_code r slot with
                    | Some shift_type =>
                        Ok (assignments ++
                            [Assignment.mk staff_id ward_id date_str slot
                               (ShiftType.id shift_type)])%list
                    | None => Ok assignments
                    end
                | _ => Ok assignments
                end
              else Ok assignments))
      x acc = Ok l ->
    Forall P l.
Proof.
  intros HP. induction x as [|[name v] x IH]; intros acc l Hacc H.
  - cbn [rfold] in H. now injection H as <-.
  - cbn [rfold] in H.
    destruct (Value resp v) as [val|]; cbn [rbind] in H; [|discriminate].
    destruct (val =? 1); [|exact (IH _ _ Hacc H)].
    pose proof (split_parts_plain name) as Hparts.
    destruct (Str.split Str.underscore name) as [|p0 [|e [|d [|s [|w rest]]]]];
      try exact (IH _ _ Hacc H).
    destruct (shift_type_by_code r s) as [st|] eqn:Est; [|exact (IH _ _ Hacc H)].
    apply (IH _ _) in H; [exact H|].
    apply Forall_app. split; [exact Hacc|]. constructor; [|constructor].
    apply HP; [|exact Est].
    inversion Hparts as [|? ? _ H1]; subst.
    inversion H1 as [|? ? He H2]; subst.
    inversion H2 as [|? ? Hd H3]; subst.
    inversion H3 as [|? ? Hs H4]; subst.
    inversion H4 as [|? ? Hw _]; subst.
    repeat constructor; assumption.
Qed.

(** X1: whatever the dictionary of variables and the engine's values, every
    assignment the extractor returns has a staff id, date, slot and ward id
    without an underscore (they are parts of a name split at underscores),
    its slot is the code of a shift type of the request, and its shift-type
    id is that of the first shift type with this code.  So a staff member or
    ward whose identifier contains an underscore never appears in a returned
    assignment under that identifier. *)
Theorem extracted_assignments_wellformed (resp : CpSolverResponse) (x : xdict)
  (idx : ModelIndices) (r : Request.t) (l : list Assignment.t) :
  _extract_assignments resp x idx r = Ok l ->
  Forall (extracted_ok r) l.
Proof.
  intros H. unfold _extract_assignments in H.
  apply (extract_invariant (extracted_ok r) resp idx r) with (x := x) (acc := []);
    [|constructor|exact H].
  intros e w d s st Hplain Hst.
  inversion Hplain as [|? ? He H1]; subst.
  inversion H1 as [|? ? Hd H2]; subst.
  inversion H2 as [|? ? Hs H3]; subst.
  inversion H3 as [|? ? Hw _]; subst.
  unfold extracted_ok. cbn. repeat split; try assumption.
  exists st. auto.
Qed.

Lemma extracted_assignments_wellformed_witness :
  Forall (extracted_ok (Examples.S2 60)) [Examples.the_assignment].
Proof.
  apply (extracted_assignments_wellformed
           (mkResponse OPTIMAL Examples.S2_working) Examples.S2_x no_indices
           (Examples.S2 60) [Examples.the_assignment]).
  vm_compute. reflexivity.
Defined.



(* ------------------------------------------------------------------ *)
(** ** A cell without demand *)

Lemma dict_set_nonempty {K V} (keq : K -> K -> bool) (k : K) (v : V)
  (d : dict K V) : dict_set keq k v d <> [].
Proof. destruct d as [|[k' v'] d]; simpl; [|destruct (keq k k')]; discriminate. Qed.

(** The loop that creates the x variables raises KeyError when a cell of
    its range has no entry in [has_demand_cell]. *)
Lemma create_x_loop_missing (hd : dict key3 bool) :
  forall (cells : list (string * string * string * string)) (x0 : xdict)
         (m : CpModel) (e d w s : string),
    In (e, d, w, s) cells ->
    dict_get key3_eqb (d, w, s) hd = None ->
    foldM
      (fun x '(e, d, w, s) =>
         bind (lift (dict_getitem key3_eqb (d, w, s) hd))
              (fun hd : bool =>
                 if hd then
                   bind (NewBoolVar (x_name e d s w))
                        (fun v => ret (dict_set String.eqb (x_name e d s w) v x))
                 else ret x))
      cells x0 m = Raise KeyError.
Proof.
  induction cells as [|[[[e' d'] w'] s'] cells IH]; intros x0 m e d w s Hin Hmiss;
    [contradiction|].
  cbn [foldM]. unfold bind at 1 2. unfold lift, dict_getitem.
  destruct (dict_get key3_eqb (d', w', s') hd) as [b|] eqn:Eb; [|reflexivity].
  destruct Hin as [Heq|Hin]; [injection Heq as -> -> -> ->; congruence|].
  destruct b.
  - unfold bind at 1. unfold NewBoolVar, NewIntVar at 1. unfold ret at 1.
    exact (IH _ _ e d w s Hin Hmiss).
  - unfold ret at 1. exact (IH _ _ e d w s Hin Hmiss).
Qed.

(** X3: when the demand list names some cell but not every cell of the grid
    (dates of the horizon x wards x shift types) and there is a staff member,
    [_build_model] raises KeyError: [has_demand_cell] is a plain dictionary
    that the loop over the grid indexes with every cell. *)
Theorem build_model_missing_cell (r : Request.t) (idx : ModelIndices)
  (dates : list string) (e d w s : string) :
  _create_indices r = Ok idx ->
  _get_dates (Request.horizon r) = Ok dates ->
  Request.demand r <> [] ->
  In (e, d, w, s) (cells_of r dates) ->
  dict_get key3_eqb (d, w, s) (snd (_build_demand_lookup r)) = None ->
  _build_model r empty_model = Raise KeyError.
Proof.
  intros Hidx Hd Hdem Hin Hmiss.
  unfold _build_model. unfold bind at 1 2. unfold lift at 1 2.
  rewrite Hidx, Hd.
  destruct (_build_demand_lookup r) as [dr hd] eqn:El. cbn [snd] in Hmiss.
  assert (Hany : any_true (dict_values hd) = true).
  { pose proof (has_demand_cell_true r) as Htrue. rewrite El in Htrue.
    cbn [snd] in Htrue.
    assert (Hne : hd <> []).
    { clear - El Hdem. unfold _build_demand_lookup in El.
      destruct (Request.demand r) as [|d0 l]; [congruence|].
      cbn [fold_left] in El. intros ->.
      assert (G : forall (l : list Demand.t) (st : dict key4 Z * dict key3 bool),
                 snd st <> [] ->
                 snd (fold_left
                        (fun '(demand_req, has_demand_cell) d =>
                           (fold_left
                              (fun dr '(skill, count) =>
                                 dict_set key4_eqb
                                   (Demand.date d, Demand.wardId d,
                                    Demand.slot d, skill) count dr)
                              (Demand.requirements d) demand_req,
                            dict_set key3_eqb
                              (Demand.date d, Demand.wardId d, Demand.slot d)
                              true has_demand_cell))
                        l st) <> []).
      { induction l0 as [|d1 l0 IH]; intros [dr0 hd0] Hst; [exact Hst|].
        cbn [fold_left]. apply IH. cbn [snd]. apply dict_set_nonempty. }
      eapply G; [|rewrite El; reflexivity]. cbn [snd]. apply dict_set_nonempty. }
    destruct hd as [|[k v] hd]; [congruence|].
    simpl. rewrite (Htrue v) by (now left). reflexivity. }
  rewrite Hany. cbn [negb]. unfold bind at 1. unfold create_x_vars.
  fold (cells_of r dates).
  now rewrite (create_x_loop_missing hd _ [] empty_model e d w s Hin Hmiss).
Qed.

Lemma build_model_missing_cell_witness :
  _build_model MoreExamples.second_day_without_demand empty_model = Raise KeyError.
Proof.
  eapply (build_model_missing_cell MoreExamples.second_day_without_demand _
            ["2025-01-01"; "2025-01-02"] "s1" "2025-01-02" "w1" "DAY").
  - vm_compute; reflexivity.
  - vm_compute; reflexivity.
  - discriminate.
  - vm_compute. auto.
  - vm_compute; reflexivity.
Defined.

(* ------------------------------------------------------------------ *)
(** ** The steps of a build and of a solve *)

Lemma build_model_steps (r : Request.t) (idx : ModelIndices) (x y u : xdict)
  (m : CpModel) :
  _build_model r empty_model = Ok (idx, x, y, u, m) ->
  exists dates,
    _create_indices r = Ok idx /\
    _get_dates (Request.horizon r) = Ok dates /\
    ((x = [] /\ y = [] /\ u = [] /\ m = empty_model) \/
     build_steps r idx x y u m dates).
Proof.
  unfold _build_model. unfold bind at 1 2. unfold lift at 1 2. intros H.
  destruct (_create_indices r) as [idx0|]; [|discriminate].
  destruct (_get_dates (Request.horizon r)) as [dates|]; [|discriminate].
  exists dates.
  destruct (_build_demand_lookup r) as [dr hd] eqn:El.
  destruct (negb (any_true (dict_values hd))).
  - unfold ret in H. injection H as <- <- <- <- <-.
    split; [reflexivity|]. split; [reflexivity|]. left. repeat split.
  - unfold bind at 1 in H.
    destruct (create_x_vars _ _ _ _ hd empty_model) as [[x0 m1]|] eqn:Ex;
      [|discriminate].
    unfold bind at 1 in H.
    destruct (create_y_vars r _ _ _ _ _ hd m1) as [[y0 m2]|] eqn:Ey; [|discriminate].
    unfold bind at 1 in H.
    destruct (create_u_vars _ _ _ _ dr m2) as [[u0 m3]|] eqn:Eu; [|discriminate].
    unfold bind at 1 in H.
    destruct (_add_feasibility_links x0 y0 r hd m3) as [[[] m3a]|] eqn:E1;
      [|discriminate].
    unfold bind at 1 in H.
    destruct (_add_coverage_constraints_with_slack y0 u0 r dr m3a) as [[[] m3b]|]
      eqn:E2; [|discriminate].
    unfold bind at 1 in H.
    destruct (_add_one_shift_per_day_constraints x0 idx0 r m3b) as [[[] m3c]|]
      eqn:E3; [|discriminate].
    unfold bind at 1 in H.
    destruct (_add_rest_constraints x0 idx0 r m3c) as [[[] m4]|] eqn:E4;
      [|discriminate].
    unfold bind at 1 in H.
    destruct (_add_weekly_contract_hours_constraints x0 idx0 r m4) as [[[] m5]|]
      eqn:E5; [|discriminate].
    unfold bind at 1 in H.
    destruct (_set_objective x0 u0 idx0 r m5) as [[[] m6]|] eqn:E6; [|discriminate].
    unfold ret in H. injection H as <- <- <- <- <-.
    split; [reflexivity|]. split; [reflexivity|]. right.
    exact (mk_build_steps r idx0 x0 y0 u0 m6 dates dr hd m1 m2 m3 m3a m3b m3c m4 m5
             El Ex Ey Eu E1 E2 E3 E4 E5 E6).
Qed.

(** [solve] returns what [respond] makes of the engine's answer to the
    built model. *)
Lemma solve_inv (engine : Engine) (ms : Z) (r : Request.t)
  (a : list Assignment.t) (metrics : MetricsModel) (d : Diagnostics.t) :
  solve engine ms r = Ok (a, metrics, d) ->
  exists idx x y u m,
    _build_model r empty_model = Ok (idx, x, y, u, m) /\
    model_of (_build_model r) = m /\
    _extract_assignments (engine (time_limit r) m) x idx r = Ok a.
Proof.
  unfold solve. intros H.
  destruct (_get_dates (Request.horizon r)); cbn [rbind] in H; [|discriminate].
  unfold model_of.
  destruct (_build_model r empty_model) as [[[[[idx x] y] u] m]|]; cbn [rbind] in H;
    [|discriminate].
  assert (Hh : (if nonempty (Request.hints r) then _add_hints idx r else ret tt) m
               = Ok (tt, m)) by (destruct (Request.hints r); reflexivity).
  rewrite Hh in H. cbn [rbind] in H. unfold respond in H.
  destruct (_extract_assignments _ x idx r) as [asg|] eqn:Ea; cbn [rbind] in H;
    [|discriminate].
  destruct (_create_assignments_summary asg r _ y u); cbn [rbind] in H;
    [|discriminate].
  injection H as <- _ _.
  exists idx, x, y, u, m. auto.
Qed.

(** X2: when [solve] returns and the engine has a value for every
    variable, on a request whose staff ids, ward ids and shift codes are
    unique and free of underscores, the assignments are exactly those of
    the cells whose x variable is 1, in the order in which [_build_model]
    created the variables: staff in request order, then the dates of the
    horizon, then wards, then shift types in request order. *)
Theorem assignments_in_creation_order (engine : Engine) (ms : Z) (r : Request.t)
  (a : list Assignment.t) (metrics : MetricsModel) (d : Diagnostics.t)
  (dates : list string) :
  solve engine ms r = Ok (a, metrics, d) ->
  _get_dates (Request.horizon r) = Ok dates ->
  names_ok r ->
  (List.length (variables (model_of (_build_model r)))
   <= List.length (solution (engine (time_limit r) (model_of (_build_model r)))))%nat ->
  exists idx x y u m,
    _build_model r empty_model = Ok (idx, x, y, u, m) /\
    a = flat_map (emit_cell r x (solution (engine (time_limit r) m)))
                 (cells_of r dates).
Proof.
  intros Hs Hd Hok Hlen.
  destruct (solve_inv _ _ _ _ _ _ Hs) as (idx & x & y & u & m & Hb & Hm & He).
  exists idx, x, y, u, m. split; [exact Hb|].
  rewrite Hm in Hlen.
  rewrite (extract_built r idx x y u m _ dates Hb Hd Hok Hlen) in He.
  now injection He.
Qed.

Lemma two_staff_names_ok : names_ok MoreExamples.two_staff.
Proof.
  constructor; simpl;
    repeat (constructor; simpl; try (intuition discriminate); try reflexivity).
Qed.

Lemma assignments_in_creation_order_witness :
  exists idx x y u m,
    _build_model MoreExamples.two_staff empty_model = Ok (idx, x, y, u, m) /\
    [Assignment.mk "b" "w1" "2025-01-01" "DAY" "st-day";
     Assignment.mk "a" "w1" "2025-01-01" "DAY" "st-day"] =
    flat_map (emit_cell MoreExamples.two_staff x
                (solution (Examples.answers FEASIBLE MoreExamples.both_working
                             (time_limit MoreExamples.two_staff) m)))
             (cells_of MoreExamples.two_staff ["2025-01-01"]).
Proof.
  eapply (assignments_in_creation_order
            (Examples.answers FEASIBLE MoreExamples.both_working) 0
            MoreExamples.two_staff _ _ _ ["2025-01-01"]).
  - vm_compute; reflexivity.
  - vm_compute; reflexivity.
  - exact two_staff_names_ok.
  - vm_compute. lia.
Defined.


Lemma extends_constraint (m m' : CpModel) (c : Constraint) :
  extends m m' -> In c (constraints m) -> In c (constraints m').
Proof.
  intros [vs [cs [_ Hc]]] Hin. rewrite Hc. apply in_or_app. now left.
Qed.

Lemma extends_variable (m m' : CpModel) (v : var) (d : IntVarDecl) :
  extends m m' -> nth_error (variables m) v = Some d ->
  nth_error (variables m') v = Some d.
Proof.
  intros [vs [cs [Hv _]]] H. rewrite Hv.
  rewrite nth_error_app1; [exact H|]. apply nth_error_Some. congruence.
Qed.

Lemma feasible_sat (m : CpModel) (sol : list Z) : feasible m sol -> sat sol m.
Proof.
  intros H c Hc. apply feasible_inv in H. destruct H as [_ H].
  rewrite forallb_forall in H. now apply H.
Qed.

Lemma domains_ok_nth (ds : list IntVarDecl) :
  forall (sol : list Z) (v : var) (d : IntVarDecl),
    domains_ok ds sol = true -> nth_error ds v = Some d ->
    lb d <= nth v sol 0 <= ub d.
Proof.
  induction ds as [|d0 ds IH]; intros [|z sol] v d H Hn; simpl in H;
    try discriminate.
  - destruct v; discriminate.
  - apply andb_prop in H. destruct H as [H0 H].
    destruct v as [|v]; simpl in *.
    + injection Hn as <-. unfold in_domain in H0.
      apply andb_prop in H0. destruct H0 as [H1 H2].
      apply Z.leb_le in H1, H2. lia.
    + exact (IH _ _ _ H Hn).
Qed.

Lemma feasible_domain (m : CpModel) (sol : list Z) (v : var) (d : IntVarDecl) :
  feasible m sol -> nth_error (variables m) v = Some d ->
  lb d <= nth v sol 0 <= ub d.
Proof.
  intros H. apply feasible_inv in H. destruct H as [H _].
  now apply domains_ok_nth.
Qed.

(** Where a loop reaches an element of its range. *)
Lemma foldM_inv {T S} (f : S -> T -> M S) (xs : list T) :
  (forall s a, grows (f s a)) ->
  forall s m s' m' a,
    foldM f xs s m = Ok (s', m') -> In a xs ->
    exists s0 m0 s1 m1,
      extends m m0 /\ f s0 a m0 = Ok (s1, m1) /\ extends m1 m'.
Proof.
  intros Hf. induction xs as [|b xs IH]; intros s m s' m' a H Hin; [contradiction|].
  cbn [foldM] in H. unfold bind in H.
  destruct (f s b m) as [[s1 m1]|] eqn:E; [|discriminate].
  destruct Hin as [->|Hin].
  - exists s, m, s1, m1. split; [apply extends_refl|]. split; [exact E|].
    exact (grows_foldM f xs Hf s1 m1 s' m' H).
  - destruct (IH _ _ _ _ _ H Hin) as [s0 [m0 [s2 [m2 [E0 [Ef E2]]]]]].
    exists s0, m0, s2, m2. split; [|auto].
    eapply extends_trans; [exact (Hf _ _ _ _ _ E)|exact E0].
Qed.

Lemma for_inv {T} (f : T -> M unit) (xs : list T) :
  (forall a, grows (f a)) ->
  forall m m' a,
    for_ xs f m = Ok (tt, m') -> In a xs ->
    exists m0 m1, extends m m0 /\ f a m0 = Ok (tt, m1) /\ extends m1 m'.
Proof.
  intros Hf m m' a H Hin. unfold for_ in H.
  destruct (foldM_inv (fun _ a => f a) xs (fun _ a => Hf a) _ _ _ _ a H Hin)
    as [s0 [m0 [[] [m1 [E0 [Ef E1]]]]]].
  exists m0, m1. auto.
Qed.

(* ------------------------------------------------------------------ *)
(** ** What the constraints say of a solution *)

Lemma eval_fold_Add (sol : list Z) (es : list LinearExpr) :
  forall acc, eval sol (fold_left Add es acc) = eval sol acc + sumZ (map (eval sol) es).
Proof.
  induction es as [|e es IH]; intros acc; simpl; [lia|].
  rewrite IH. simpl. lia.
Qed.

Lemma eval_py_sum (sol : list Z) (es : list LinearExpr) :
  eval sol (py_sum es) = sumZ (map (eval sol) es).
Proof. unfold py_sum. rewrite eval_fold_Add. simpl. lia. Qed.

Lemma sumZ_app (l1 l2 : list Z) : sumZ (l1 ++ l2) = sumZ l1 + sumZ l2.
Proof. induction l1 as [|a l1 IH]; simpl; [reflexivity|]. rewrite IH. lia. Qed.

Lemma eval_x_lookup (x : xdict) (sol : list Z) (name : string) :
  sumZ (map (eval sol) (x_lookup x name)) = xval x sol name.
Proof.
  unfold x_lookup, xval. destruct (dict_get String.eqb name x); simpl; lia.
Qed.

Lemma eval_x_lookups {T} (x : xdict) (sol : list Z) (nm : T -> string) (l : list T) :
  sumZ (map (eval sol) (flat_map (fun c => x_lookup x (nm c)) l)) =
  sumZ (map (fun c => xval x sol (nm c)) l).
Proof.
  induction l as [|c l IH]; simpl; [reflexivity|].
  rewrite map_app, sumZ_app, eval_x_lookup, IH. reflexivity.
Qed.

Lemma dict_set_In {V} (k : string) (v : V) (d : dict string V) (a : string) (b : V) :
  In (a, b) (dict_set String.eqb k v d) -> b = v \/ In (a, b) d.
Proof.
  induction d as [|[k' v'] d IH]; simpl; intros H.
  - destruct H as [H|[]]. injection H as _ <-. now left.
  - destruct (String.eqb k k').
    + destruct H as [H|H]; [injection H as _ <-; now left|right; now right].
    + destruct H as [H|H]; [right; now left|].
      destruct (IH H); [now left|right; now right].
Qed.

(** Every entry of the dictionary x is the index of a Boolean variable. *)
Lemma create_x_loop_decl (hd : dict key3 bool) :
  forall (cells : list (string * string * string * string)) (x0 x : xdict)
         (m m' : CpModel),
    foldM
      (fun x '(e, d, w, s) =>
         bind (lift (dict_getitem key3_eqb (d, w, s) hd))
              (fun hd : bool =>
                 if hd then
                   bind (NewBoolVar (x_name e d s w))
                        (fun v => ret (dict_set String.eqb (x_name e d s w) v x))
                 else ret x))
      cells x0 m = Ok (x, m') ->
    (forall k v, In (k, v) x0 ->
                 exists n, nth_error (variables m) v = Some (mkVar 0 1 n)) ->
    forall k v, In (k, v) x ->
                exists n, nth_error (variables m') v = Some (mkVar 0 1 n).
Proof.
  induction cells as [|[[[e d] w] s] cells IH]; intros x0 x m m' H H0.
  - cbn [foldM] in H. unfold ret in H. injection H as <- <-. exact H0.
  - cbn [foldM] in H. unfold bind at 1 2 in H. unfold lift, dict_getitem in H.
    destruct (dict_get key3_eqb (d, w, s) hd) as [b|]; [|discriminate].
    destruct b.
    + unfold bind at 1 in H. unfold NewBoolVar, NewIntVar at 1 in H.
      unfold ret at 1 in H.
      apply (IH _ _ _ _ H). cbn [variables]. intros k v Hin.
      apply dict_set_In in Hin. destruct Hin as [->|Hin].
      * exists (x_name e d s w).
        rewrite nth_error_app2 by lia. now rewrite Nat.sub_diag.
      * destruct (H0 k v Hin) as [n Hn]. exists n.
        rewrite nth_error_app1; [exact Hn|]. apply nth_error_Some. congruence.
    + unfold ret at 1 in H. exact (IH _ _ _ _ H H0).
Qed.

Lemma steps_extend (r : Request.t) (idx : ModelIndices) (x y u : xdict)
  (m : CpModel) (dates : list string) :
  build_steps r idx x y u m dates ->
  exists m1 m3 m3a m3b m3c m4 m5 dr hd,
    _build_demand_lookup r = (dr, hd) /\
    create_x_vars (map Staff.id (Request.staff r)) dates
      (map Ward.id (Request.wards r))
      (map ShiftType.code (Request.shiftTypes r)) hd empty_model = Ok (x, m1) /\
    extends m1 m /\
    _add_feasibility_links x y r hd m3 = Ok (tt, m3a) /\ extends m3a m /\
    _add_coverage_constraints_with_slack y u r dr m3a = Ok (tt, m3b) /\
    extends m3b m /\
    _add_one_shift_per_day_constraints x idx r m3b = Ok (tt, m3c) /\
    extends m3c m /\
    _add_rest_constraints x idx r m3c = Ok (tt, m4) /\ extends m4 m /\
    _add_weekly_contract_hours_constraints x idx r m4 = Ok (tt, m5) /\
    extends m5 m.
Proof.
  intros [dr hd m1 m2 m3 m3a m3b m3c m4 m5 El Ex Ey Eu E1 E2 E3 E4 E5 E6].
  pose proof (grows_create_y _ _ _ _ _ _ _ _ _ _ Ey) as G2.
  pose proof (grows_create_u _ _ _ _ _ _ _ _ Eu) as G3.
  pose proof (grows_add_feasibility_links _ _ _ _ _ _ _ E1) as G3a.
  pose proof (grows_add_coverage _ _ _ _ _ _ _ E2) as G3b.
  pose proof (grows_add_one_shift _ _ _ _ _ _ E3) as G3c.
  pose proof (grows_add_rest _ _ _ _ _ _ E4) as G4.
  pose proof (grows_add_weekly _ _ _ _ _ _ E5) as G5.
  pose proof (grows_set_objective _ _ _ _ _ _ _ E6) as G6.
  assert (X5 : extends m5 m) by exact G6.
  assert (X4 : extends m4 m) by (eapply extends_trans; eauto).
  assert (X3c : extends m3c m) by (eapply extends_trans; eauto).
  assert (X3b : extends m3b m) by (eapply extends_trans; eauto).
  assert (X3a : extends m3a m) by (eapply extends_trans; eauto).
  assert (X3 : extends m3 m) by (eapply extends_trans; eauto).
  assert (X2 : extends m2 m) by (eapply extends_trans; eauto).
  assert (X1 : extends m1 m) by (eapply extends_trans; eauto).
  exists m1, m3, m3a, m3b, m3c, m4, m5, dr, hd. repeat split; assumption.
Qed.

(** In a solution of a built model every x variable is 0 or 1. *)
Lemma xval_boolean (r : Request.t) (idx : ModelIndices) (x y u : xdict)
  (m : CpModel) (sol : list Z) (name : string) :
  _build_model r empty_model = Ok (idx, x, y, u, m) ->
  feasible m sol ->
  0 <= xval x sol name <= 1.
Proof.
  intros Hb Hf. unfold xval.
  destruct (dict_get String.eqb name x) as [v|] eqn:Eg; [|lia].
  destruct (build_model_steps _ _ _ _ _ _ Hb) as [dates [_ [_ [[-> _]|Hs]]]];
    [discriminate|].
  destruct (steps_extend _ _ _ _ _ _ _ Hs)
    as (m1 & m3 & m3a & m3b & m3c & m4 & m5 & dr & hd & _ & Ex & X1 & _).
  apply (dict_get_In _ string_eqb_spec) in Eg.
  destruct (create_x_loop_decl hd _ [] x empty_model m1 Ex
              (fun k v (H : In (k, v) []) => match H with end) name v Eg) as [n Hn].
  pose proof (feasible_domain m sol v _ Hf (extends_variable _ _ _ _ X1 Hn)) as Hd.
  exact Hd.
Qed.

Lemma AddC_constraint (c : Constraint) (m m' : CpModel) :
  AddC c m = Ok (tt, m') -> In c (constraints m').
Proof.
  intros H. injection H as <-. cbn [constraints]. apply in_or_app. right. now left.
Qed.

Lemma flat_map_map {T U V} (f : T -> U) (g : U -> list V) (l : list T) :
  flat_map g (map f l) = flat_map (fun a => g (f a)) l.
Proof. induction l as [|a l IH]; simpl; [reflexivity|now rewrite IH]. Qed.

Lemma one_shift_constraint (x : xdict) (idx : ModelIndices) (r : Request.t)
  (m0 m1 : CpModel) (dates : list string) (staff : Staff.t) (date_str : string) :
  _add_one_shift_per_day_constraints x idx r m0 = Ok (tt, m1) ->
  _get_dates (Request.horizon r) = Ok dates ->
  In staff (Request.staff r) -> In date_str dates ->
  let day_vars :=
    flat_map (x_lookup x) (day_names r (Staff.id staff) date_str) in
  day_vars <> [] ->
  In (Le (py_sum day_vars) (Const 1)) (constraints m1).
Proof.
  intros H Hd Hs Hdate day_vars Hne.
  unfold _add_one_shift_per_day_constraints in H.
  eapply for_inv with (a := staff) in H; [|intros; grows_tac|exact Hs].
  destruct H as [ma [mb [_ [H Eb]]]].
  unfold bind, lift in H. rewrite Hd in H.
  eapply for_inv with (a := date_str) in H; [|intros; grows_tac|exact Hdate].
  destruct H as [mc [md [_ [H Ed]]]].
  apply (extends_constraint _ _ _ Eb). apply (extends_constraint _ _ _ Ed).
  cbv zeta in H.
  assert (Heq : flat_map
                  (fun '(slot, ward) =>
                     x_lookup x (x_name (Staff.id staff) date_str slot (Ward.id ward)))
                  (prod2 (map ShiftType.code (Request.shiftTypes r))
                         (Request.wards r)) = day_vars).
  { unfold day_vars, day_names. rewrite flat_map_map.
    apply flat_map_ext. intros [slot ward]. reflexivity. }
  rewrite Heq in H.
  destruct day_vars; [congruence|]. cbn [nonempty] in H.
  exact (AddC_constraint _ _ _ H).
Qed.

Lemma day_sum_steps (r : Request.t) (idx : ModelIndices) (x y u : xdict)
  (m : CpModel) (sol : list Z) (dates : list string) (staff : Staff.t)
  (date_str : string) :
  build_steps r idx x y u m dates ->
  feasible m sol ->
  _get_dates (Request.horizon r) = Ok dates ->
  In staff (Request.staff r) -> In date_str dates ->
  sumZ (map (xval x sol) (day_names r (Staff.id staff) date_str)) <= 1.
Proof.
  intros Hsteps Hf Hd Hs Hdate.
  destruct (steps_extend _ _ _ _ _ _ _ Hsteps)
    as (m1 & m3 & m3a & m3b & m3c & m4 & m5 & dr & hd &
        _ & _ & _ & _ & _ & _ & _ & E3 & X3c & _).
  pose proof (eval_x_lookups x sol (fun n : string => n)
                (day_names r (Staff.id staff) date_str)) as Hsum.
  replace (map (xval x sol) (day_names r (Staff.id staff) date_str))
    with (map (fun c => xval x sol c) (day_names r (Staff.id staff) date_str))
    by reflexivity.
  rewrite <- Hsum.
  change (flat_map (fun c : string => x_lookup x c)
            (day_names r (Staff.id staff) date_str))
    with (flat_map (x_lookup x) (day_names r (Staff.id staff) date_str)).
  destruct (flat_map (x_lookup x) (day_names r (Staff.id staff) date_str))
    as [|e0 es] eqn:Edv; [simpl; lia|].
  pose proof (one_shift_constraint x idx r m3b m3c dates staff date_str
                E3 Hd Hs Hdate) as Hc.
  cbv zeta in Hc. rewrite Edv in Hc. specialize (Hc ltac:(discriminate)).
  apply (extends_constraint _ _ _ X3c) in Hc.
  apply (feasible_sat _ _ Hf) in Hc. cbn [holdsb eval] in Hc.
  apply Z.leb_le in Hc. rewrite eval_py_sum in Hc. exact Hc.
Qed.

(** X4: in every solution of a model that [_build_model] built, the x
    variables of one staff member on one date, over all slots and wards, sum
    to at most 1: nobody works two shifts, or in two wards, on a day.  This
    holds whatever the request's oneShiftPerDay flag says. *)
Theorem one_shift_per_day (r : Request.t) (idx : ModelIndices) (x y u : xdict)
  (m : CpModel) (sol : list Z) (dates : list string) (staff : Staff.t)
  (date_str : string) :
  _build_model r empty_model = Ok (idx, x, y, u, m) ->
  feasible m sol ->
  _get_dates (Request.horizon r) = Ok dates ->
  In staff (Request.staff r) -> In date_str dates ->
  sumZ (map (xval x sol) (day_names r (Staff.id staff) date_str)) <= 1.
Proof.
  intros Hb Hf Hd Hs Hdate.
  destruct (build_model_steps _ _ _ _ _ _ Hb) as [dates' [_ [Hd' [[-> _]|Hsteps]]]].
  - assert (Hz : forall l, sumZ (map (xval [] sol) l) = 0).
    { induction l as [|a l IH]; simpl; [reflexivity|]. rewrite IH. reflexivity. }
    rewrite Hz. lia.
  - rewrite Hd in Hd'. injection Hd' as <-.
    exact (day_sum_steps r idx x y u m sol dates staff date_str
             Hsteps Hf Hd Hs Hdate).
Qed.

Lemma one_shift_per_day_witness :
  exists idx x y u m,
    _build_model MoreExamples.two_staff empty_model = Ok (idx, x, y, u, m) /\
    sumZ (map (xval x MoreExamples.both_working)
              (day_names MoreExamples.two_staff "b" "2025-01-01")) <= 1.
Proof.
  do 5 eexists. split; [vm_compute; reflexivity|].
  eapply (one_shift_per_day MoreExamples.two_staff _ _ _ _ _
            MoreExamples.both_working ["2025-01-01"]
            (Staff.mk "b" "Staff B" "nurse" 60 ["General"] ["w1"]) "2025-01-01").
  - vm_compute; reflexivity.
  - vm_compute; reflexivity.
  - vm_compute; reflexivity.
  - simpl; auto.
  - simpl; auto.
Defined.

(* ------------------------------------------------------------------ *)
(** ** Ward eligibility *)

Lemma forbid_constraint (x : xdict) (name : string) (xv : var) (m m' : CpModel) :
  forbid x name m = Ok (tt, m') ->
  dict_get String.eqb name x = Some xv ->
  In (Eq (V xv) (Const 0)) (constraints m').
Proof.
  unfold forbid. intros H Hg. rewrite Hg in H. exact (AddC_constraint _ _ _ H).
Qed.

Lemma str_in_not_In (s : string) (l : list string) :
  ~ In s l -> str_in s l = false.
Proof. intros H. now apply str_in_false. Qed.

Lemma ineligible_steps (r : Request.t) (idx : ModelIndices)
  (x y u : xdict) (m : CpModel) (sol : list Z) (dates : list string)
  (staff : Staff.t) (date_str : string) (st : ShiftType.t) (ward : Ward.t) :
  build_steps r idx x y u m dates ->
  feasible m sol ->
  _get_dates (Request.horizon r) = Ok dates ->
  In staff (Request.staff r) -> In date_str dates ->
  In st (Request.shiftTypes r) -> In ward (Request.wards r) ->
  ~ In (Ward.id ward) (Staff.eligibleWards staff) ->
  xval x sol (x_name (Staff.id staff) date_str (ShiftType.code st) (Ward.id ward)) = 0.
Proof.
  intros Hsteps Hf Hd Hs Hdate Hst Hw Hinel.
  unfold xval.
  destruct (dict_get String.eqb _ x) as [xv|] eqn:Eg; [|reflexivity].
  destruct (steps_extend _ _ _ _ _ _ _ Hsteps)
    as (m1 & m3 & m3a & m3b & m3c & m4 & m5 & dr & hd &
        _ & _ & _ & E1 & X3a & _).
  unfold _add_feasibility_links in E1.
  eapply for_inv with (a := staff) in E1; [|intros; grows_tac|exact Hs].
  destruct E1 as [ma [mb [_ [H Eb]]]].
  unfold bind at 1, lift in H. rewrite Hd in H.
  eapply for_inv with (a := (date_str, ShiftType.code st, ward)) in H;
    [|intros [[? ?] ?]; grows_tac
     |apply in_prod3; repeat split; [exact Hdate|now apply in_map|exact Hw]].
  destruct H as [mc [md [_ [H Ed]]]].
  cbv zeta in H. rewrite (str_in_not_In _ _ Hinel) in H. cbn [negb] in H.
  assert (Hc : In (Eq (V xv) (Const 0)) (constraints md)).
  { destruct (negb (dict_mem key3_eqb (date_str, Ward.id ward, ShiftType.code st) hd));
      exact (forbid_constraint _ _ _ _ _ H Eg). }
  apply (extends_constraint _ _ _ Ed), (extends_constraint _ _ _ Eb),
    (extends_constraint _ _ _ X3a) in Hc.
  apply (feasible_sat _ _ Hf) in Hc. cbn [holdsb eval] in Hc.
  now apply Z.eqb_eq in Hc.
Qed.

(** X5: in every solution of a built model, the x variable of a staff
    member in a ward that is not among the staff member's eligible wards is
    0: the model creates the variable all the same and pins it. *)
Theorem ineligible_ward_not_assigned (r : Request.t) (idx : ModelIndices)
  (x y u : xdict) (m : CpModel) (sol : list Z) (dates : list string)
  (staff : Staff.t) (date_str : string) (st : ShiftType.t) (ward : Ward.t) :
  _build_model r empty_model = Ok (idx, x, y, u, m) ->
  feasible m sol ->
  _get_dates (Request.horizon r) = Ok dates ->
  In staff (Request.staff r) -> In date_str dates ->
  In st (Request.shiftTypes r) -> In ward (Request.wards r) ->
  ~ In (Ward.id ward) (Staff.eligibleWards staff) ->
  xval x sol (x_name (Staff.id staff) date_str (ShiftType.code st) (Ward.id ward)) = 0.
Proof.
  intros Hb Hf Hd Hs Hdate Hst Hw Hinel.
  destruct (build_model_steps _ _ _ _ _ _ Hb) as [dates' [_ [Hd' [[-> _]|Hsteps]]]];
    [reflexivity|].
  rewrite Hd in Hd'. injection Hd' as <-.
  exact (ineligible_steps r idx x y u m sol dates staff date_str st ward
           Hsteps Hf Hd Hs Hdate Hst Hw Hinel).
Qed.

Lemma ineligible_ward_not_assigned_witness :
  exists idx x y u m,
    _build_model MoreExamples.no_ward empty_model = Ok (idx, x, y, u, m) /\
    feasible m Examples.S1_idle /\
    xval x Examples.S1_idle (x_name "s1" "2025-01-01" "DAY" "w1") = 0.
Proof.
  do 5 eexists. split; [vm_compute; reflexivity|].
  split; [vm_compute; reflexivity|].
  eapply (ineligible_ward_not_assigned MoreExamples.no_ward _ _ _ _ _
            Examples.S1_idle ["2025-01-01"]
            (Staff.mk "s1" "Staff One" "nurse" 60 ["General"] [])
            "2025-01-01" Examples.DAY (Ward.mk "w1" "Ward 1")).
  - vm_compute; reflexivity.
  - vm_compute; reflexivity.
  - vm_compute; reflexivity.
  - simpl; auto.
  - simpl; auto.
  - simpl; auto.
  - simpl; auto.
  - simpl; auto.
Defined.

(* ------------------------------------------------------------------ *)
(** ** Coverage with slack *)

Lemma eligible_vars_sum (r : Request.t) (y : xdict) (sol : list Z)
  (d w s k : string) :
  sumZ (map (eval sol)
          (flat_map
             (fun staff =>
                if str_in k (Staff.skills staff)
                   && str_in w (Staff.eligibleWards staff) then
                  match dict_get String.eqb (y_name (Staff.id staff) d s w k) y with
                  | Some yv => [V yv]
                  | None => []
                  end
                else [])
             (Request.staff r))) =
  sumZ (eligible_yvals r y sol d w s k).
Proof.
  unfold eligible_yvals.
  induction (Request.staff r) as [|staff l IH]; simpl; [reflexivity|].
  rewrite map_app, sumZ_app, IH. f_equal.
  destruct (str_in k (Staff.skills staff) && str_in w (Staff.eligibleWards staff))%bool;
    [|reflexivity].
  unfold xval. destruct (dict_get String.eqb _ y); simpl; lia.
Qed.

(** X6: in every solution of a built model, for every skill requirement
    (date, ward, slot, skill) -> required of the demand that has a slack
    variable u, the skill variables of the staff members who have the skill
    and are eligible for the ward, plus u, make exactly [required]; with no
    such staff member u equals [required]. *)
Theorem coverage_with_slack (r : Request.t) (idx : ModelIndices) (x y u : xdict)
  (m : CpModel) (sol : list Z) (d w s k : string) (required : Z) (uv : var) :
  _build_model r empty_model = Ok (idx, x, y, u, m) ->
  feasible m sol ->
  In ((d, w, s, k), required) (fst (_build_demand_lookup r)) ->
  dict_get String.eqb (u_name d s w k) u = Some uv ->
  sumZ (eligible_yvals r y sol d w s k) + nth uv sol 0 = required.
Proof.
  intros Hb Hf Hin Hu.
  destruct (build_model_steps _ _ _ _ _ _ Hb)
    as [dates [_ [Hd [(_ & _ & -> & _)|Hsteps]]]]; [discriminate|].
  destruct (steps_extend _ _ _ _ _ _ _ Hsteps)
    as (m1 & m3 & m3a & m3b & m3c & m4 & m5 & dr & hd &
        El & _ & _ & _ & _ & E2 & X3b & _).
  rewrite El in Hin. cbn [fst] in Hin.
  unfold _add_coverage_constraints_with_slack in E2.
  eapply for_inv with (a := ((d, w, s, k), required)) in E2;
    [|intros [[[[? ?] ?] ?] ?]; grows_tac|exact Hin].
  destruct E2 as [ma [mb [_ [H Eb]]]].
  cbv zeta in H. rewrite Hu in H.
  rewrite <- eligible_vars_sum.
  match type of H with
  | (if nonempty ?ev then _ else _) _ = _ => destruct ev as [|e0 es] eqn:Eev
  end; cbn [nonempty] in H; apply AddC_constraint in H;
    apply (extends_constraint _ _ _ Eb), (extends_constraint _ _ _ X3b) in H;
    apply (feasible_sat _ _ Hf) in H; cbn [holdsb eval] in H;
    apply Z.eqb_eq in H.
  - simpl. lia.
  - rewrite eval_py_sum in H. exact H.
Qed.

Lemma coverage_with_slack_witness :
  exists idx x y u m,
    _build_model MoreExamples.two_staff empty_model = Ok (idx, x, y, u, m) /\
    sumZ (eligible_yvals MoreExamples.two_staff y MoreExamples.both_working
            "2025-01-01" "w1" "DAY" "General")
    + nth 4%nat MoreExamples.both_working 0 = 2.
Proof.
  do 5 eexists. split; [vm_compute; reflexivity|].
  eapply (coverage_with_slack MoreExamples.two_staff _ _ _ _ _
            MoreExamples.both_working "2025-01-01" "w1" "DAY" "General" 2 4%nat).
  - vm_compute; reflexivity.
  - vm_compute; reflexivity.
  - simpl; auto.
  - vm_compute; reflexivity.
Defined.

(* ------------------------------------------------------------------ *)
(** ** Weekly contract hours *)

Lemma sat_extends (sol : list Z) (m m' : CpModel) :
  extends m m' -> sat sol m' -> sat sol m.
Proof. intros He Hs c Hc. apply Hs. exact (extends_constraint _ _ _ He Hc). Qed.












(* ------------------------------------------------------------------ *)
(** ** Skill variables and assignment variables *)

Lemma grows_skill_link_body x y e d s w acc k :
  grows (skill_link_body x y e d s w acc k).
Proof. unfold skill_link_body. grows_tac. Qed.

Lemma skill_loop_sum (x y : xdict) (e d s w : string) (sol : list Z)
  (skills : list string) :
  forall acc m vars m',
    foldM (skill_link_body x y e d s w) skills acc m = Ok (vars, m') ->
    sumZ (map (eval sol) vars) =
    sumZ (map (eval sol) acc)
    + sumZ (map (fun skill => xval y sol (y_name e d s w skill)) skills).
Proof.
  induction skills as [|k skills IH]; intros acc m vars m' H.
  - injection H as <- _. simpl. lia.
  - cbn [foldM] in H. unfold bind at 1 in H.
    destruct (skill_link_body x y e d s w acc k m) as [[acc1 m1]|] eqn:E;
      [|discriminate].
    rewrite (IH _ _ _ _ H). cbn [map sumZ fold_right].
    unfold skill_link_body in E. unfold xval at 2.
    destruct (dict_get String.eqb (y_name e d s w k) y) as [yv|].
    + unfold bind, lift in E.
      destruct (dict_getitem String.eqb (x_name e d s w) x); [|discriminate].
      unfold AddC, ret in E. injection E as <- _.
      rewrite map_app, sumZ_app. cbn [map sumZ fold_right eval]. unfold sumZ. lia.
    + injection E as <- _. unfold sumZ. lia.
Qed.

(** Every cell of the grid of a built model with variables is a key of
    [has_demand_cell]. *)
Lemma built_cell_has_demand (r : Request.t) (idx : ModelIndices) (x y u : xdict)
  (m : CpModel) (dates : list string) (staff : Staff.t) (date_str : string)
  (st : ShiftType.t) (ward : Ward.t) :
  build_steps r idx x y u m dates ->
  In staff (Request.staff r) -> In date_str dates ->
  In st (Request.shiftTypes r) -> In ward (Request.wards r) ->
  dict_mem key3_eqb (date_str, Ward.id ward, ShiftType.code st)
    (snd (_build_demand_lookup r)) = true.
Proof.
  intros Hsteps Hs Hd Hst Hw. destruct Hsteps.
  rewrite bs_lookup. cbn [snd]. unfold dict_mem.
  destruct (dict_get key3_eqb (date_str, Ward.id ward, ShiftType.code st) hd)
    eqn:Eg; [reflexivity|].
  unfold create_x_vars in bs_x.
  rewrite (create_x_loop_missing hd _ [] empty_model (Staff.id staff) date_str
             (Ward.id ward) (ShiftType.code st)) in bs_x; [discriminate| |exact Eg].
  apply in_prod4. repeat split; try (now apply in_map); exact Hd.
Qed.

(** X8: in every solution of a built model, for a staff member on a
    horizon date, shift type and ward they are eligible for, the skill
    variables y of the staff member's skills add up to at most the x
    variable of the cell: they cover at most one skill per shift, and none
    unless assigned. *)
Theorem skills_within_assignment (r : Request.t) (idx : ModelIndices)
  (x y u : xdict) (m : CpModel) (sol : list Z) (dates : list string)
  (staff : Staff.t) (date_str : string) (st : ShiftType.t) (ward : Ward.t) :
  _build_model r empty_model = Ok (idx, x, y, u, m) ->
  feasible m sol ->
  _get_dates (Request.horizon r) = Ok dates ->
  In staff (Request.staff r) -> In date_str dates ->
  In st (Request.shiftTypes r) -> In ward (Request.wards r) ->
  In (Ward.id ward) (Staff.eligibleWards staff) ->
  sumZ (skill_yvals y sol staff date_str (ShiftType.code st) (Ward.id ward))
  <= xval x sol (x_name (Staff.id staff) date_str (ShiftType.code st) (Ward.id ward)).
Proof.
  intros Hb Hf Hd Hs Hdate Hst Hw Hel.
  pose proof (xval_boolean r idx x y u m sol
                (x_name (Staff.id staff) date_str (ShiftType.code st) (Ward.id ward))
                Hb Hf) as Hx.
  unfold skill_yvals.
  destruct (build_model_steps _ _ _ _ _ _ Hb)
    as [dates' [_ [Hd' [(_ & -> & _ & _)|Hsteps]]]].
  { replace (map _ (Staff.skills staff))
      with (map (fun _ : string => 0) (Staff.skills staff)).
    - induction (Staff.skills staff); simpl; [lia|exact IHl].
    - apply map_ext. intros k. reflexivity. }
  rewrite Hd in Hd'. injection Hd' as <-.
  pose proof (built_cell_has_demand _ _ _ _ _ _ _ _ _ _ _ Hsteps Hs Hdate Hst Hw)
    as Hmem.
  destruct (steps_extend _ _ _ _ _ _ _ Hsteps)
    as (m1 & m3 & m3a & m3b & m3c & m4 & m5 & dr & hd &
        El & _ & _ & E1 & X3a & _).
  rewrite El in Hmem. cbn [snd] in Hmem.
  unfold _add_feasibility_links in E1.
  eapply for_inv with (a := staff) in E1; [|intros; grows_tac|exact Hs].
  destruct E1 as [ma [mb [_ [H Eb]]]].
  unfold bind at 1, lift in H. rewrite Hd in H.
  eapply for_inv with (a := (date_str, ShiftType.code st, ward)) in H;
    [|intros [[? ?] ?]; grows_tac
     |apply in_prod3; repeat split; [exact Hdate|now apply in_map|exact Hw]].
  destruct H as [mc [md [_ [H Ed]]]].
  cbv zeta in H. rewrite Hmem in H.
  rewrite (proj2 (str_in_In _ _) Hel) in H. cbn [negb] in H.
  change (bind (foldM (skill_link_body x y (Staff.id staff) date_str
                         (ShiftType.code st) (Ward.id ward))
                      (Staff.skills staff) [])
               (fun skill_vars =>
                  if nonempty skill_vars then
                    bind (lift (dict_getitem String.eqb
                                  (x_name (Staff.id staff) date_str
                                     (ShiftType.code st) (Ward.id ward)) x))
                         (fun xv => AddC (Le (py_sum skill_vars) (V xv)))
                  else ret tt) mc = Ok (tt, md)) in H.
  unfold bind at 1 in H.
  destruct (foldM _ (Staff.skills staff) [] mc) as [[vars me]|] eqn:Ev;
    [|discriminate].
  pose proof (skill_loop_sum _ _ _ _ _ _ sol _ _ _ _ _ Ev) as Hsum.
  cbn [map sumZ fold_right] in Hsum. rewrite Z.add_0_l in Hsum.
  rewrite <- Hsum.
  destruct vars as [|v0 vs]; [simpl; lia|].
  cbn [nonempty] in H. unfold bind, lift, dict_getitem in H. unfold xval.
  destruct (dict_get String.eqb _ x) as [xv|]; [|discriminate].
  apply AddC_constraint in H.
  apply (extends_constraint _ _ _ Ed), (extends_constraint _ _ _ Eb),
    (extends_constraint _ _ _ X3a) in H.
  apply (feasible_sat _ _ Hf) in H. cbn [holdsb eval] in H.
  apply Z.leb_le in H. rewrite eval_py_sum in H. exact H.
Qed.

Lemma skills_within_assignment_witness :
  exists idx x y u m,
    _build_model MoreExamples.two_staff empty_model = Ok (idx, x, y, u, m) /\
    sumZ (skill_yvals y MoreExamples.both_working
            (Staff.mk "b" "Staff B" "nurse" 60 ["General"] ["w1"])
            "2025-01-01" "DAY" "w1")
    <= xval x MoreExamples.both_working (x_name "b" "2025-01-01" "DAY" "w1").
Proof.
  do 5 eexists. split; [vm_compute; reflexivity|].
  eapply (skills_within_assignment MoreExamples.two_staff _ _ _ _ _
            MoreExamples.both_working ["2025-01-01"]
            (Staff.mk "b" "Staff B" "nurse" 60 ["General"] ["w1"])
            "2025-01-01" Examples.DAY (Ward.mk "w1" "Ward 1")).
  - vm_compute; reflexivity.
  - vm_compute; reflexivity.
  - vm_compute; reflexivity.
  - simpl; auto.
  - simpl; auto.
  - simpl; auto.
  - simpl; auto.
  - simpl; auto.
Defined.

(* ------------------------------------------------------------------ *)
(** ** Rest between shifts *)

Lemma digit_val_range (c : ascii) :
  Str.is_digit c = true -> 0 <= Str.digit_val c <= 9.
Proof.
  unfold Str.is_digit, Str.digit_val. intros H.
  apply andb_prop in H. destruct H as [H1 H2].
  apply Nat.leb_le in H1, H2. lia.
Qed.

Lemma parse_H_range (s : string) (h : Z) :
  Clock.parse_H s = Some h -> 0 <= h <= 23.
Proof.
  unfold Clock.parse_H.
  destruct s as [|a [|b [|c s]]]; try discriminate.
  - destruct (Str.is_digit a) eqn:Ea; [|discriminate].
    intros H. injection H as <-. pose proof (digit_val_range a Ea). lia.
  - destruct (Str.is_digit a) eqn:Ea; [|discriminate].
    destruct (Str.is_digit b) eqn:Eb; [|discriminate].
    cbn [andb].
    destruct (10 * Str.digit_val a + Str.digit_val b <=? 23) eqn:El; [|discriminate].
    intros H. replace h with (10 * Str.digit_val a + Str.digit_val b) by congruence.
    apply Z.leb_le in El.
    pose proof (digit_val_range a Ea). pose proof (digit_val_range b Eb). lia.
Qed.

Lemma parse_M_range (s : string) (mm : Z) :
  Clock.parse_M s = Some mm -> 0 <= mm <= 59.
Proof.
  unfold Clock.parse_M.
  destruct s as [|a [|b [|c s]]]; try discriminate.
  - destruct (Str.is_digit a) eqn:Ea; [|discriminate].
    intros H. injection H as <-. pose proof (digit_val_range a Ea). lia.
  - destruct (Str.is_digit a) eqn:Ea; [|discriminate].
    destruct (Str.is_digit b) eqn:Eb; [|discriminate].
    cbn [andb].
    destruct (Str.digit_val a <=? 5) eqn:El; [|discriminate].
    intros H. replace mm with (10 * Str.digit_val a + Str.digit_val b) by congruence.
    apply Z.leb_le in El.
    pose proof (digit_val_range a Ea). pose proof (digit_val_range b Eb). lia.
Qed.

Lemma strptime_HM_range (s : string) (t : Z) :
  Clock.strptime_HM s = Ok t -> 0 <= t < Clock.DAY.
Proof.
  unfold Clock.strptime_HM, Clock.DAY.
  destruct (Str.split ":" s) as [|h [|mm [|? ?]]]; try discriminate.
  destruct (Clock.parse_H h) as [hh|] eqn:Eh; [|discriminate].
  destruct (Clock.parse_M mm) as [mv|] eqn:Em; [|discriminate].
  intros H. replace t with (60 * hh + mv) by congruence.
  apply parse_H_range in Eh. apply parse_M_range in Em. lia.
Qed.

Lemma shift_times_range (s1 s2 : ShiftType.t) (start1 end1 start2 end2 : Z) :
  shift_times s1 s2 = Ok (start1, end1, start2, end2) ->
  0 <= start1 < Clock.DAY /\ 0 <= start2 < Clock.DAY /\
  (if ShiftType.isNight s1 then Clock.DAY <= end1 < 2 * Clock.DAY
   else 0 <= end1 < Clock.DAY) /\
  (if ShiftType.isNight s2 then Clock.DAY <= end2 < 2 * Clock.DAY
   else 0 <= end2 < Clock.DAY).
Proof.
  unfold shift_times, rbind.
  destruct (Clock.strptime_HM (ShiftType.start s1)) as [a|] eqn:Ea; [|discriminate].
  destruct (Clock.strptime_HM (ShiftType.end_ s1)) as [b|] eqn:Eb; [|discriminate].
  destruct (Clock.strptime_HM (ShiftType.start s2)) as [c|] eqn:Ec; [|discriminate].
  destruct (Clock.strptime_HM (ShiftType.end_ s2)) as [d|] eqn:Ed; [|discriminate].
  intros H. injection H as <- <- <- <-.
  apply strptime_HM_range in Ea, Eb, Ec, Ed.
  destruct (ShiftType.isNight s1), (ShiftType.isNight s2); lia.
Qed.

Lemma not_both_sum (x : xdict) (r : Request.t) (e d1 c1 d2 c2 : string)
  (m m' : CpModel) (sol : list Z) (ward1 ward2 : Ward.t) :
  not_both x r e d1 c1 d2 c2 m = Ok (tt, m') ->
  sat sol m' ->
  In ward1 (Request.wards r) -> In ward2 (Request.wards r) ->
  (forall name, 0 <= xval x sol name <= 1) ->
  xval x sol (x_name e d1 c1 (Ward.id ward1))
  + xval x sol (x_name e d2 c2 (Ward.id ward2)) <= 1.
Proof.
  intros H Hs H1 H2 Hbool. unfold not_both in H.
  eapply for_inv with (a := (ward1, ward2)) in H;
    [|intros [? ?]; grows_tac|now apply in_prod2].
  destruct H as [ma [mb [_ [H Eb]]]]. cbv zeta in H.
  pose proof (Hbool (x_name e d1 c1 (Ward.id ward1))) as B1.
  pose proof (Hbool (x_name e d2 c2 (Ward.id ward2))) as B2.
  unfold xval in *.
  destruct (dict_get String.eqb (x_name e d1 c1 (Ward.id ward1)) x) as [x1|];
    [|lia].
  destruct (dict_get String.eqb (x_name e d2 c2 (Ward.id ward2)) x) as [x2|];
    [|lia].
  apply AddC_constraint in H. apply (extends_constraint _ _ _ Eb) in H.
  apply Hs in H. cbn [holdsb eval] in H. now apply Z.leb_le in H.
Qed.

(** What the second loop of [_add_rest_constraints] gives for a pair of
    consecutive dates and a forbidden pair of shift types. *)
Lemma rest_pair (r : Request.t) (idx : ModelIndices) (x y u : xdict)
  (m : CpModel) (sol : list Z) (dates : list string) (staff : Staff.t)
  (date1 date2 : string) (shift1 shift2 : ShiftType.t) (ward1 ward2 : Ward.t) :
  _build_model r empty_model = Ok (idx, x, y, u, m) ->
  feasible m sol ->
  _get_dates (Request.horizon r) = Ok dates ->
  In staff (Request.staff r) ->
  In (date1, date2) (combine dates (tl dates)) ->
  In shift1 (Request.shiftTypes r) -> In shift2 (Request.shiftTypes r) ->
  In ward1 (Request.wards r) -> In ward2 (Request.wards r) ->
  F_lookup idx (ShiftType.id shift1) (ShiftType.id shift2) = Some true ->
  xval x sol (x_name (Staff.id staff) date1 (ShiftType.code shift1) (Ward.id ward1))
  + xval x sol (x_name (Staff.id staff) date2 (ShiftType.code shift2) (Ward.id ward2))
  <= 1.
Proof.
  intros Hb Hf Hd Hs Hdd H1 H2 W1 W2 HF.
  assert (Hbool : forall name, 0 <= xval x sol name <= 1)
    by (intros name; exact (xval_boolean r idx x y u m sol name Hb Hf)).
  destruct (build_model_steps _ _ _ _ _ _ Hb)
    as [dates' [_ [Hd' [(-> & _ & _ & _)|Hsteps]]]].
  { unfold xval. simpl. lia. }
  rewrite Hd in Hd'. injection Hd' as <-.
  destruct Hsteps.
  assert (X4 : extends m4 m).
  { eapply extends_trans; [exact (grows_add_weekly _ _ _ _ _ _ bs_weekly)|].
    exact (grows_set_objective _ _ _ _ _ _ _ bs_objective). }
  unfold _add_rest_constraints in bs_rest.
  unfold bind at 1, lift at 1 in bs_rest. rewrite Hd in bs_rest.
  eapply for_inv with (a := staff) in bs_rest; [|intros; grows_tac|exact Hs].
  destruct bs_rest as [ma [mb [_ [H Eb]]]].
  unfold bind at 1 in H.
  match type of H with
  | match ?c ma with _ => _ end = _ => destruct (c ma) as [[[] mc]|]; [|discriminate]
  end.
  eapply for_inv with (a := ((date1, date2), shift1, shift2)) in H;
    [|intros [[[? ?] ?] ?]; grows_tac
     |apply in_prod3; repeat split; assumption].
  destruct H as [md [me [_ [H Ee]]]].
  cbv zeta in H. unfold F_lookup in HF.
  unfold bind at 1, lift at 1, dict_getitem at 1 in H.
  destruct (dict_get String.eqb (ShiftType.id shift1) (forbidden_adjacency idx))
    as [row|]; [|discriminate].
  unfold bind at 1, lift at 1, dict_getitem at 1 in H. rewrite HF in H.
  apply (not_both_sum _ _ _ _ _ _ _ _ _ sol ward1 ward2 H); try assumption.
  apply (sat_extends _ _ m); [|exact (feasible_sat _ _ Hf)].
  eauto using extends_trans.
Qed.

(** X9: in every solution of a built model, for two consecutive horizon
    dates and two shift types whose entry in the forbidden-adjacency matrix
    is true, a staff member does not hold the first on the first date and
    the second on the next, in whatever wards. *)
Theorem forbidden_adjacency_enforced (r : Request.t) (idx : ModelIndices)
  (x y u : xdict) (m : CpModel) (sol : list Z) (dates : list string)
  (staff : Staff.t) (date1 date2 : string) (shift1 shift2 : ShiftType.t)
  (ward1 ward2 : Ward.t) :
  _build_model r empty_model = Ok (idx, x, y, u, m) ->
  feasible m sol ->
  _get_dates (Request.horizon r) = Ok dates ->
  In staff (Request.staff r) ->
  In (date1, date2) (combine dates (tl dates)) ->
  In shift1 (Request.shiftTypes r) -> In shift2 (Request.shiftTypes r) ->
  In ward1 (Request.wards r) -> In ward2 (Request.wards r) ->
  F_lookup idx (ShiftType.id shift1) (ShiftType.id shift2) = Some true ->
  xval x sol (x_name (Staff.id staff) date1 (ShiftType.code shift1) (Ward.id ward1)) = 1 ->
  xval x sol (x_name (Staff.id staff) date2 (ShiftType.code shift2) (Ward.id ward2)) = 0.
Proof.
  intros Hb Hf Hd Hs Hdd H1 H2 W1 W2 HF Hone.
  pose proof (rest_pair r idx x y u m sol dates staff date1 date2 shift1 shift2
                ward1 ward2 Hb Hf Hd Hs Hdd H1 H2 W1 W2 HF) as Hsum.
  pose proof (xval_boolean r idx x y u m sol
                (x_name (Staff.id staff) date2 (ShiftType.code shift2) (Ward.id ward2))
                Hb Hf) as B2.
  lia.
Qed.

Lemma insufficient_rest_after_night (s1 s2 : ShiftType.t) (b : bool) :
  ShiftType.isNight s1 = true ->
  _insufficient_rest s1 s2 = Ok b -> b = true.
Proof.
  intros Hn H. unfold _insufficient_rest, rbind in H.
  destruct (shift_times s1 s2) as [[[[start1 end1] start2] end2]|] eqn:Et;
    [|discriminate].
  injection H as <-. apply shift_times_range in Et.
  rewrite Hn in Et. unfold Clock.DAY in Et. apply Z.ltb_lt. lia.
Qed.

(** X10: with unique shift-type identifiers, in every solution of a built
    model a staff member who holds a night shift (isNight) on a horizon
    date holds no shift at all on the next date, whatever its start time:
    the end of a night shift is moved to the next day and compared with
    the start of the following shift on the same clock day. *)
Theorem no_shift_on_the_day_after_a_night (r : Request.t) (idx : ModelIndices)
  (x y u : xdict) (m : CpModel) (sol : list Z) (dates : list string)
  (staff : Staff.t) (date1 date2 : string) (night shift2 : ShiftType.t)
  (ward1 ward2 : Ward.t) :
  _build_model r empty_model = Ok (idx, x, y, u, m) ->
  feasible m sol ->
  _get_dates (Request.horizon r) = Ok dates ->
  NoDup (map ShiftType.id (Request.shiftTypes r)) ->
  In staff (Request.staff r) ->
  In (date1, date2) (combine dates (tl dates)) ->
  In night (Request.shiftTypes r) -> ShiftType.isNight night = true ->
  In shift2 (Request.shiftTypes r) ->
  In ward1 (Request.wards r) -> In ward2 (Request.wards r) ->
  xval x sol (x_name (Staff.id staff) date1 (ShiftType.code night) (Ward.id ward1)) = 1 ->
  xval x sol (x_name (Staff.id staff) date2 (ShiftType.code shift2) (Ward.id ward2)) = 0.
Proof.
  intros Hb Hf Hd Hnd Hs Hdd H1 Hn H2 W1 W2 Hone.
  destruct (build_model_steps _ _ _ _ _ _ Hb) as [dates' [Hidx _]].
  destruct (forbidden_adjacency_entry r idx night shift2 Hidx Hnd H1 H2)
    as [b [Hb' HF]].
  rewrite (insufficient_rest_after_night _ _ _ Hn Hb') in HF.
  pose proof (rest_pair r idx x y u m sol dates staff date1 date2 night shift2
                ward1 ward2 Hb Hf Hd Hs Hdd H1 H2 W1 W2 HF) as Hsum.
  pose proof (xval_boolean r idx x y u m sol
                (x_name (Staff.id staff) date2 (ShiftType.code shift2) (Ward.id ward2))
                Hb Hf) as B2.
  lia.
Qed.

Lemma no_shift_on_the_day_after_a_night_witness :
  exists idx x y u m,
    _build_model MoreExamples.two_nights empty_model = Ok (idx, x, y, u, m) /\
    feasible m MoreExamples.first_night_only /\
    xval x MoreExamples.first_night_only (x_name "s1" "2025-01-02" "NIGHT" "w1") = 0.
Proof.
  do 5 eexists. split; [vm_compute; reflexivity|].
  split; [vm_compute; reflexivity|].
  eapply (no_shift_on_the_day_after_a_night MoreExamples.two_nights _ _ _ _ _
            MoreExamples.first_night_only ["2025-01-01"; "2025-01-02"]
            (Staff.mk "s1" "Staff One" "nurse" 60 ["General"] ["w1"])
            "2025-01-01" "2025-01-02" MoreExamples.NIGHT MoreExamples.NIGHT
            (Ward.mk "w1" "Ward 1") (Ward.mk "w1" "Ward 1")).
  - vm_compute; reflexivity.
  - vm_compute; reflexivity.
  - vm_compute; reflexivity.
  - simpl. repeat constructor; simpl; intuition discriminate.
  - simpl; auto.
  - simpl; auto.
  - simpl; auto.
  - reflexivity.
  - simpl; auto.
  - simpl; auto.
  - simpl; auto.
  - vm_compute; reflexivity.
Defined.

Lemma forbidden_adjacency_enforced_witness :
  exists idx x y u m,
    _build_model MoreExamples.two_nights empty_model = Ok (idx, x, y, u, m) /\
    F_lookup idx "st-night" "st-night" = Some true /\
    xval x MoreExamples.first_night_only (x_name "s1" "2025-01-02" "NIGHT" "w1") = 0.
Proof.
  do 5 eexists. split; [vm_compute; reflexivity|].
  split; [vm_compute; reflexivity|].
  eapply (forbidden_adjacency_enforced MoreExamples.two_nights _ _ _ _ _
            MoreExamples.first_night_only ["2025-01-01"; "2025-01-02"]
            (Staff.mk "s1" "Staff One" "nurse" 60 ["General"] ["w1"])
            "2025-01-01" "2025-01-02" MoreExamples.NIGHT MoreExamples.NIGHT
            (Ward.mk "w1" "Ward 1") (Ward.mk "w1" "Ward 1")).
  - vm_compute; reflexivity.
  - vm_compute; reflexivity.
  - vm_compute; reflexivity.
  - simpl; auto.
  - simpl; auto.
  - simpl; auto.
  - simpl; auto.
  - simpl; auto.
  - simpl; auto.
  - vm_compute; reflexivity.
  - vm_compute; reflexivity.
Defined.

(* ------------------------------------------------------------------ *)
(** ** Metrics *)

Lemma satisfied_preferences_le (assignments : list Assignment.t)
  (prefs : list Preference.t) :
  forall acc,
    fold_left
      (fun satisfied pref =>
         match find (pref_matches pref) assignments with
         | Some _ =>
             if Preference.preferOn pref then satisfied + 1
             else if Preference.preferOff pref then satisfied - 1
             else satisfied
         | None => satisfied
         end)
      prefs acc <= acc + Z.of_nat (List.length prefs).
Proof.
  induction prefs as [|p prefs IH]; intros acc; [simpl; lia|].
  cbn [fold_left List.length]. etransitivity; [apply IH|].
  destruct (find (pref_matches p) assignments);
    [destruct (Preference.preferOn p); [|destruct (Preference.preferOff p)]|];
    lia.
Qed.

(** X11: whatever the assignments and the preferences, the
    preferenceSatisfaction that [_calculate_metrics] reports lies between 0
    and 1: the score is clamped at 0 from below, and every preference adds
    at most one to the numerator. *)
Theorem preference_satisfaction_range (assignments : list Assignment.t)
  (r : Request.t) (solve_time_ms : Z) :
  (0 <= preferenceSatisfaction (_calculate_metrics assignments r solve_time_ms) <= 1)%Q.
Proof.
  unfold _calculate_metrics. cbn [preferenceSatisfaction].
  pose proof (satisfied_preferences_le assignments (Request.preferences r) 0) as Hle.
  fold (satisfied_preferences assignments (Request.preferences r)) in Hle.
  set (s := satisfied_preferences assignments (Request.preferences r)) in *.
  set (t := Z.max 1 (Z.of_nat (List.length (Request.preferences r)))).
  assert (Ht : 1 <= t) by (unfold t; lia).
  assert (Hst : s <= t) by (unfold t; lia).
  unfold Qmax0.
  destruct (Qlt_le_dec 0 (inject_Z s / inject_Z t)) as [Hpos|Hneg].
  - split; [now apply Qlt_le_weak|].
    apply Qle_shift_div_r.
    + change 0%Q with (inject_Z 0). rewrite <- Zlt_Qlt. lia.
    + rewrite Qmult_1_l. now rewrite <- Zle_Qle.
  - split; [apply Qle_refl|discriminate].
Qed.

(* ------------------------------------------------------------------ *)
(** ** The dates of the horizon *)

Lemma dates_from_ok (n : nat) :
  forall current,
    1 <= current -> current + Z.of_nat n <= Date.MAXORDINAL ->
    dates_from n current = Ok (map Date.isoformat (ordinals n current)).
Proof.
  induction n as [|n IH]; intros current Hlo Hhi; [reflexivity|].
  cbn [dates_from ordinals map]. unfold Date.add_days.
  assert (Hr : ((1 <=? current + 1) && (current + 1 <=? Date.MAXORDINAL))%bool = true).
  { apply andb_true_intro. split; apply Z.leb_le; lia. }
  rewrite Hr. cbn [rbind]. rewrite IH by lia. reflexivity.
Qed.

Lemma dates_from_overflow (n : nat) :
  forall current,
    1 <= current -> n <> O -> Date.MAXORDINAL < current + Z.of_nat n ->
    dates_from n current = Raise OverflowError.
Proof.
  induction n as [|n IH]; intros current Hlo Hn Hhi; [congruence|].
  cbn [dates_from]. unfold Date.add_days.
  destruct ((1 <=? current + 1) && (current + 1 <=? Date.MAXORDINAL))%bool eqn:Hr;
    [|reflexivity].
  cbn [rbind]. apply andb_prop in Hr. destruct Hr as [_ Hr]. apply Z.leb_le in Hr.
  rewrite IH; [reflexivity|lia| |lia].
  intros ->. simpl in Hhi. lia.
Qed.

(** X12: for a horizon whose two dates parse, [_get_dates] returns the ISO
    strings of the days from start to end inclusive, in ascending order;
    the empty list when the end lies before the start; and it raises
    OverflowError when the end is 9999-12-31, because the loop steps past
    the last date before it tests it. *)
Theorem get_dates_enumerates (h : Horizon.t) (s e : Z) :
  Date.fromisoformat (Horizon.start h) = Ok s ->
  Date.fromisoformat (Horizon.end_ h) = Ok e ->
  _get_dates h =
    if e <? s then Ok []
    else if e <? Date.MAXORDINAL
         then Ok (map Date.isoformat (ordinals (Z.to_nat (e - s + 1)) s))
         else Raise OverflowError.
Proof.
  intros Hs He. unfold _get_dates. rewrite Hs, He. cbn [rbind].
  apply fromisoformat_lower in Hs.
  destruct (e <? s) eqn:E1.
  - apply Z.ltb_lt in E1. replace (Z.to_nat (e - s + 1)) with O by lia. reflexivity.
  - apply Z.ltb_ge in E1. destruct (e <? Date.MAXORDINAL) eqn:E2.
    + apply Z.ltb_lt in E2. apply dates_from_ok; lia.
    + apply Z.ltb_ge in E2. apply dates_from_overflow; lia.
Qed.

Lemma get_dates_enumerates_witness :
  exists s e,
    Date.fromisoformat "9999-12-30" = Ok s /\
    Date.fromisoformat "9999-12-31" = Ok e /\
    _get_dates (Horizon.mk "9999-12-30" "9999-12-31") =
      if e <? s then Ok []
      else if e <? Date.MAXORDINAL
           then Ok (map Date.isoformat (ordinals (Z.to_nat (e - s + 1)) s))
           else Raise OverflowError.
Proof.
  do 2 eexists. split; [vm_compute; reflexivity|].
  split; [vm_compute; reflexivity|].
  apply (get_dates_enumerates (Horizon.mk "9999-12-30" "9999-12-31")).
  - vm_compute; reflexivity.
  - vm_compute; reflexivity.
Defined.

(* ------------------------------------------------------------------ *)
(** ** From the model to the assignments [solve] returns *)

Lemma in_emit_cell (r : Request.t) (x : xdict) (sol : list Z)
  (e d w s : string) (asg : Assignment.t) :
  In asg (emit_cell r x sol (e, d, w, s)) ->
  xval x sol (x_name e d s w) = 1 /\
  exists st, shift_type_by_code r s = Some st /\
             asg = Assignment.mk e w d s (ShiftType.id st).
Proof.
  unfold emit_cell, xval, cell_name, emit.
  destruct (dict_get String.eqb (x_name e d s w) x) as [v|]; [|contradiction].
  destruct (nth v sol 0 =? 1) eqn:E1; [|contradiction].
  destruct (shift_type_by_code r s) as [st|]; [|contradiction].
  intros [<-|[]]. apply Z.eqb_eq in E1. split; [exact E1|]. now exists st.
Qed.

Lemma contract_feasible (m : CpModel) (resp : CpSolverResponse) :
  cp_sat_contract m resp -> has_solution resp -> feasible m (solution resp).
Proof.
  unfold cp_sat_contract. intros Hc [Hs|Hs]; rewrite Hs in Hc; tauto.
Qed.

(** What [solve] returns when the engine answers with a solution. *)
Lemma solve_feasible (engine : Engine) (ms : Z) (r : Request.t)
  (a : list Assignment.t) (metrics : MetricsModel) (d : Diagnostics.t) :
  solve engine ms r = Ok (a, metrics, d) ->
  names_ok r ->
  has_solution (answer engine r) ->
  cp_sat_contract (model_of (_build_model r)) (answer engine r) ->
  exists idx x y u m dates,
    _build_model r empty_model = Ok (idx, x, y, u, m) /\
    _get_dates (Request.horizon r) = Ok dates /\
    feasible m (solution (answer engine r)) /\
    a = flat_map (emit_cell r x (solution (answer engine r))) (cells_of r dates).
Proof.
  intros Hs Hok Hst Hc. unfold answer in *.
  destruct (solve_inv _ _ _ _ _ _ Hs) as (idx & x & y & u & m & Hb & Hm & He).
  destruct (build_model_steps _ _ _ _ _ _ Hb) as [dates [_ [Hd _]]].
  rewrite Hm in *.
  pose proof (contract_feasible _ _ Hc Hst) as Hf.
  exists idx, x, y, u, m, dates. repeat (split; [assumption|]).
  assert (Hlen : (List.length (variables m)
                  <= List.length (solution (engine (time_limit r) m)))%nat).
  { destruct (feasible_inv _ _ Hf) as [Hdom _].
    rewrite (domains_ok_length _ _ Hdom). lia. }
  rewrite (extract_built r idx x y u m _ dates Hb Hd Hok Hlen) in He.
  now injection He.
Qed.

Lemma in_cells_of (r : Request.t) (dates : list string) (e d w s : string) :
  In (e, d, w, s) (cells_of r dates) ->
  (exists staff, In staff (Request.staff r) /\ Staff.id staff = e) /\
  In d dates /\
  (exists ward, In ward (Request.wards r) /\ Ward.id ward = w) /\
  (exists st, In st (Request.shiftTypes r) /\ ShiftType.code st = s).
Proof.
  unfold cells_of. rewrite in_prod4, !in_map_iff.
  intros [[staff [E1 H1]] [Hd [[ward [E2 H2]] [st [E3 H3]]]]].
  split; [now exists staff|]. split; [exact Hd|].
  split; [now exists ward|now exists st].
Qed.

Lemma sumZ_nonneg (f : string -> Z) (l : list string) :
  (forall n, 0 <= f n) -> 0 <= sumZ (map f l).
Proof.
  intros Hf. induction l as [|n l IH]; simpl; [lia|].
  pose proof (Hf n). lia.
Qed.

Lemma sumZ_member (f : string -> Z) (l : list string) (n : string) :
  (forall n, 0 <= f n) -> In n l -> f n <= sumZ (map f l).
Proof.
  intros Hf. induction l as [|n0 l IH]; intros Hin; [contradiction|].
  simpl. destruct Hin as [->|Hin].
  - pose proof (sumZ_nonneg f l Hf). lia.
  - pose proof (Hf n0). pose proof (IH Hin). lia.
Qed.

Lemma at_most_one_of (f : string -> Z) (l : list string) (n1 n2 : string) :
  (forall n, 0 <= f n) -> sumZ (map f l) <= 1 ->
  In n1 l -> In n2 l -> f n1 = 1 -> f n2 = 1 -> n1 = n2.
Proof.
  intros Hf. induction l as [|n l IH]; intros Hsum H1 H2 F1 F2; [contradiction|].
  destruct (string_dec n1 n2) as [E|Hne]; [exact E|exfalso].
  simpl in Hsum. pose proof (Hf n) as Hn.
  pose proof (sumZ_nonneg f l Hf) as Hl.
  destruct H1 as [->|H1], H2 as [E2|H2].
  - congruence.
  - pose proof (sumZ_member f l n2 Hf H2). lia.
  - subst n. pose proof (sumZ_member f l n1 Hf H1). lia.
  - apply Hne, IH; try assumption. lia.
Qed.

(** X13: when the engine answers with a solution of the model, on a
    request whose staff ids, ward ids and shift codes are unique and free of
    underscores, the assignments [solve] returns hold no duplicate and at
    most one assignment per staff member and date. *)
Theorem solve_one_assignment_per_day (engine : Engine) (ms : Z) (r : Request.t)
  (a : list Assignment.t) (metrics : MetricsModel) (d : Diagnostics.t) :
  solve engine ms r = Ok (a, metrics, d) ->
  names_ok r ->
  has_solution (answer engine r) ->
  cp_sat_contract (model_of (_build_model r)) (answer engine r) ->
  NoDup a /\
  forall a1 a2,
    In a1 a -> In a2 a ->
    Assignment.staffId a1 = Assignment.staffId a2 ->
    Assignment.date a1 = Assignment.date a2 ->
    a1 = a2.
Proof.
  intros Hs Hok Hst Hc.
  destruct (solve_feasible _ _ _ _ _ _ Hs Hok Hst Hc)
    as (idx & x & y & u & m & dates & Hb & Hd & Hf & ->).
  set (sol := solution (answer engine r)) in *.
  destruct (names_ok_cells r dates Hok Hd) as [Hnd Hplain].
  rewrite Forall_forall in Hplain.
  split.
  - apply NoDup_flat_map.
    + exact (NoDup_map_inv _ _ Hnd).
    + intros [[[e dd] w] s] _. unfold emit_cell, emit.
      destruct (dict_get String.eqb _ x); [|constructor].
      destruct (_ =? 1); [|constructor].
      destruct (shift_type_by_code r s); [|constructor].
      repeat constructor. intros [].
    + intros [[[e1 d1] w1] s1] [[[e2 d2] w2] s2] b _ _ H1 H2.
      apply in_emit_cell in H1, H2.
      destruct H1 as [_ [st1 [_ ->]]], H2 as [_ [st2 [_ E]]].
      now injection E as -> -> -> ->.
  - intros a1 a2 H1 H2 Es Ed.
    apply in_flat_map in H1, H2.
    destruct H1 as [[[[e1 d1] w1] s1] [C1 H1]], H2 as [[[[e2 d2] w2] s2] [C2 H2]].
    apply in_emit_cell in H1, H2.
    destruct H1 as [V1 [st1 [T1 ->]]], H2 as [V2 [st2 [T2 ->]]].
    cbn [Assignment.staffId Assignment.date] in Es, Ed. subst e2 d2.
    destruct (build_model_steps _ _ _ _ _ _ Hb) as [dates' [_ [Hd' [[-> _]|Hsteps]]]].
    { unfold xval in V1. simpl in V1. discriminate. }
    rewrite Hd in Hd'. injection Hd' as <-.
    pose proof (Hplain _ C1) as P1. pose proof (Hplain _ C2) as P2.
    cbn [plain_cell] in P1, P2.
    destruct (in_cells_of _ _ _ _ _ _ C1)
      as [[staff [Hstaff <-]] [Hdate [[ward1 [W1 <-]] [sh1 [S1 <-]]]]].
    destruct (in_cells_of _ _ _ _ _ _ C2)
      as [_ [_ [[ward2 [W2 <-]] [sh2 [S2 <-]]]]].
    pose proof (day_sum_steps r idx x y u m sol dates staff d1
                  Hsteps Hf Hd Hstaff Hdate) as Hsum.
    assert (Hin : forall (sh : ShiftType.t) (ward : Ward.t),
               In sh (Request.shiftTypes r) -> In ward (Request.wards r) ->
               In (x_name (Staff.id staff) d1 (ShiftType.code sh) (Ward.id ward))
                  (day_names r (Staff.id staff) d1)).
    { intros sh ward Hsh Hward. unfold day_names. apply in_map_iff.
      exists (ShiftType.code sh, ward). split; [reflexivity|].
      apply in_prod2. split; [now apply in_map|exact Hward]. }
    pose proof (at_most_one_of (xval x sol) _ _ _
                  (fun n => proj1 (xval_boolean r idx x y u m sol n Hb Hf))
                  Hsum (Hin sh1 ward1 S1 W1) (Hin sh2 ward2 S2 W2) V1 V2) as Heq.
    apply x_name_inj in Heq; try tauto.
    injection Heq as Ew Es. rewrite Ew, Es in *.
    rewrite T1 in T2. now injection T2 as ->.
Qed.

Lemma solve_one_assignment_per_day_witness :
  NoDup [Assignment.mk "b" "w1" "2025-01-01" "DAY" "st-day";
         Assignment.mk "a" "w1" "2025-01-01" "DAY" "st-day"] /\
  forall a1 a2,
    In a1 [Assignment.mk "b" "w1" "2025-01-01" "DAY" "st-day";
           Assignment.mk "a" "w1" "2025-01-01" "DAY" "st-day"] ->
    In a2 [Assignment.mk "b" "w1" "2025-01-01" "DAY" "st-day";
           Assignment.mk "a" "w1" "2025-01-01" "DAY" "st-day"] ->
    Assignment.staffId a1 = Assignment.staffId a2 ->
    Assignment.date a1 = Assignment.date a2 ->
    a1 = a2.
Proof.
  eapply (solve_one_assignment_per_day
            (Examples.answers FEASIBLE MoreExamples.both_working) 0
            MoreExamples.two_staff).
  - vm_compute; reflexivity.
  - exact two_staff_names_ok.
  - right; reflexivity.
  - vm_compute; reflexivity.
Defined.

(** X14: when the engine answers with a solution of the model, on a
    request with unique, underscore-free identifiers, every assignment
    [solve] returns names a staff member, a ward and a shift type of the
    request and a date of the horizon, the ward is among the staff member's
    eligible wards, and shiftTypeId is the id of the first shift type with
    the slot's code. *)
Theorem solve_assigns_eligible_wards (engine : Engine) (ms : Z) (r : Request.t)
  (a : list Assignment.t) (metrics : MetricsModel) (d : Diagnostics.t)
  (asg : Assignment.t) :
  solve engine ms r = Ok (a, metrics, d) ->
  names_ok r ->
  has_solution (answer engine r) ->
  cp_sat_contract (model_of (_build_model r)) (answer engine r) ->
  In asg a ->
  exists staff ward st dates,
    In staff (Request.staff r) /\ Staff.id staff = Assignment.staffId asg /\
    In ward (Request.wards r) /\ Ward.id ward = Assignment.wardId asg /\
    In (Ward.id ward) (Staff.eligibleWards staff) /\
    _get_dates (Request.horizon r) = Ok dates /\ In (Assignment.date asg) dates /\
    shift_type_by_code r (Assignment.slot asg) = Some st /\
    ShiftType.id st = Assignment.shiftTypeId asg.
Proof.
  intros Hs Hok Hst Hc Hin.
  destruct (solve_feasible _ _ _ _ _ _ Hs Hok Hst Hc)
    as (idx & x & y & u & m & dates & Hb & Hd & Hf & ->).
  set (sol := solution (answer engine r)) in *.
  apply in_flat_map in Hin. destruct Hin as [[[[e dd] w] s] [C H]].
  apply in_emit_cell in H. destruct H as [V [st [T ->]]].
  destruct (build_model_steps _ _ _ _ _ _ Hb) as [dates' [_ [Hd' [[-> _]|Hsteps]]]].
  { unfold xval in V. simpl in V. discriminate. }
  rewrite Hd in Hd'. injection Hd' as <-.
  destruct (in_cells_of _ _ _ _ _ _ C)
    as [[staff [Hstaff <-]] [Hdate [[ward [W <-]] [sh [S <-]]]]].
  exists staff, ward, st, dates. cbn.
  repeat (split; [assumption || reflexivity|]).
  split; [|auto].
  destruct (in_dec string_dec (Ward.id ward) (Staff.eligibleWards staff))
    as [Hel|Hinel]; [exact Hel|exfalso].
  pose proof (ineligible_steps r idx x y u m sol dates staff dd sh ward
                Hsteps Hf Hd Hstaff Hdate S W Hinel) as Hz.
  rewrite Hz in V. discriminate.
Qed.

Lemma solve_assigns_eligible_wards_witness :
  exists staff ward st dates,
    In staff (Request.staff MoreExamples.two_staff) /\ Staff.id staff = "a" /\
    In ward (Request.wards MoreExamples.two_staff) /\ Ward.id ward = "w1" /\
    In (Ward.id ward) (Staff.eligibleWards staff) /\
    _get_dates (Request.horizon MoreExamples.two_staff) = Ok dates /\
    In "2025-01-01" dates /\
    shift_type_by_code MoreExamples.two_staff "DAY" = Some st /\
    ShiftType.id st = "st-day".
Proof.
  eapply (solve_assigns_eligible_wards
            (Examples.answers FEASIBLE MoreExamples.both_working) 0
            MoreExamples.two_staff _ _ _
            (Assignment.mk "a" "w1" "2025-01-01" "DAY" "st-day")).
  - vm_compute; reflexivity.
  - exact two_staff_names_ok.
  - right; reflexivity.
  - vm_compute; reflexivity.
  - simpl; auto.
Defined.

(* ------------------------------------------------------------------ *)
(** ** ISO-week bins *)

Lemma dict_set_keys {V} (k : string) (v : V) (d : dict string V) :
  dict_keys (dict_set String.eqb k v d) =
  if dict_mem String.eqb k d then dict_keys d else (dict_keys d ++ [k])%list.
Proof.
  unfold dict_keys, dict_mem. induction d as [|[k' v'] d IH]; simpl; [reflexivity|].
  destruct (String.eqb k k'); simpl; [reflexivity|].
  rewrite IH. now destruct (dict_get String.eqb k d).
Qed.

Lemma dict_get_keys {V} (k : string) (d : dict string V) :
  dict_get String.eqb k d = None -> ~ In k (dict_keys d).
Proof.
  unfold dict_keys. induction d as [|[k' v'] d IH]; simpl; intros H; [tauto|].
  destruct (String.eqb_spec k k') as [->|Hne]; [discriminate|].
  intros [E|Hin]; [congruence|now apply IH].
Qed.

Lemma dict_keys_set_NoDup {V} (k : string) (v : V) (d : dict string V) :
  NoDup (dict_keys d) -> NoDup (dict_keys (dict_set String.eqb k v d)).
Proof.
  intros Hnd. rewrite dict_set_keys. unfold dict_mem.
  destruct (dict_get String.eqb k d) eqn:Eg; [exact Hnd|].
  apply NoDup_app; [exact Hnd|repeat constructor; intros []|].
  intros a Ha [<-|[]]. exact (dict_get_keys _ _ Eg Ha).
Qed.

Lemma dict_In_get {V} (k : string) (v : V) (d : dict string V) :
  NoDup (dict_keys d) -> In (k, v) d -> dict_get String.eqb k d = Some v.
Proof.
  unfold dict_keys. induction d as [|[k' v'] d IH]; simpl; intros Hnd Hin;
    [contradiction|].
  inversion Hnd as [|? ? Hnotin Hnd']; subst.
  destruct Hin as [E|Hin].
  - injection E as -> ->. now rewrite String.eqb_refl.
  - destruct (String.eqb_spec k k') as [->|Hne]; [|now apply IH].
    exfalso. apply Hnotin. apply in_map_iff. now exists (k', v).
Qed.

Lemma week_bin_step_ok (seen : list string) (wb wb' : dict string (list string))
  (wi wi' : dict string string) (d : string) :
  bins_ok seen wb wi -> ~ In d seen ->
  week_bin_step (wb, wi) d = Ok (wb', wi') ->
  bins_ok (seen ++ [d]) wb' wi'.
Proof.
  intros [I1 I2 I3] Hnew H. unfold week_bin_step, rbind in H.
  destruct (Date.fromisoformat d) as [o|]; [|discriminate].
  set (wk := week_key_of o) in *.
  set (wb1 := if dict_mem String.eqb wk wb then wb
              else dict_set String.eqb wk [] wb) in *.
  assert (H1 : exists members0,
             dict_get String.eqb wk wb1 = Some members0 /\
             NoDup (dict_keys wb1) /\
             (forall k, k <> wk ->
                        dict_get String.eqb k wb1 = dict_get String.eqb k wb) /\
             NoDup members0 /\
             forall d0, In d0 members0 ->
                        In d0 seen /\ dict_get String.eqb d0 wi = Some wk).
  { unfold wb1, dict_mem.
    destruct (dict_get String.eqb wk wb) as [ms|] eqn:Eg.
    - exists ms. destruct (I2 _ _ Eg) as [_ [Hnd Hms]]. auto.
    - exists []. split; [apply (dict_get_set_same _ string_eqb_spec)|].
      split; [now apply dict_keys_set_NoDup|].
      split; [intros k Hk; now apply (dict_get_set_other _ string_eqb_spec)|].
      split; [constructor|intros d0 []]. }
  destruct H1 as [members0 [Eg1 [K1 [Hother [Hnd0 Hms0]]]]].
  unfold dict_getitem in H. rewrite Eg1 in H. injection H as <- <-.
  assert (Hwi : forall d0, d0 <> d ->
                  dict_get String.eqb d0 (dict_set String.eqb d wk wi)
                  = dict_get String.eqb d0 wi)
    by (intros d0 Hd0; now apply (dict_get_set_other _ string_eqb_spec)).
  assert (Hwid : dict_get String.eqb d (dict_set String.eqb d wk wi) = Some wk)
    by apply (dict_get_set_same _ string_eqb_spec).
  constructor.
  - now apply dict_keys_set_NoDup.
  - intros k members Hk.
    destruct (string_dec k wk) as [->|Hne].
    + rewrite (dict_get_set_same _ string_eqb_spec) in Hk. injection Hk as <-.
      split; [destruct members0; discriminate|].
      split.
      * apply NoDup_app; [exact Hnd0|repeat constructor; intros []|].
        intros a Ha [<-|[]]. apply Hnew. now apply Hms0.
      * intros d0 Hd0. apply in_app_or in Hd0. destruct Hd0 as [Hd0|[<-|[]]].
        -- destruct (Hms0 _ Hd0) as [Hs Hg]. split; [apply in_or_app; now left|].
           rewrite Hwi; [exact Hg|]. intros ->. contradiction.
        -- split; [apply in_or_app; right; now left|exact Hwid].
    + rewrite (dict_get_set_other _ string_eqb_spec) in Hk by exact Hne.
      rewrite Hother in Hk by exact Hne.
      destruct (I2 _ _ Hk) as [Hne' [Hnd Hms]].
      split; [exact Hne'|]. split; [exact Hnd|].
      intros d0 Hd0. destruct (Hms _ Hd0) as [Hs Hg].
      split; [apply in_or_app; now left|].
      rewrite Hwi; [exact Hg|]. intros ->. contradiction.
  - intros d0 Hd0. apply in_app_or in Hd0. destruct Hd0 as [Hd0|[<-|[]]].
    + destruct (I3 _ Hd0) as [k [members [Hg [Hk Hin]]]].
      assert (Hd0' : d0 <> d) by (intros ->; contradiction).
      destruct (string_dec k wk) as [->|Hne].
      * exists wk, (members0 ++ [d])%list. rewrite Hwi by exact Hd0'.
        split; [exact Hg|].
        split; [apply (dict_get_set_same _ string_eqb_spec)|].
        apply in_or_app. left.
        assert (Em : dict_get String.eqb wk wb1 = Some members).
        { unfold wb1, dict_mem. now rewrite Hk. }
        rewrite Eg1 in Em. now injection Em as ->.
      * exists k, members. rewrite Hwi by exact Hd0'.
        split; [exact Hg|]. split; [|exact Hin].
        rewrite (dict_get_set_other _ string_eqb_spec) by exact Hne.
        now rewrite Hother.
    + exists wk, (members0 ++ [d])%list.
      split; [exact Hwid|].
      split; [apply (dict_get_set_same _ string_eqb_spec)|].
      apply in_or_app. right. now left.
Qed.

Lemma week_bins_loop (rest : list string) :
  forall (seen : list string) (wb wb' : dict string (list string))
         (wi wi' : dict string string),
    bins_ok seen wb wi -> NoDup (seen ++ rest) ->
    rfold week_bin_step rest (wb, wi) = Ok (wb', wi') ->
    bins_ok (seen ++ rest) wb' wi'.
Proof.
  induction rest as [|d rest IH]; intros seen wb wb' wi wi' Hinv Hnd H.
  - injection H as <- <-. now rewrite app_nil_r.
  - cbn [rfold] in H.
    destruct (week_bin_step (wb, wi) d) as [[wb1 wi1]|] eqn:E; [|discriminate].
    replace (seen ++ d :: rest)%list with ((seen ++ [d]) ++ rest)%list in *
      by (now rewrite <- app_assoc).
    apply (IH _ wb1 _ wi1); [|exact Hnd|exact H].
    apply (week_bin_step_ok seen wb _ wi _ d Hinv); [|exact E].
    intros Hin. apply NoDup_app_remove_r in Hnd.
    apply NoDup_remove_2 in Hnd. rewrite app_nil_r in Hnd. contradiction.
Qed.

Lemma rfold_ext {T S} (f g : S -> T -> result S) (l : list T) :
  (forall s a, f s a = g s a) -> forall s, rfold f l s = rfold g l s.
Proof.
  intros Hfg. induction l as [|a l IH]; intros s; [reflexivity|].
  cbn [rfold]. rewrite Hfg. destruct (g s a); [apply IH|reflexivity].
Qed.

Lemma build_week_bins_step (dates : list string) :
  build_week_bins dates = rfold week_bin_step dates ([], []).
Proof.
  unfold build_week_bins. apply rfold_ext. intros [wb wi] d. reflexivity.
Qed.

Lemma create_indices_week_bins (r : Request.t) (idx : ModelIndices)
  (dates : list string) :
  _create_indices r = Ok idx ->
  _get_dates (Request.horizon r) = Ok dates ->
  build_week_bins dates = Ok (week_bins idx, week_idx idx).
Proof.
  unfold _create_indices. intros H Hd. rewrite Hd in H. cbn [rbind] in H.
  destruct (build_week_bins dates) as [[wb wi]|]; cbn [rbind] in H; [|discriminate].
  destruct (build_forbidden_adjacency (Request.shiftTypes r)) as [fa|];
    cbn [rbind] in H; [|discriminate].
  now injection H as <-.
Qed.

Lemma week_bins_ok (r : Request.t) (idx : ModelIndices) (dates : list string) :
  _create_indices r = Ok idx ->
  _get_dates (Request.horizon r) = Ok dates ->
  bins_ok dates (week_bins idx) (week_idx idx).
Proof.
  intros Hidx Hd.
  pose proof (create_indices_week_bins r idx dates Hidx Hd) as Hb.
  rewrite build_week_bins_step in Hb.
  destruct (get_dates_spec _ _ Hd) as [Hnd _].
  apply (week_bins_loop dates [] [] _ [] _); [|exact Hnd|exact Hb].
  constructor; [constructor|discriminate|intros d []].
Qed.

(** X15: the ISO-week bins of [_create_indices] partition the horizon:
    every horizon date has an entry in week_idx and lies in the bin of that
    key; every bin is non-empty, without repetition, holds only horizon
    dates, and week_idx sends each of its dates back to the bin's key. *)
Theorem week_bins_partition (r : Request.t) (idx : ModelIndices)
  (dates : list string) :
  _create_indices r = Ok idx ->
  _get_dates (Request.horizon r) = Ok dates ->
  (forall d, In d dates ->
     exists wk members,
       dict_get String.eqb d (week_idx idx) = Some wk /\
       In (wk, members) (week_bins idx) /\ In d members) /\
  (forall wk members, In (wk, members) (week_bins idx) ->
     members <> [] /\ NoDup members /\
     forall d, In d members ->
       In d dates /\ dict_get String.eqb d (week_idx idx) = Some wk).
Proof.
  intros Hidx Hd. destruct (week_bins_ok r idx dates Hidx Hd) as [I1 I2 I3].
  split.
  - intros d Hin. destruct (I3 d Hin) as [wk [members [Hg [Hk Hm]]]].
    exists wk, members. split; [exact Hg|]. split; [|exact Hm].
    exact (dict_get_In _ string_eqb_spec _ _ _ Hk).
  - intros wk members Hin. apply I2. now apply dict_In_get.
Qed.

Lemma week_bins_partition_witness :
  exists idx,
    _create_indices MoreExamples.two_nights = Ok idx /\
    (forall d, In d ["2025-01-01"; "2025-01-02"] ->
       exists wk members,
         dict_get String.eqb d (week_idx idx) = Some wk /\
         In (wk, members) (week_bins idx) /\ In d members) /\
    (forall wk members, In (wk, members) (week_bins idx) ->
       members <> [] /\ NoDup members /\
       forall d, In d members ->
         In d ["2025-01-01"; "2025-01-02"] /\
         dict_get String.eqb d (week_idx idx) = Some wk).
Proof.
  eexists. split; [vm_compute; reflexivity|].
  apply (week_bins_partition MoreExamples.two_nights).
  - vm_compute; reflexivity.
  - vm_compute; reflexivity.
Defined.

(* ------------------------------------------------------------------ *)
(** ** Sums over lists *)



















(* ------------------------------------------------------------------ *)
(** ** The summary: unfilled cells *)

Lemma insert_desc_perm (e : Unfilled.t) (l : list Unfilled.t) :
  Permutation (insert_desc e l) (e :: l).
Proof.
  induction l as [|h t IH]; simpl; [apply Permutation_refl|].
  destruct (Unfilled.unmet h <=? Unfilled.unmet e); [apply Permutation_refl|].
  eapply Permutation_trans; [apply perm_skip, IH|apply perm_swap].
Qed.

Lemma sort_desc_perm (l : list Unfilled.t) : Permutation (sort_desc l) l.
Proof.
  induction l as [|e l IH]; simpl; [constructor|].
  eapply Permutation_trans; [apply insert_desc_perm|now apply perm_skip].
Qed.

Lemma insert_desc_sorted (e : Unfilled.t) (l : list Unfilled.t) :
  StronglySorted unmet_desc l -> StronglySorted unmet_desc (insert_desc e l).
Proof.
  induction l as [|h t IH]; intros Hs; simpl.
  - repeat constructor.
  - inversion Hs as [|? ? Hst Hall]; subst.
    destruct (Unfilled.unmet h <=? Unfilled.unmet e) eqn:E.
    + apply Z.leb_le in E. constructor; [exact Hs|].
      constructor; [exact E|].
      rewrite Forall_forall in *. intros b Hb. specialize (Hall b Hb).
      unfold unmet_desc in *. lia.
    + apply Z.leb_gt in E. constructor; [now apply IH|].
      rewrite Forall_forall in *. intros b Hb.
      apply (Permutation_in _ (insert_desc_perm e t)) in Hb.
      destruct Hb as [<-|Hb]; [unfold unmet_desc; lia|now apply Hall].
Qed.

Lemma sort_desc_sorted (l : list Unfilled.t) : StronglySorted unmet_desc (sort_desc l).
Proof.
  induction l as [|e l IH]; simpl; [constructor|now apply insert_desc_sorted].
Qed.

Lemma sorted_firstn (n : nat) :
  forall l : list Unfilled.t,
    StronglySorted unmet_desc l -> StronglySorted unmet_desc (firstn n l).
Proof.
  induction n as [|n IH]; intros [|a l] Hs; simpl; try constructor.
  - inversion Hs; subst. now apply IH.
  - inversion Hs as [|? ? _ Hall]; subst. rewrite Forall_forall in *.
    intros b Hb. apply Hall. revert Hb. clear. revert l.
    induction n as [|n IH]; intros [|c l]; simpl; try tauto.
    intros [->|Hb]; [now left|right; now apply IH].
Qed.

Lemma sorted_split (n : nat) :
  forall (l : list Unfilled.t) (a b : Unfilled.t),
    StronglySorted unmet_desc l ->
    In a (firstn n l) -> In b (skipn n l) -> unmet_desc a b.
Proof.
  induction n as [|n IH]; intros [|c l] a b Hs Ha Hb; simpl in *; try contradiction.
  inversion Hs as [|? ? Hs' Hall]; subst.
  destruct Ha as [<-|Ha].
  - rewrite Forall_forall in Hall. apply Hall.
    rewrite <- (firstn_skipn n l). apply in_or_app. now right.
  - now apply (IH l).
Qed.

(** X17: the list of unfilled cells of the summary holds at most fifty
    entries, ordered by unmet demand, largest first; each comes from an
    entry of cell_fill with unmet above 0; and an entry of cell_fill with
    unmet above 0 is either listed or, with fifty listed, has no more unmet
    demand than any listed one. *)
Theorem unfilled_top_fifty (assignments : list Assignment.t) (r : Request.t)
  (resp : CpSolverResponse) (y u : xdict) (s : Summary.t) :
  _create_assignments_summary assignments r resp y u = Ok s ->
  (List.length (Summary.unfilled s) <= 50)%nat /\
  StronglySorted unmet_desc (Summary.unfilled s) /\
  (forall e, In e (Summary.unfilled s) ->
     0 < Unfilled.unmet e /\
     exists cell_data,
       In (Unfilled.cell e, cell_data) (Summary.cell_fill s) /\
       e = unfilled_entry (Unfilled.cell e) cell_data) /\
  (forall cell_key cell_data,
     In (cell_key, cell_data) (Summary.cell_fill s) ->
     0 < CellFill.unmet cell_data ->
     In (unfilled_entry cell_key cell_data) (Summary.unfilled s) \/
     (List.length (Summary.unfilled s) = 50%nat /\
      forall e, In e (Summary.unfilled s) ->
                CellFill.unmet cell_data <= Unfilled.unmet e)).
Proof.
  unfold _create_assignments_summary. intros H.
  destruct (assigned_by_skill r resp y (summary_demand_req r)) as [abs|];
    cbn [rbind] in H; [|discriminate].
  destruct (cell_statistics r abs) as [cell_fill total_unmet].
  destruct (staff_minutes_and_shifts assignments r) as [[sm ss]|];
    cbn [rbind] in H; [|discriminate].
  destruct (week_caps_of assignments r) as [wc|]; cbn [rbind] in H; [|discriminate].
  injection H as <-. cbn [Summary.unfilled Summary.cell_fill].
  unfold unfilled_of.
  set (cells := flat_map _ cell_fill).
  assert (Hcells : forall e, In e cells <->
            exists cell_data, In (Unfilled.cell e, cell_data) cell_fill /\
                              0 < CellFill.unmet cell_data /\
                              e = unfilled_entry (Unfilled.cell e) cell_data).
  { intros e. unfold cells. rewrite in_flat_map. split.
    - intros [[k cd] [Hin He]].
      destruct (0 <? CellFill.unmet cd) eqn:E; [|contradiction].
      destruct He as [<-|[]]. apply Z.ltb_lt in E. now exists cd.
    - intros [cd [Hin [Hpos He]]]. exists (Unfilled.cell e, cd).
      split; [exact Hin|]. apply Z.ltb_lt in Hpos. rewrite Hpos. left.
      symmetry. exact He. }
  pose proof (sort_desc_sorted cells) as Hsorted.
  pose proof (sort_desc_perm cells) as Hperm.
  split; [apply firstn_le_length|].
  split; [now apply sorted_firstn|].
  split.
  - intros e He.
    assert (Hin : In e cells).
    { apply (Permutation_in _ Hperm).
      rewrite <- (firstn_skipn 50 (sort_desc cells)). apply in_or_app. now left. }
    apply Hcells in Hin. destruct Hin as [cd [Hin [Hpos E]]].
    split; [rewrite E; exact Hpos|]. now exists cd.
  - intros k cd Hin Hpos.
    assert (Hc : In (unfilled_entry k cd) cells).
    { apply Hcells. exists cd. cbn. auto. }
    apply (Permutation_in _ (Permutation_sym Hperm)) in Hc.
    rewrite <- (firstn_skipn 50 (sort_desc cells)) in Hc.
    apply in_app_or in Hc. destruct Hc as [Hc|Hc]; [now left|right].
    split.
    + apply firstn_length_le.
      destruct (le_lt_dec 50 (List.length (sort_desc cells))) as [Hl|Hl];
        [exact Hl|].
      rewrite skipn_all2 in Hc by lia. contradiction.
    + intros e He.
      exact (sorted_split 50 _ _ _ Hsorted He Hc).
Qed.

Lemma unfilled_top_fifty_witness :
  exists s,
    _create_assignments_summary
      [Assignment.mk "s1" "w1" "2025-01-01" "NIGHT" "st-night"]
      MoreExamples.two_nights (mkResponse FEASIBLE MoreExamples.first_night_only)
      MoreExamples.two_nights_y MoreExamples.two_nights_u = Ok s /\
    Summary.unfilled s = [Unfilled.mk "2025-01-02_NIGHT_w1" 1 1 0] /\
    (List.length (Summary.unfilled s) <= 50)%nat /\
    StronglySorted unmet_desc (Summary.unfilled s) /\
    (forall e, In e (Summary.unfilled s) ->
       0 < Unfilled.unmet e /\
       exists cell_data,
         In (Unfilled.cell e, cell_data) (Summary.cell_fill s) /\
         e = unfilled_entry (Unfilled.cell e) cell_data) /\
    (forall cell_key cell_data,
       In (cell_key, cell_data) (Summary.cell_fill s) ->
       0 < CellFill.unmet cell_data ->
       In (unfilled_entry cell_key cell_data) (Summary.unfilled s) \/
       (List.length (Summary.unfilled s) = 50%nat /\
        forall e, In e (Summary.unfilled s) ->
                  CellFill.unmet cell_data <= Unfilled.unmet e)).
Proof.
  eexists. split; [vm_compute; reflexivity|]. split; [reflexivity|].
  eapply (unfilled_top_fifty
            [Assignment.mk "s1" "w1" "2025-01-01" "NIGHT" "st-night"]
            MoreExamples.two_nights
            (mkResponse FEASIBLE MoreExamples.first_night_only)
            MoreExamples.two_nights_y MoreExamples.two_nights_u).
  vm_compute; reflexivity.
Defined.
